(** * uPIMulator chiplet model generator: workload-to-DAG compiler

    Shallow embedding of [generate_chiplet_model.py], in its two versions:
    - [golang/uPIMulator/tools/generate_chiplet_model.py], the chunked
      builder (module [GolangTools]);
    - [tools/generate_chiplet_model.py], the unchunked-attention builder
      (module [Tools]).

    Python integers are [Z]; Python dicts (insertion ordered, serialised in
    that order by [json.dump]) are association lists; exceptions are the
    [Raise] branch of [result]; the growing [sequence] list that
    [append_stage] mutates is the state of the monad [M]. *)

From Equations Require Import Equations.
From Stdlib Require Import ZArith QArith List String Ascii Bool Lia.
From Stdlib Require Import DecimalString.
Import ListNotations.
Local Open Scope string_scope.
Local Open Scope list_scope.
Local Open Scope Z_scope.
Set Warnings "-register-all".

(** ** Python values *)

(** A Python float; finite doubles are rationals. *)
Inductive pyfloat : Type :=
| FNan
| FInf (negative : bool)
| FFin (q : Q).

Inductive value : Type :=
| VNone
| VBool (b : bool)
| VInt (z : Z)
| VFloat (f : pyfloat)
| VStr (s : string)
| VList (l : list value)
| VDict (d : list (string * value)).

Definition dict : Type := list (string * value).

Inductive exn : Type :=
| ZeroDivisionError
| IndexError
| KeyError
| TypeError
| ValueError
| OverflowError
| FileNotFoundError.

Inductive result (A : Type) : Type :=
| Ok (a : A)
| Raise (e : exn).
Arguments Ok {A} a.
Arguments Raise {A} e.

Definition rbind {A B} (r : result A) (k : A -> result B) : result B :=
  match r with
  | Ok a => k a
  | Raise e => Raise e
  end.

(** ** Dict operations *)

(** [key in d] and [d[key]] / [d.get(key)]. *)
Fixpoint get (k : string) (d : dict) : option value :=
  match d with
  | [] => None
  | (k', v) :: rest => if String.eqb k k' then Some v else get k rest
  end.

(** [d[key] = v]: an existing key keeps its position, a new key goes last. *)
Fixpoint dict_set (k : string) (v : value) (d : dict) : dict :=
  match d with
  | [] => [(k, v)]
  | (k', v') :: rest =>
      if String.eqb k k' then (k', v) :: rest else (k', v') :: dict_set k v rest
  end.

(** [{**d, k1: v1, ...}]. *)
Definition dict_update (d : dict) (kvs : dict) : dict :=
  fold_left (fun acc kv => dict_set (fst kv) (snd kv) acc) kvs d.

Definition get_int (k : string) (d : dict) : option Z :=
  match get k d with
  | Some (VInt z) => Some z
  | _ => None
  end.

Definition get_str (k : string) (d : dict) : option string :=
  match get k d with
  | Some (VStr s) => Some s
  | _ => None
  end.

Definition ints_of (l : list value) : list Z :=
  flat_map (fun v => match v with VInt z => [z] | _ => [] end) l.

Definition VInts (l : list Z) : value := VList (map VInt l).

(** The [deps] list of a stage ([[]] when the key is absent). *)
Definition stage_deps (st : dict) : list Z :=
  match get "deps" st with
  | Some (VList l) => ints_of l
  | _ => []
  end.

(** The dicts of the [experts] list of a stage. *)
Definition stage_experts (st : dict) : list dict :=
  match get "experts" st with
  | Some (VList l) =>
      flat_map (fun v => match v with VDict d => [d] | _ => [] end) l
  | _ => []
  end.

(** ** Python arithmetic *)

(** [str(n)] for an int. *)
Definition str (z : Z) : string := NilZero.string_of_int (Z.to_int z).

(** [a // b]; Rocq's [Z.div] is the floor division of Python. *)
Definition py_floordiv (a b : Z) : result Z :=
  if b =? 0 then Raise ZeroDivisionError else Ok (a / b).

(** [a % b]; Rocq's [Z.modulo] has the sign of the divisor, as Python's. *)
Definition py_mod (a b : Z) : result Z :=
  if b =? 0 then Raise ZeroDivisionError else Ok (a mod b).

(** [int(math.ceil(a / b))] for ints [a] and [b > 0]: the ceiling of the
    quotient. Python goes through a double, which is exact for operands
    below 2^53; the model is the exact ceiling, and the statements about a
    value computed this way assume that bound ([double_bound], below). *)
Definition ceil_div (a b : Z) : Z := - ((- a) / b).

(** [int(a / b)] for ints [a] and [b > 0]: truncation toward zero (exact
    below 2^53, as above). *)
Definition trunc_div (a b : Z) : Z := Z.quot a b.

(** [int(f)] for a float. *)
Definition int_of_float (f : pyfloat) : result Z :=
  match f with
  | FNan => Raise ValueError
  | FInf _ => Raise OverflowError
  | FFin q => Ok (Z.quot (Qnum q) (Zpos (Qden q)))
  end.

(** Truthiness, as used by [or], [not] and [if]. *)
Definition truthy (v : value) : bool :=
  match v with
  | VNone => false
  | VBool b => b
  | VInt z => negb (z =? 0)
  | VFloat FNan => true
  | VFloat (FInf _) => true
  | VFloat (FFin q) => negb (Qnum q =? 0)
  | VStr s => negb (String.eqb s "")
  | VList l => match l with [] => false | _ => true end
  | VDict d => match d with [] => false | _ => true end
  end.

(** [l[i]], with Python's negative indices. *)
Definition py_index {A} (l : list A) (i : Z) : result A :=
  let n := Z.of_nat (List.length l) in
  let j := if i <? 0 then i + n else i in
  if (0 <=? j) && (j <? n) then
    match nth_error l (Z.to_nat j) with
    | Some a => Ok a
    | None => Raise IndexError
    end
  else Raise IndexError.

(** [range(n)] and [enumerate(l)]. *)
Fixpoint range_from (start : Z) (n : nat) : list Z :=
  match n with
  | O => []
  | S n' => start :: range_from (start + 1) n'
  end.

Definition range (n : Z) : list Z := range_from 0 (Z.to_nat n).

Fixpoint enumerate_from {A} (start : Z) (l : list A) : list (Z * A) :=
  match l with
  | [] => []
  | a :: rest => (start, a) :: enumerate_from (start + 1) rest
  end.

Definition enumerate {A} (l : list A) : list (Z * A) := enumerate_from 0 l.

Definition sum_list (l : list Z) : Z := fold_right Z.add 0 l.

(** ** The builder monad: the [sequence] list as state, exceptions *)

Definition M (A : Type) : Type := list dict -> result (A * list dict).

Definition ret {A} (a : A) : M A := fun s => Ok (a, s).

Definition bind {A B} (m : M A) (k : A -> M B) : M B :=
  fun s =>
    match m s with
    | Ok (a, s') => k a s'
    | Raise e => Raise e
    end.

Definition lift {A} (r : result A) : M A :=
  fun s =>
    match r with
    | Ok a => Ok (a, s)
    | Raise e => Raise e
    end.

Declare Scope builder_scope.
Delimit Scope builder_scope with builder.
Notation "x <- m ;; k" := (bind m (fun x => k))
  (at level 61, m at next level, right associativity) : builder_scope.
Notation "' pat <- m ;; k" := (bind m (fun z => match z with pat => k end))
  (at level 61, pat pattern, m at next level, right associativity) : builder_scope.

(** A [for] loop over [l] whose loop-carried variables are [acc]. *)
Fixpoint for_each {A S} (l : list A) (acc : S) (body : S -> A -> M S) : M S :=
  match l with
  | [] => ret acc
  | a :: rest => bind (body acc a) (fun acc' => for_each rest acc' body)
  end.

(** ** Functions shared by both versions of the generator *)

(** [def append_stage(sequence, stage, depends=None) -> int] *)
Definition append_stage (stage : dict) (depends : option (list Z)) : M Z :=
  fun sequence =>
    let stage' :=
      match depends with
      | None =>
          match sequence with
          | [] => stage
          | _ => dict_set "deps" (VInts [Z.of_nat (List.length sequence) - 1]) stage
          end
      | Some deps => dict_set "deps" (VInts deps) stage
      end in
    let sequence' := sequence ++ [stage'] in
    Ok (Z.of_nat (List.length sequence') - 1, sequence').

(** The [while remaining > 0] loop of [build_chunk_plan]. It terminates
    because [tokens_per_chunk] is at least 1, which the caller establishes
    with [max(..., 1)]. *)
Equations? chunk_loop (tokens_per_chunk : Z) (Hpos : 1 <= tokens_per_chunk)
    (remaining : Z) (plan : list Z) : list Z
    by wf (Z.to_nat remaining) lt :=
  chunk_loop tokens_per_chunk Hpos remaining plan with Z_gt_dec remaining 0 => {
    | left _ =>
        chunk_loop tokens_per_chunk Hpos
          (remaining - Z.min tokens_per_chunk remaining)
          (plan ++ [Z.min tokens_per_chunk remaining]);
    | right _ => plan }.
Proof. lia. Qed.

(** [def build_chunk_plan(tokens, hidden_size, dtype_bytes, chunk_bytes)] *)
Definition build_chunk_plan (tokens hidden_size dtype_bytes chunk_bytes : Z)
  : result (list Z) :=
  if tokens <=? 0 then Ok []
  else
    let per_token_bytes := Z.max (hidden_size * dtype_bytes) dtype_bytes in
    let per_token_bytes :=
      if per_token_bytes <=? 0 then dtype_bytes else per_token_bytes in
    rbind (py_floordiv chunk_bytes per_token_bytes) (fun q =>
    let tokens_per_chunk := Z.max q 1 in
    let plan := chunk_loop tokens_per_chunk (Z.le_max_r q 1) tokens [] in
    let plan := match plan with [] => plan ++ [tokens] | _ => plan end in
    Ok plan).

(** The chunk plan in closed form: full chunks, then the remainder. *)
Definition chunk_closed_form (tokens_per_chunk remaining : Z) : list Z :=
  repeat tokens_per_chunk (Z.to_nat (remaining / tokens_per_chunk))
  ++ (if remaining mod tokens_per_chunk =? 0 then []
      else [remaining mod tokens_per_chunk]).

(** [len(l)] *)
Definition len {A} (l : list A) : Z := Z.of_nat (List.length l).

(** A list comprehension or accumulating loop whose element can raise. *)
Fixpoint traverse {A B} (f : A -> result B) (l : list A) : result (list B) :=
  match l with
  | [] => Ok []
  | a :: rest =>
      rbind (f a) (fun b => rbind (traverse f rest) (fun bs => Ok (b :: bs)))
  end.

(** The transfer latency formula, [max(int(math.ceil(size / 4096)), 4)]. *)
Definition transfer_latency (size : Z) : Z := Z.max (ceil_div size 4096) 4.

(** [def load_model_config(path: Optional[Path]) -> Dict[str, Any]]; the
    file system is [fs], from a path to the JSON object stored there. *)
Definition load_model_config (fs : string -> option dict)
    (path : option string) : result dict :=
  match path with
  | None => Ok []
  | Some p =>
      match fs p with
      | None => Raise FileNotFoundError
      | Some data => Ok data
      end
  end.

(** [def int_from_config(data, *keys, default=None) -> Optional[int]];
    [isinstance(v, (int, float))] holds for bools too. *)
Fixpoint int_from_config (data : dict) (keys : list string)
    (default : option Z) : result (option Z) :=
  match keys with
  | [] => Ok default
  | key :: rest =>
      match get key data with
      | Some (VInt z) => Ok (Some z)
      | Some (VBool b) => Ok (Some (Z.b2z b))
      | Some (VFloat f) => rbind (int_of_float f) (fun z => Ok (Some z))
      | _ => int_from_config data rest default
      end
  end.

(** [s.lower()], on the ASCII letters. *)
Definition lower_ascii (c : ascii) : ascii :=
  let n := nat_of_ascii c in
  if (65 <=? n)%nat && (n <=? 90)%nat then ascii_of_nat (n + 32) else c.

Fixpoint lower (s : string) : string :=
  match s with
  | EmptyString => EmptyString
  | String c rest => String (lower_ascii c) (lower rest)
  end.

(** [def bool_from_config(data, *keys, default=False) -> bool] *)
Fixpoint bool_from_config (data : dict) (keys : list string)
    (default : bool) : bool :=
  match keys with
  | [] => default
  | key :: rest =>
      match get key data with
      | Some (VBool b) => b
      | Some (VStr v) =>
          existsb (String.eqb (lower v)) ["1"; "true"; "yes"; "y"; "on"]
      | _ => bool_from_config data rest default
      end
  end.

(** The [argparse.Namespace] built by [build_arg_parser]. The float
    [digital_latency_scale] is given as the map
    [hidden_size -> int(hidden_size * digital_latency_scale)], for a finite
    scale.  For a NaN or an infinite scale that expression raises
    [ValueError] or [OverflowError] in the builder; this path is left out,
    and what is stated of a builder is stated of the sequences that it
    returns. *)
Record Namespace : Type := {
  args_config : option string;
  args_output : string;
  args_name : option string;
  args_seq_length : Z;
  args_batch : Z;
  args_dtype_bytes : Z;
  args_layers : option Z;
  args_hidden_size : option Z;
  args_intermediate_size : option Z;
  args_num_experts : option Z;
  args_experts_per_tok : option Z;
  args_digital_chiplets : Z;
  args_rram_chiplets : Z;
  args_digital_latency_scale : Z -> Z;
  args_chunk_bytes : Z
}.

(** [a or b] for an [Optional[int]] [a]: [None] and [0] are falsy, and [b]
    is evaluated only then. *)
Definition or_int (a : option Z) (b : result (option Z)) : result (option Z) :=
  match a with
  | Some v => if v =? 0 then b else Ok (Some v)
  | None => b
  end.

(** An [Optional[int]] used as an int; [None] in arithmetic is a
    [TypeError]. *)
Definition as_int (a : option Z) : result Z :=
  match a with
  | Some v => Ok v
  | None => Raise TypeError
  end.

(** [v[0]] *)
Definition subscript0 (v : value) : result value :=
  match v with
  | VList (x :: _) => Ok x
  | VList [] => Raise IndexError
  | VStr (String c _) => Ok (VStr (String c EmptyString))
  | VStr EmptyString => Raise IndexError
  | VDict _ => Raise KeyError
  | _ => Raise TypeError
  end.

Definition opt_value (v : option value) : value :=
  match v with
  | Some x => x
  | None => VNone
  end.

(** [def generate_chiplet_model(args) -> Dict[str, Any]], the same text in
    both versions of the file; [build_moe_sequence] is the builder of the
    version. *)
Section Generate.

Variable build_moe_sequence :
  Z -> Z -> Z -> Z -> Z -> Z -> Z -> Z -> Z -> Z -> (Z -> Z) -> Z ->
  result (list dict).

Definition generate_chiplet_model (fs : string -> option dict)
    (args : Namespace) : result dict :=
  let config_path := args_config args in
  rbind (load_model_config fs config_path) (fun config_data =>
  rbind (or_int (args_hidden_size args)
           (int_from_config config_data ["hidden_size"; "n_embd"; "dim"]
              (Some 4096))) (fun hidden_size =>
  rbind (or_int (args_intermediate_size args)
           (rbind (as_int hidden_size) (fun h =>
            int_from_config config_data
              ["moe_intermediate_size"; "intermediate_size"; "ffn_hidden_size"]
              (Some (h * 4))))) (fun intermediate_size =>
  rbind (or_int (args_layers args)
           (int_from_config config_data
              ["num_hidden_layers"; "n_layer"; "num_layers"] (Some 32)))
    (fun num_layers =>
  rbind (int_from_config config_data ["num_local_experts"] None)
    (fun config_local_experts =>
  rbind (int_from_config config_data ["moe_num_experts"; "num_experts"] None)
    (fun config_moe_experts =>
  rbind (or_int (args_num_experts args)
           (or_int config_local_experts
              (or_int config_moe_experts (Ok (Some 16))))) (fun num_experts =>
  rbind (or_int (args_experts_per_tok args)
           (int_from_config config_data ["moe_topk"; "moe_top_k"] (Some 2)))
    (fun experts_per_tok =>
  rbind (as_int num_experts) (fun num_experts =>
  let use_moe := bool_from_config config_data ["use_moe"] (0 <? num_experts) in
  if negb use_moe && (num_experts <=? 0) then Raise ValueError
  else
  let num_experts := if num_experts <=? 0 then 1 else num_experts in
  rbind (as_int num_layers) (fun num_layers =>
  rbind (as_int hidden_size) (fun hidden_size =>
  rbind (as_int intermediate_size) (fun intermediate_size =>
  rbind (as_int experts_per_tok) (fun experts_per_tok =>
  rbind (build_moe_sequence num_layers hidden_size intermediate_size
           num_experts experts_per_tok (args_seq_length args)
           (args_batch args) (args_dtype_bytes args)
           (args_digital_chiplets args) (args_rram_chiplets args)
           (args_digital_latency_scale args) (args_chunk_bytes args))
    (fun sequence =>
  rbind (let n := match args_name args with
                   | Some n => VStr n
                   | None => VNone
                   end in
         if truthy n then Ok n else
         let m := opt_value (get "model_type" config_data) in
         if truthy m then Ok m else
         subscript0 (match get "architectures" config_data with
                     | Some a => a
                     | None => VList [VStr "moe_model"]
                     end)) (fun name =>
  Ok [("name", name);
      ("sequence", VList (map VDict sequence));
      ("metadata",
       VDict [("hidden_size", VInt hidden_size);
              ("intermediate_size", VInt intermediate_size);
              ("layers", VInt num_layers);
              ("num_experts", VInt num_experts);
              ("experts_per_tok", VInt experts_per_tok);
              ("seq_length", VInt (args_seq_length args));
              ("batch", VInt (args_batch args));
              ("dtype_bytes", VInt (args_dtype_bytes args));
              ("digital_chiplets", VInt (args_digital_chiplets args));
              ("rram_chiplets", VInt (args_rram_chiplets args));
              ("chunk_bytes", VInt (args_chunk_bytes args))])]))))))))))))))).

(** [def main()], after [parse_args]: the document written to
    [args.output], if any. *)
Definition main (fs : string -> option dict) (args : Namespace)
  : result (string * dict) :=
  rbind (generate_chiplet_model fs args) (fun spec =>
  Ok (args_output args, spec)).

End Generate.

(** ** golang/uPIMulator/tools/generate_chiplet_model.py *)

Module GolangTools.

Local Open Scope builder_scope.

(** [def _normalize_deps(value: Optional[Any]) -> List[int]]; a [bool] is an
    [int] for [isinstance], a [str] is a [Sequence] with no [int] in it. *)
Definition _normalize_deps (v : value) : list Z :=
  match v with
  | VNone => []
  | VBool b => [Z.b2z b]
  | VInt z => [z]
  | VList l => ints_of l
  | _ => []
  end.

(** One iteration of the loop of [append_chunked_stage]; the loop-carried
    variables are [chunk_ids] and [prev_idx]. *)
Definition append_chunked_stage_body (stage_builder : Z -> Z -> dict)
    (base_list : list Z) (per_chunk_dep : option (list value))
    (enforce_sequential : bool)
    (acc : list Z * option Z) (it : Z * Z) : M (list Z * option Z) :=
  let '(chunk_ids, prev_idx) := acc in
  let '(idx, token_count) := it in
  let deps : list Z := [] in
  deps <- match per_chunk_dep with
          | Some pcd =>
              if idx <? len pcd
              then d <- lift (py_index pcd idx) ;; ret (deps ++ _normalize_deps d)
              else ret deps
          | None => ret deps
          end ;;
  let deps :=
    if (idx =? 0) && (match deps with [] => true | _ => false end)
       && (match base_list with [] => false | _ => true end)
    then deps ++ base_list else deps in
  let deps :=
    match prev_idx with
    | Some p => if enforce_sequential then deps ++ [p] else deps
    | None => deps
    end in
  let stage := stage_builder idx token_count in
  let dep_arg := match deps with [] => None | _ => Some deps end in
  stage_idx <- append_stage stage dep_arg ;;
  ret (chunk_ids ++ [stage_idx], Some stage_idx).

(** [def append_chunked_stage(sequence, stage_builder, chunk_plan,
    base_dep=None, per_chunk_dep=None, enforce_sequential=True)] *)
Definition append_chunked_stage (stage_builder : Z -> Z -> dict)
    (chunk_plan : list Z) (base_dep : value)
    (per_chunk_dep : option (list value)) (enforce_sequential : bool)
  : M (list Z) :=
  match chunk_plan with
  | [] => ret []
  | _ =>
      let base_list := _normalize_deps base_dep in
      r <- for_each (enumerate chunk_plan) ([], None)
             (append_chunked_stage_body stage_builder base_list per_chunk_dep
                enforce_sequential) ;;
      ret (fst r)
  end.

(** The locals of [build_moe_sequence] that its nested functions and its
    layer loop close over. [digital_chiplets] and [rram_chiplets] are the
    values after [max(..., 1)]: Python closures read a variable when they
    are called, and every call of [chunk_digital_owner] comes after the
    reassignment. Both are at least 1, so [%] by them does not raise. *)
Record closure : Type := {
  cl_hidden_size : Z;
  cl_intermediate_size : Z;
  cl_num_experts : Z;
  cl_experts_per_tok : Z;
  cl_dtype_bytes : Z;
  cl_digital_chiplets : Z;
  cl_rram_chiplets : Z;
  cl_activation_bytes_total : Z;
  cl_projection_weight_bytes : Z;
  cl_expert_weight_bytes : Z;
  cl_chunk_plan : list Z;
  cl_chunk_byte_plan : list Z;
  cl_num_chunks : Z;
  cl_digital_latency_base : Z;
  cl_expert_chips : list Z;
  cl_embed_stage : Z
}.

Section Closure.

Variable cl : closure.
Local Abbreviation hidden_size := (cl_hidden_size cl).
Local Abbreviation intermediate_size := (cl_intermediate_size cl).
Local Abbreviation num_experts := (cl_num_experts cl).
Local Abbreviation experts_per_tok := (cl_experts_per_tok cl).
Local Abbreviation dtype_bytes := (cl_dtype_bytes cl).
Local Abbreviation digital_chiplets := (cl_digital_chiplets cl).
Local Abbreviation rram_chiplets := (cl_rram_chiplets cl).
Local Abbreviation activation_bytes_total := (cl_activation_bytes_total cl).
Local Abbreviation projection_weight_bytes := (cl_projection_weight_bytes cl).
Local Abbreviation expert_weight_bytes := (cl_expert_weight_bytes cl).
Local Abbreviation chunk_plan := (cl_chunk_plan cl).
Local Abbreviation chunk_byte_plan := (cl_chunk_byte_plan cl).
Local Abbreviation num_chunks := (cl_num_chunks cl).
Local Abbreviation digital_latency_base := (cl_digital_latency_base cl).
Local Abbreviation expert_chips := (cl_expert_chips cl).
Local Abbreviation embed_stage := (cl_embed_stage cl).

(** [def chunk_digital_owner(layer_idx, chunk_idx)] *)
Definition chunk_digital_owner (layer_idx chunk_idx : Z) : Z :=
  if digital_chiplets <=? 0 then 0
  else (layer_idx + chunk_idx) mod digital_chiplets.

Definition projection_aux (proj_label : string) (chunk_idx : Z) : value :=
  VDict [("chunk_index", VInt chunk_idx);
         ("chunk_total", VInt num_chunks);
         ("projection", VStr proj_label)].

Definition projection_down (proj_label : string) (layer_idx chunk_idx : Z)
    (chunk_size rram_id chunk_digital : Z) : dict :=
  [("type", VStr "transfer");
   ("name", VStr (proj_label ++ "_transfer_to_rram_L" ++ str layer_idx
                    ++ "_C" ++ str chunk_idx));
   ("direction", VStr "digital_to_rram");
   ("bytes", VInt chunk_size);
   ("latency", VInt (Z.max (ceil_div chunk_size 4096) 4));
   ("aux", projection_aux proj_label chunk_idx);
   ("chiplet", VInt rram_id);
   ("queue", VInt chunk_digital)].

Definition projection_linear (proj_label : string) (layer_idx chunk_idx : Z)
    (approx_tok chunk_size weight_bytes rram_id : Z) : dict :=
  [("type", VStr "rram_linear");
   ("name", VStr (proj_label ++ "_proj_rram_L" ++ str layer_idx
                    ++ "_C" ++ str chunk_idx));
   ("rows", VInt approx_tok);
   ("cols", VInt hidden_size);
   ("k", VInt hidden_size);
   ("activation_bytes", VInt chunk_size);
   ("weight_bytes", VInt (if chunk_idx =? 0 then weight_bytes else 0));
   ("pulse_count", VInt (Z.max (hidden_size / 64) 16));
   ("adc_samples", VInt hidden_size);
   ("pre_cycles", VInt 12);
   ("post_cycles", VInt 10);
   ("aux", projection_aux proj_label chunk_idx);
   ("chiplet", VInt rram_id)].

Definition projection_up (proj_label : string) (layer_idx chunk_idx : Z)
    (chunk_size rram_id chunk_digital : Z) : dict :=
  [("type", VStr "transfer");
   ("name", VStr (proj_label ++ "_transfer_to_digital_L" ++ str layer_idx
                    ++ "_C" ++ str chunk_idx));
   ("direction", VStr "rram_to_digital");
   ("bytes", VInt chunk_size);
   ("latency", VInt (Z.max (ceil_div chunk_size 4096) 4));
   ("aux", projection_aux proj_label chunk_idx);
   ("chiplet", VInt chunk_digital);
   ("queue", VInt rram_id)].

(** [chunk_byte_plan[chunk_idx] if chunk_idx < len(chunk_byte_plan) else
    chunk_byte_plan[-1]] *)
Definition chunk_size_of (chunk_idx : Z) : result Z :=
  if chunk_idx <? len chunk_byte_plan
  then py_index chunk_byte_plan chunk_idx
  else py_index chunk_byte_plan (-1).

(** One iteration of the loop of [add_projection]; [last_idx] is carried. *)
Definition add_projection_body (proj_label : string) (layer_idx : Z)
    (weight_bytes digital_id rram_id : Z) (last_idx : Z) (it : Z * Z) : M Z :=
  let '(chunk_idx, chunk_tokens) := it in
  chunk_size <- lift (chunk_size_of chunk_idx) ;;
  let approx_tok := chunk_tokens in
  let chunk_digital := chunk_digital_owner layer_idx chunk_idx in
  down <- append_stage
            (projection_down proj_label layer_idx chunk_idx chunk_size rram_id
               chunk_digital)
            (Some [last_idx]) ;;
  linear <- append_stage
              (projection_linear proj_label layer_idx chunk_idx approx_tok
                 chunk_size weight_bytes rram_id)
              (Some [down]) ;;
  up <- append_stage
          (projection_up proj_label layer_idx chunk_idx chunk_size rram_id
             chunk_digital)
          (Some [linear]) ;;
  ret up.

(** [def add_projection(proj_label, layer_idx, depends_idx, weight_bytes,
    digital_id, rram_id) -> int] *)
Definition add_projection (proj_label : string) (layer_idx depends_idx : Z)
    (weight_bytes digital_id rram_id : Z) : M Z :=
  for_each (enumerate chunk_plan) depends_idx
    (add_projection_body proj_label layer_idx weight_bytes digital_id rram_id).

Definition chunk_metadata (layer_idx : Z) (stage : string)
    (chunk_idx chunk_tokens : Z) : value :=
  VDict [("layer_index", VInt layer_idx);
         ("stage", VStr stage);
         ("chunk_index", VInt chunk_idx);
         ("chunk_tokens", VInt chunk_tokens);
         ("chunk_total", VInt (len chunk_plan))].

Definition attn_score_stage (layer_idx chunk_idx chunk_tokens : Z) : dict :=
  [("type", VStr "attention");
   ("name", VStr ("attn_score_L" ++ str layer_idx ++ "_C" ++ str chunk_idx));
   ("rows", VInt chunk_tokens);
   ("cols", VInt hidden_size);
   ("k", VInt hidden_size);
   ("latency", VInt digital_latency_base);
   ("chiplet", VInt (chunk_digital_owner layer_idx chunk_idx));
   ("queue", VInt (chunk_digital_owner layer_idx chunk_idx));
   ("weight_bytes", VInt (chunk_tokens * hidden_size * dtype_bytes));
   ("metadata", chunk_metadata layer_idx "attention_score" chunk_idx chunk_tokens)].

Definition softmax_stage (layer_idx chunk_idx chunk_tokens : Z) : dict :=
  [("type", VStr "softmax");
   ("name", VStr ("softmax_L" ++ str layer_idx ++ "_C" ++ str chunk_idx));
   ("rows", VInt chunk_tokens);
   ("cols", VInt hidden_size);
   ("latency", VInt (Z.max (digital_latency_base / 4) 8));
   ("chiplet", VInt (chunk_digital_owner layer_idx chunk_idx));
   ("queue", VInt (chunk_digital_owner layer_idx chunk_idx));
   ("nonlinear_kind", VStr "softmax");
   ("metadata", chunk_metadata layer_idx "attention_norm" chunk_idx chunk_tokens)].

Definition attn_mix_stage (layer_idx chunk_idx chunk_tokens : Z) : dict :=
  [("type", VStr "attention");
   ("name", VStr ("attn_mix_L" ++ str layer_idx ++ "_C" ++ str chunk_idx));
   ("rows", VInt chunk_tokens);
   ("cols", VInt hidden_size);
   ("k", VInt hidden_size);
   ("latency", VInt digital_latency_base);
   ("chiplet", VInt (chunk_digital_owner layer_idx chunk_idx));
   ("queue", VInt (chunk_digital_owner layer_idx chunk_idx));
   ("weight_bytes", VInt (chunk_tokens * hidden_size * dtype_bytes));
   ("metadata", chunk_metadata layer_idx "attention_mix" chunk_idx chunk_tokens)].

Definition post_attention_stage (layer_idx chunk_idx chunk_tokens : Z) : dict :=
  [("type", VStr "postprocess");
   ("name", VStr ("post_attention_L" ++ str layer_idx ++ "_C" ++ str chunk_idx));
   ("rows", VInt chunk_tokens);
   ("cols", VInt hidden_size);
   ("latency", VInt (Z.max (digital_latency_base / 5) 10));
   ("chiplet", VInt (chunk_digital_owner layer_idx chunk_idx));
   ("queue", VInt (chunk_digital_owner layer_idx chunk_idx));
   ("nonlinear_kind", VStr "residual");
   ("metadata", chunk_metadata layer_idx "post_attention" chunk_idx chunk_tokens)].

Definition moe_gating_stage (layer_idx chunk_idx chunk_tokens : Z) : dict :=
  [("type", VStr "moe_gating");
   ("name", VStr ("moe_gating_L" ++ str layer_idx ++ "_C" ++ str chunk_idx));
   ("rows", VInt chunk_tokens);
   ("cols", VInt experts_per_tok);
   ("k", VInt num_experts);
   ("latency", VInt (Z.max (digital_latency_base / 6) 6));
   ("aux", VDict [("experts_per_tok", VInt experts_per_tok);
                  ("chunk_index", VInt chunk_idx)]);
   ("chiplet", VInt (chunk_digital_owner layer_idx chunk_idx));
   ("queue", VInt (chunk_digital_owner layer_idx chunk_idx));
   ("randomize_experts", VBool true)].

Definition moe_merge_stage (layer_idx chunk_idx chunk_tokens : Z) : dict :=
  [("type", VStr "moe_merge");
   ("name", VStr ("moe_merge_L" ++ str layer_idx ++ "_C" ++ str chunk_idx));
   ("rows", VInt chunk_tokens);
   ("cols", VInt hidden_size);
   ("latency", VInt (Z.max (digital_latency_base / 5) 10))].

Definition postprocess_stage (layer_idx chunk_idx chunk_tokens : Z) : dict :=
  [("type", VStr "postprocess");
   ("name", VStr ("postprocess_L" ++ str layer_idx ++ "_C" ++ str chunk_idx));
   ("rows", VInt chunk_tokens);
   ("cols", VInt hidden_size);
   ("latency", VInt (Z.max (digital_latency_base / 3) 12));
   ("nonlinear_kind", VStr "residual");
   ("host_store_kind", VStr "kv_cache");
   ("chiplet", VInt (chunk_digital_owner layer_idx chunk_idx));
   ("queue", VInt (chunk_digital_owner layer_idx chunk_idx))].

(** One entry of [experts_template]. *)
Definition expert_template_entry (layer_idx expert_idx chip : Z) : dict :=
  [("name", VStr ("expert_" ++ str layer_idx ++ "_" ++ str expert_idx));
   ("chiplet", VInt chip);
   ("activation_bytes",
    VInt (activation_bytes_total / Z.max experts_per_tok 1));
   ("weight_bytes", VInt expert_weight_bytes);
   ("execute_latency", VInt (Z.max (trunc_div intermediate_size 16) 32))].

(** The [for expert_idx in range(num_experts)] loop filling
    [experts_template]. *)
Definition build_experts_template (layer_idx : Z) : result (list dict) :=
  traverse
    (fun expert_idx =>
       rbind (py_index expert_chips expert_idx) (fun chip =>
       Ok (expert_template_entry layer_idx expert_idx chip)))
    (range num_experts).

(** [{**expert, "activation_bytes": ..., "weight_bytes": ...,
    "chunk_index": chunk_idx}] *)
Definition chunk_expert (chunk_idx chunk_size : Z) (expert : dict)
  : result dict :=
  match get "weight_bytes" expert with
  | None => Raise KeyError
  | Some w =>
      Ok (dict_update expert
            [("activation_bytes", VInt (chunk_size / Z.max experts_per_tok 1));
             ("weight_bytes", if chunk_idx =? 0 then w else VInt 0);
             ("chunk_index", VInt chunk_idx)])
  end.

Definition moe_aux (chunk_idx : Z) : value :=
  VDict [("chunk_index", VInt chunk_idx);
         ("chunk_total", VInt num_chunks);
         ("experts_per_tok", VInt experts_per_tok)].

Definition moe_down (layer_idx chunk_idx chunk_size target_rram chunk_digital : Z)
  : dict :=
  [("type", VStr "transfer");
   ("name", VStr ("moe_transfer_to_rram_L" ++ str layer_idx
                    ++ "_C" ++ str chunk_idx));
   ("direction", VStr "digital_to_rram");
   ("bytes", VInt chunk_size);
   ("latency", VInt (Z.max (ceil_div chunk_size 4096) 4));
   ("aux", moe_aux chunk_idx);
   ("chiplet", VInt target_rram);
   ("queue", VInt chunk_digital)].

Definition moe_linear (layer_idx chunk_idx chunk_size : Z)
    (experts : list dict) : dict :=
  [("type", VStr "moe_linear");
   ("name", VStr ("moe_L" ++ str layer_idx ++ "_C" ++ str chunk_idx));
   ("parallel", VBool true);
   ("pulse_count", VInt (Z.max (intermediate_size / 64) 16));
   ("adc_samples", VInt hidden_size);
   ("pre_cycles", VInt 12);
   ("post_cycles", VInt 10);
   ("activation_bytes", VInt chunk_size);
   ("weight_bytes", VInt (if chunk_idx =? 0 then expert_weight_bytes else 0));
   ("experts", VList (map VDict experts))].

Definition moe_up (layer_idx chunk_idx chunk_size chunk_digital queue : Z)
  : dict :=
  [("type", VStr "transfer");
   ("name", VStr ("moe_transfer_to_digital_L" ++ str layer_idx
                    ++ "_C" ++ str chunk_idx));
   ("direction", VStr "rram_to_digital");
   ("bytes", VInt chunk_size);
   ("latency", VInt (Z.max (ceil_div chunk_size 4096) 4));
   ("aux", moe_aux chunk_idx);
   ("chiplet", VInt chunk_digital);
   ("queue", VInt queue)].

(** [expert_chips[(chunk_idx * experts_per_tok) % len(expert_chips)]] *)
Definition moe_target (chunk_idx : Z) : result Z :=
  rbind (py_mod (chunk_idx * experts_per_tok) (len expert_chips))
    (py_index expert_chips).

(** One iteration of the MoE dispatch loop; [moe_prev] and
    [transfer_up_chunks] are carried. *)
Definition moe_chunk_body (layer_idx : Z) (gating_chunks : list Z)
    (experts_template : list dict)
    (acc : option Z * list Z) (it : Z * Z) : M (option Z * list Z) :=
  let '(moe_prev, transfer_up_chunks) := acc in
  let '(chunk_idx, chunk_tokens) := it in
  chunk_size <- lift (chunk_size_of chunk_idx) ;;
  target_rram <- lift (moe_target chunk_idx) ;;
  let down_deps : list Z := [] in
  down_deps <- (if chunk_idx <? len gating_chunks
                then g <- lift (py_index gating_chunks chunk_idx) ;;
                     ret (down_deps ++ [g])
                else ret down_deps) ;;
  let down_deps :=
    match moe_prev with
    | Some p => down_deps ++ [p]
    | None => down_deps
    end in
  let chunk_digital := chunk_digital_owner layer_idx chunk_idx in
  transfer_down <- append_stage
                     (moe_down layer_idx chunk_idx chunk_size target_rram
                        chunk_digital)
                     (match down_deps with [] => None | _ => Some down_deps end) ;;
  experts <- lift (traverse (chunk_expert chunk_idx chunk_size)
                     experts_template) ;;
  moe_stage <- append_stage (moe_linear layer_idx chunk_idx chunk_size experts)
                 (Some [transfer_down]) ;;
  queue <- lift (moe_target chunk_idx) ;;
  transfer_up <- append_stage
                   (moe_up layer_idx chunk_idx chunk_size chunk_digital queue)
                   (Some [moe_stage]) ;;
  ret (Some transfer_up, transfer_up_chunks ++ [transfer_up]).

(** The [for idx in range(len(chunk_plan))] loop filling [mix_deps]. *)
Definition build_mix_deps (post_attn_chunks : list Z) (v_done : Z)
  : result (list value) :=
  traverse
    (fun idx =>
       let dep : list Z := [] in
       rbind (if idx <? len post_attn_chunks
              then rbind (py_index post_attn_chunks idx)
                     (fun p => Ok (dep ++ [p]))
              else Ok dep) (fun dep =>
       Ok (VInts (dep ++ [v_done]))))
    (range (len chunk_plan)).

(** [l[-1]] *)
Definition last_of (l : list Z) : result Z := py_index l (-1).

(** The body of [for layer_idx in range(layers)]; [prev_stage] is carried. *)
Definition layer_body (prev_stage : Z) (layer_idx : Z) : M Z :=
  let digital_id := layer_idx mod digital_chiplets in
  let rram_base := (layer_idx * 4) mod rram_chiplets in
  let q_rram := (rram_base + 0) mod rram_chiplets in
  let k_rram := (rram_base + 1) mod rram_chiplets in
  let v_rram := (rram_base + 2) mod rram_chiplets in
  q_done <- add_projection "q" layer_idx
              (if layer_idx =? 0 then embed_stage else prev_stage)
              projection_weight_bytes digital_id q_rram ;;
  k_done <- add_projection "k" layer_idx q_done projection_weight_bytes
              digital_id k_rram ;;
  v_done <- add_projection "v" layer_idx k_done projection_weight_bytes
              digital_id v_rram ;;
  attn_score_chunks <- append_chunked_stage (attn_score_stage layer_idx)
                         chunk_plan (VInts [q_done; k_done]) None false ;;
  post_attn_chunks <- append_chunked_stage (softmax_stage layer_idx)
                        chunk_plan VNone (Some (map VInt attn_score_chunks))
                        false ;;
  mix_deps <- lift (build_mix_deps post_attn_chunks v_done) ;;
  attn_mix_chunks <- append_chunked_stage (attn_mix_stage layer_idx)
                       chunk_plan VNone (Some mix_deps) false ;;
  attn_mix_tail <- lift (match attn_mix_chunks with
                         | _ :: _ => last_of attn_mix_chunks
                         | [] =>
                             match post_attn_chunks with
                             | _ :: _ => last_of post_attn_chunks
                             | [] => last_of attn_score_chunks
                             end
                         end) ;;
  let o_rram := (rram_base + 3) mod rram_chiplets in
  o_done <- add_projection "o" layer_idx attn_mix_tail projection_weight_bytes
              digital_id o_rram ;;
  post_attention_chunks <- append_chunked_stage (post_attention_stage layer_idx)
                             chunk_plan (VInt o_done) None false ;;
  gating_chunks <- append_chunked_stage (moe_gating_stage layer_idx)
                     chunk_plan VNone (Some (map VInt post_attention_chunks))
                     true ;;
  experts_template <- lift (build_experts_template layer_idx) ;;
  moe <- for_each (enumerate chunk_plan) (None, [])
           (moe_chunk_body layer_idx gating_chunks experts_template) ;;
  let '(moe_prev, transfer_up_chunks) := moe in
  merge_chunks <- append_chunked_stage (moe_merge_stage layer_idx)
                    chunk_plan VNone (Some (map VInt transfer_up_chunks))
                    true ;;
  postprocess_chunks <- append_chunked_stage (postprocess_stage layer_idx)
                          chunk_plan VNone (Some (map VInt merge_chunks))
                          true ;;
  match postprocess_chunks with
  | _ :: _ => lift (last_of postprocess_chunks)
  | [] =>
      match merge_chunks with
      | _ :: _ => lift (last_of merge_chunks)
      | [] =>
          match transfer_up_chunks with
          | _ :: _ => lift (last_of transfer_up_chunks)
          | [] =>
              match moe_prev with
              | Some p => ret p
              | None => ret o_done
              end
          end
      end
  end.

End Closure.

Definition embed (tokens hidden_size digital_latency_base : Z) : dict :=
  [("type", VStr "token_prep");
   ("name", VStr "embed");
   ("tokens", VInt tokens);
   ("features", VInt hidden_size);
   ("latency", VInt (Z.max (digital_latency_base / 8) 2));
   ("host_load_kind", VStr "kv_cache")].

(** [def build_moe_sequence(...)]. The float argument
    [digital_latency_scale] occurs only in
    [int(hidden_size * digital_latency_scale)]; it is given as that map
    from [hidden_size]. *)
Definition build_moe_sequence
    (layers hidden_size intermediate_size num_experts experts_per_tok : Z)
    (seq_length batch dtype_bytes digital_chiplets rram_chiplets : Z)
    (digital_latency_scale : Z -> Z) (chunk_bytes : Z)
  : result (list dict) :=
  let dtype_bytes := Z.max dtype_bytes 1 in
  let chunk_bytes := Z.max chunk_bytes dtype_bytes in
  let tokens := seq_length * batch in
  let activation_bytes_total := tokens * hidden_size * dtype_bytes in
  let projection_weight_bytes := hidden_size * hidden_size * dtype_bytes in
  let expert_weight_bytes := hidden_size * intermediate_size * dtype_bytes in
  rbind (build_chunk_plan tokens hidden_size dtype_bytes chunk_bytes)
    (fun chunk_plan =>
  let chunk_plan := match chunk_plan with [] => [tokens] | _ => chunk_plan end in
  let chunk_byte_plan :=
    map (fun chunk_tokens =>
           Z.max (chunk_tokens * hidden_size * dtype_bytes) dtype_bytes)
      chunk_plan in
  let num_chunks := len chunk_plan in
  let digital_latency_base := Z.max (digital_latency_scale hidden_size) 1 in
  let build : M Z :=
    embed_stage <- append_stage (embed tokens hidden_size digital_latency_base)
                     (Some []) ;;
    let digital_chiplets := Z.max digital_chiplets 1 in
    let rram_chiplets := Z.max rram_chiplets 1 in
    let num_chunks := len chunk_plan in
    let expert_chips :=
      map (fun chip_idx => chip_idx mod rram_chiplets) (range num_experts) in
    let prev_stage := embed_stage in
    for_each (range layers) prev_stage
      (layer_body
         {| cl_hidden_size := hidden_size;
            cl_intermediate_size := intermediate_size;
            cl_num_experts := num_experts;
            cl_experts_per_tok := experts_per_tok;
            cl_dtype_bytes := dtype_bytes;
            cl_digital_chiplets := digital_chiplets;
            cl_rram_chiplets := rram_chiplets;
            cl_activation_bytes_total := activation_bytes_total;
            cl_projection_weight_bytes := projection_weight_bytes;
            cl_expert_weight_bytes := expert_weight_bytes;
            cl_chunk_plan := chunk_plan;
            cl_chunk_byte_plan := chunk_byte_plan;
            cl_num_chunks := num_chunks;
            cl_digital_latency_base := digital_latency_base;
            cl_expert_chips := expert_chips;
            cl_embed_stage := embed_stage |}) in
  match build [] with
  | Ok (_, sequence) => Ok sequence
  | Raise e => Raise e
  end).

Definition generate_chiplet_model := generate_chiplet_model build_moe_sequence.
Definition main := main build_moe_sequence.

End GolangTools.

(** ** tools/generate_chiplet_model.py *)

Module Tools.

Local Open Scope builder_scope.

(** The locals of [build_moe_sequence] used by its layer loop;
    [digital_chiplets] and [rram_chiplets] are the values after
    [max(..., 1)], [dtype_bytes] and [chunk_bytes] the clamped ones. *)
Record locals : Type := {
  lc_hidden_size : Z;
  lc_intermediate_size : Z;
  lc_num_experts : Z;
  lc_experts_per_tok : Z;
  lc_chunk_bytes : Z;
  lc_digital_chiplets : Z;
  lc_rram_chiplets : Z;
  lc_tokens : Z;
  lc_activation_bytes_total : Z;
  lc_expert_weight_bytes : Z;
  lc_digital_latency_base : Z
}.

Section Locals.

Variable lc : locals.
Local Abbreviation hidden_size := (lc_hidden_size lc).
Local Abbreviation intermediate_size := (lc_intermediate_size lc).
Local Abbreviation num_experts := (lc_num_experts lc).
Local Abbreviation experts_per_tok := (lc_experts_per_tok lc).
Local Abbreviation chunk_bytes := (lc_chunk_bytes lc).
Local Abbreviation digital_chiplets := (lc_digital_chiplets lc).
Local Abbreviation rram_chiplets := (lc_rram_chiplets lc).
Local Abbreviation tokens := (lc_tokens lc).
Local Abbreviation activation_bytes_total := (lc_activation_bytes_total lc).
Local Abbreviation expert_weight_bytes := (lc_expert_weight_bytes lc).
Local Abbreviation digital_latency_base := (lc_digital_latency_base lc).

Definition attention_stage (layer_idx digital_owner : Z) : dict :=
  [("type", VStr "attention");
   ("name", VStr ("attn_L" ++ str layer_idx));
   ("rows", VInt hidden_size);
   ("cols", VInt hidden_size);
   ("k", VInt hidden_size);
   ("latency", VInt digital_latency_base);
   ("chiplet", VInt digital_owner);
   ("queue", VInt digital_owner);
   ("buffer_id", VInt hidden_size);
   ("metadata",
    VDict [("layer_index", VInt layer_idx);
           ("stage", VStr "attention");
           ("digital_chiplet", VInt digital_owner)])].

Definition softmax_stage (layer_idx digital_owner : Z) : dict :=
  [("type", VStr "softmax");
   ("name", VStr ("softmax_L" ++ str layer_idx));
   ("rows", VInt tokens);
   ("cols", VInt hidden_size);
   ("latency", VInt (Z.max (digital_latency_base / 4) 8));
   ("chiplet", VInt digital_owner);
   ("queue", VInt digital_owner);
   ("buffer_id", VInt hidden_size);
   ("metadata",
    VDict [("layer_index", VInt layer_idx);
           ("stage", VStr "attention_norm");
           ("digital_chiplet", VInt digital_owner)])].

Definition expert_template_entry (layer_idx expert_idx chiplet_id : Z) : dict :=
  [("name", VStr ("expert_" ++ str layer_idx ++ "_" ++ str expert_idx));
   ("chiplet", VInt chiplet_id);
   ("activation_bytes",
    VInt (activation_bytes_total / Z.max experts_per_tok 1));
   ("weight_bytes", VInt expert_weight_bytes);
   ("execute_latency", VInt (Z.max (trunc_div intermediate_size 16) 32));
   ("metadata",
    VDict [("layer_index", VInt layer_idx);
           ("expert_index", VInt expert_idx);
           ("rram_chiplet", VInt chiplet_id)])].

Definition moe_gating_stage (layer_idx digital_owner : Z)
    (candidate_experts : list Z) (candidate_chiplets : list value) : dict :=
  [("type", VStr "moe_gating");
   ("name", VStr ("moe_gating_L" ++ str layer_idx));
   ("rows", VInt tokens);
   ("cols", VInt num_experts);
   ("latency", VInt (Z.max (digital_latency_base / 6) 6));
   ("chiplet", VInt digital_owner);
   ("queue", VInt digital_owner);
   ("buffer_id", VInt hidden_size);
   ("metadata",
    VDict [("layer_index", VInt layer_idx);
           ("stage", VStr "moe_gating");
           ("digital_chiplet", VInt digital_owner);
           ("top_k", VInt experts_per_tok);
           ("candidate_experts", VInts candidate_experts);
           ("candidate_chiplets", VList candidate_chiplets);
           ("tokens", VInt tokens);
           ("features", VInt hidden_size)]);
   ("aux",
    VDict [("experts_per_tok", VInt experts_per_tok);
           ("layer_index", VInt layer_idx)])].

Definition transfer_aux (layer_idx chunk_idx num_chunks : Z) : value :=
  VDict [("chunk_index", VInt chunk_idx);
         ("chunk_total", VInt num_chunks);
         ("layer_index", VInt layer_idx)].

Definition transfer_down_stage
    (layer_idx chunk_idx num_chunks chunk_size rram_target digital_owner : Z)
  : dict :=
  [("type", VStr "transfer");
   ("name", VStr ("transfer_to_rram_L" ++ str layer_idx
                    ++ "_C" ++ str chunk_idx));
   ("direction", VStr "digital_to_rram");
   ("bytes", VInt chunk_size);
   ("latency", VInt (Z.max (ceil_div chunk_size 4096) 4));
   ("chiplet", VInt rram_target);
   ("queue", VInt digital_owner);
   ("buffer_id", VInt hidden_size);
   ("metadata",
    VDict [("layer_index", VInt layer_idx);
           ("chunk_index", VInt chunk_idx);
           ("chunk_total", VInt num_chunks);
           ("source_digital", VInt digital_owner);
           ("target_rram", VInt rram_target);
           ("stage", VStr "digital_to_rram");
           ("chunk_bytes", VInt chunk_size)]);
   ("aux", transfer_aux layer_idx chunk_idx num_chunks)].

(** [{**expert, ..., "metadata": {**expert.get("metadata", {}), ...}}] *)
Definition chunk_expert (chunk_idx chunk_size num_chunks : Z) (expert : dict)
  : result dict :=
  match get "weight_bytes" expert with
  | None => Raise KeyError
  | Some w =>
      match (match get "metadata" expert with
             | Some m => m
             | None => VDict []
             end) with
      | VDict md =>
          Ok (dict_update expert
                [("activation_bytes",
                  VInt (chunk_size / Z.max experts_per_tok 1));
                 ("weight_bytes", if chunk_idx =? 0 then w else VInt 0);
                 ("chunk_index", VInt chunk_idx);
                 ("metadata",
                  VDict (dict_update md
                           [("chunk_index", VInt chunk_idx);
                            ("chunk_bytes",
                             VInt (chunk_size / Z.max experts_per_tok 1));
                            ("chunk_total", VInt num_chunks)]))])
      | _ => Raise TypeError
      end
  end.

Definition moe_linear_stage (layer_idx chunk_idx num_chunks chunk_size : Z)
    (experts : list dict) : dict :=
  [("type", VStr "moe_linear");
   ("name", VStr ("moe_L" ++ str layer_idx ++ "_C" ++ str chunk_idx));
   ("parallel", VBool true);
   ("pulse_count", VInt (Z.max (intermediate_size / 64) 16));
   ("adc_samples", VInt hidden_size);
   ("pre_cycles", VInt 12);
   ("post_cycles", VInt 10);
   ("activation_bytes", VInt chunk_size);
   ("weight_bytes", VInt (if chunk_idx =? 0 then expert_weight_bytes else 0));
   ("experts", VList (map VDict experts));
   ("metadata",
    VDict [("layer_index", VInt layer_idx);
           ("chunk_index", VInt chunk_idx);
           ("chunk_total", VInt num_chunks);
           ("stage", VStr "moe_experts")])].

Definition transfer_up_stage
    (layer_idx chunk_idx num_chunks chunk_size rram_target digital_owner : Z)
  : dict :=
  [("type", VStr "transfer");
   ("name", VStr ("transfer_to_digital_L" ++ str layer_idx
                    ++ "_C" ++ str chunk_idx));
   ("direction", VStr "rram_to_digital");
   ("bytes", VInt chunk_size);
   ("latency", VInt (Z.max (ceil_div chunk_size 4096) 4));
   ("chiplet", VInt digital_owner);
   ("queue", VInt rram_target);
   ("buffer_id", VInt hidden_size);
   ("metadata",
    VDict [("layer_index", VInt layer_idx);
           ("chunk_index", VInt chunk_idx);
           ("chunk_total", VInt num_chunks);
           ("source_rram", VInt rram_target);
           ("target_digital", VInt digital_owner);
           ("stage", VStr "rram_to_digital");
           ("chunk_bytes", VInt chunk_size)]);
   ("aux", transfer_aux layer_idx chunk_idx num_chunks)].

Definition moe_merge_stage (layer_idx digital_owner : Z) : dict :=
  [("type", VStr "moe_merge");
   ("name", VStr ("moe_merge_L" ++ str layer_idx));
   ("rows", VInt tokens);
   ("cols", VInt hidden_size);
   ("latency", VInt (Z.max (digital_latency_base / 5) 10));
   ("chiplet", VInt digital_owner);
   ("queue", VInt digital_owner);
   ("buffer_id", VInt hidden_size);
   ("metadata",
    VDict [("layer_index", VInt layer_idx);
           ("stage", VStr "moe_merge");
           ("digital_chiplet", VInt digital_owner)])].

Definition postprocess_stage (layer_idx digital_owner : Z) : dict :=
  [("type", VStr "postprocess");
   ("name", VStr ("postprocess_L" ++ str layer_idx));
   ("rows", VInt tokens);
   ("cols", VInt hidden_size);
   ("latency", VInt (Z.max (digital_latency_base / 3) 12));
   ("chiplet", VInt digital_owner);
   ("queue", VInt digital_owner);
   ("buffer_id", VInt hidden_size);
   ("metadata",
    VDict [("layer_index", VInt layer_idx);
           ("stage", VStr "postprocess");
           ("digital_chiplet", VInt digital_owner)])].

(** The body of [for chunk_idx in range(num_chunks)]; [last_transfer_up] is
    carried. It is [None] only before the first iteration, where
    [chunk_idx == 0] selects [[gating]], so [[None]] is never built. *)
Definition chunk_body (layer_idx digital_owner gating num_chunks : Z)
    (experts_template : list dict)
    (last_transfer_up : option Z) (chunk_idx : Z) : M (option Z) :=
  let chunk_size :=
    if chunk_idx <? num_chunks - 1 then chunk_bytes
    else activation_bytes_total - chunk_bytes * (num_chunks - 1) in
  let chunk_dep :=
    if chunk_idx =? 0 then [gating]
    else match last_transfer_up with Some u => [u] | None => [] end in
  let rram_target := chunk_idx mod rram_chiplets in
  transfer_down <- append_stage
                     (transfer_down_stage layer_idx chunk_idx num_chunks
                        chunk_size rram_target digital_owner)
                     (Some chunk_dep) ;;
  experts <- lift (traverse (chunk_expert chunk_idx chunk_size num_chunks)
                     experts_template) ;;
  moe_stage <- append_stage
                 (moe_linear_stage layer_idx chunk_idx num_chunks chunk_size
                    experts)
                 (Some [transfer_down]) ;;
  up <- append_stage
          (transfer_up_stage layer_idx chunk_idx num_chunks chunk_size
             rram_target digital_owner)
          (Some [moe_stage]) ;;
  ret (Some up).

(** [entry["chiplet"]] *)
Definition entry_chiplet (entry : dict) : result value :=
  match get "chiplet" entry with
  | Some v => Ok v
  | None => Raise KeyError
  end.

(** The body of [for layer_idx in range(layers)]. *)
Definition layer_body (_ : unit) (layer_idx : Z) : M unit :=
  let digital_owner := layer_idx mod digital_chiplets in
  att <- append_stage (attention_stage layer_idx digital_owner) None ;;
  post_attn <- append_stage (softmax_stage layer_idx digital_owner)
                 (Some [att]) ;;
  let experts_template :=
    map (fun expert_idx =>
           let chiplet_id := expert_idx mod rram_chiplets in
           expert_template_entry layer_idx expert_idx chiplet_id)
      (range num_experts) in
  let candidate_experts := range num_experts in
  candidate_chiplets <- lift (traverse entry_chiplet experts_template) ;;
  gating <- append_stage
              (moe_gating_stage layer_idx digital_owner candidate_experts
                 candidate_chiplets)
              (Some [post_attn]) ;;
  let num_chunks := Z.max (ceil_div activation_bytes_total chunk_bytes) 1 in
  last_transfer_up <- for_each (range num_chunks) None
                        (chunk_body layer_idx digital_owner gating num_chunks
                           experts_template) ;;
  merge <- append_stage (moe_merge_stage layer_idx digital_owner)
             (Some (match last_transfer_up with
                    | Some u => [u]
                    | None => [gating]
                    end)) ;;
  _ <- append_stage (postprocess_stage layer_idx digital_owner)
         (Some [merge]) ;;
  ret tt.

End Locals.

Definition host_metadata (tensor phase : string)
    (batch seq_length dtype_bytes : Z) : value :=
  VDict [("tensor", VStr tensor);
         ("phase", VStr phase);
         ("batch", VInt batch);
         ("seq_length", VInt seq_length);
         ("dtype_bytes", VInt dtype_bytes)].

Definition host_load_input
    (activation_bytes_total host_load_latency hidden_size : Z)
    (batch seq_length dtype_bytes : Z) : dict :=
  [("type", VStr "transfer");
   ("name", VStr "host_load_input");
   ("direction", VStr "host_to_digital");
   ("chiplet", VInt 0);
   ("queue", VInt 0);
   ("bytes", VInt activation_bytes_total);
   ("latency", VInt host_load_latency);
   ("buffer_id", VInt hidden_size);
   ("metadata", host_metadata "input_tokens" "prefetch" batch seq_length
                  dtype_bytes)].

Definition embed (tokens hidden_size digital_latency_base : Z) : dict :=
  [("type", VStr "token_prep");
   ("name", VStr "embed");
   ("tokens", VInt tokens);
   ("features", VInt hidden_size);
   ("latency", VInt (Z.max (digital_latency_base / 8) 2))].

Definition store_logits
    (activation_bytes_total host_load_latency hidden_size : Z)
    (batch seq_length dtype_bytes : Z) : dict :=
  [("type", VStr "transfer");
   ("name", VStr "store_logits");
   ("direction", VStr "digital_to_host");
   ("chiplet", VInt 0);
   ("queue", VInt 0);
   ("bytes", VInt activation_bytes_total);
   ("latency", VInt (Z.max host_load_latency 8));
   ("buffer_id", VInt hidden_size);
   ("metadata", host_metadata "decoder_output" "write_back" batch seq_length
                  dtype_bytes)].

(** [def build_moe_sequence(...)] *)
Definition build_moe_sequence
    (layers hidden_size intermediate_size num_experts experts_per_tok : Z)
    (seq_length batch dtype_bytes digital_chiplets rram_chiplets : Z)
    (digital_latency_scale : Z -> Z) (chunk_bytes : Z)
  : result (list dict) :=
  let dtype_bytes := Z.max dtype_bytes 1 in
  let chunk_bytes := Z.max chunk_bytes dtype_bytes in
  let tokens := seq_length * batch in
  let activation_bytes_total := tokens * hidden_size * dtype_bytes in
  let expert_weight_bytes := hidden_size * intermediate_size * dtype_bytes in
  let digital_latency_base := Z.max (digital_latency_scale hidden_size) 1 in
  let host_dma_unit := Z.max (chunk_bytes / 4) 4096 in
  let host_load_latency :=
    Z.max (ceil_div (Z.max activation_bytes_total 1) host_dma_unit) 8 in
  let build : M unit :=
    host_prefetch_idx <- append_stage
                           (host_load_input activation_bytes_total
                              host_load_latency hidden_size batch seq_length
                              dtype_bytes)
                           (Some []) ;;
    _ <- append_stage (embed tokens hidden_size digital_latency_base)
           (Some [host_prefetch_idx]) ;;
    let digital_chiplets := Z.max digital_chiplets 1 in
    let rram_chiplets := Z.max rram_chiplets 1 in
    _ <- for_each (range layers) tt
           (layer_body
              {| lc_hidden_size := hidden_size;
                 lc_intermediate_size := intermediate_size;
                 lc_num_experts := num_experts;
                 lc_experts_per_tok := experts_per_tok;
                 lc_chunk_bytes := chunk_bytes;
                 lc_digital_chiplets := digital_chiplets;
                 lc_rram_chiplets := rram_chiplets;
                 lc_tokens := tokens;
                 lc_activation_bytes_total := activation_bytes_total;
                 lc_expert_weight_bytes := expert_weight_bytes;
                 lc_digital_latency_base := digital_latency_base |}) ;;
    fun sequence =>
      let last_stage_idx :=
        match sequence with
        | [] => None
        | _ => Some (len sequence - 1)
        end in
      match last_stage_idx with
      | Some i =>
          (_ <- append_stage
                  (store_logits activation_bytes_total host_load_latency
                     hidden_size batch seq_length dtype_bytes)
                  (Some [i]) ;;
           ret tt) sequence
      | None => ret tt sequence
      end in
  match build [] with
  | Ok (_, sequence) => Ok sequence
  | Raise e => Raise e
  end.

Definition generate_chiplet_model := generate_chiplet_model build_moe_sequence.
Definition main := main build_moe_sequence.

End Tools.

(** * Layout of the emitted sequences

    What each builder appends, written as a function of the position [b]
    at which it starts; the builders are proved equal to these lists. *)

(** The stage as [append_stage] stores it when given [depends]. *)
Definition with_deps (deps : list Z) (st : dict) : dict :=
  dict_set "deps" (VInts deps) st.

(** The stage as [append_stage] stores it at position [pos] when
    [dep_arg] is [deps if deps else None]. *)
Definition appended (pos : Z) (deps : list Z) (st : dict) : dict :=
  match deps with
  | [] => if pos =? 0 then st else with_deps [pos - 1] st
  | _ => with_deps deps st
  end.

Module GolangLayout.

Import GolangTools.

(** The [deps] that [append_chunked_stage] computes for chunk [idx] of a
    group starting at position [b]. *)
Definition chunk_dep_list (base_list : list Z) (per_chunk_dep : option (list value))
    (enforce_sequential : bool) (b idx : Z) : list Z :=
  let deps :=
    match per_chunk_dep with
    | Some pcd =>
        if idx <? len pcd
        then _normalize_deps (nth (Z.to_nat idx) pcd VNone)
        else []
    | None => []
    end in
  let deps :=
    if (idx =? 0) && (match deps with [] => true | _ => false end)
       && (match base_list with [] => false | _ => true end)
    then deps ++ base_list else deps in
  if enforce_sequential && negb (idx =? 0) then deps ++ [b + idx - 1] else deps.

Definition chunked_block (stage_builder : Z -> Z -> dict)
    (base_list : list Z) (per_chunk_dep : option (list value))
    (enforce_sequential : bool) (b : Z) (its : list (Z * Z)) : list dict :=
  map (fun it =>
         appended (b + fst it)
           (chunk_dep_list base_list per_chunk_dep enforce_sequential b (fst it))
           (stage_builder (fst it) (snd it)))
    its.

Section Layout.

Variable cl : closure.

Definition size_at (c : Z) : Z := nth (Z.to_nat c) (cl_chunk_byte_plan cl) 0.

Definition target_at (c : Z) : Z :=
  nth (Z.to_nat ((c * cl_experts_per_tok cl) mod len (cl_expert_chips cl)))
    (cl_expert_chips cl) 0.

(** The three stages of chunk [c] of a projection that starts at [b] and
    depends on [dep]. *)
Definition projection_triple (b dep : Z) (label : string)
    (l wb rid : Z) (it : Z * Z) : list dict :=
  let c := fst it in
  let cd := chunk_digital_owner cl l c in
  [with_deps [if c =? 0 then dep else b + 3 * c - 1]
     (projection_down cl label l c (size_at c) rid cd);
   with_deps [b + 3 * c]
     (projection_linear cl label l c (snd it) (size_at c) wb rid);
   with_deps [b + 3 * c + 1]
     (projection_up cl label l c (size_at c) rid cd)].

Definition projection_block (b dep : Z) (label : string)
    (l wb rid : Z) (its : list (Z * Z)) : list dict :=
  flat_map (projection_triple b dep label l wb rid) its.

(** An expert sub-record of chunk [c]. *)
Definition chunk_expert_entry (l c cs e : Z) : dict :=
  [("name", VStr ("expert_" ++ str l ++ "_" ++ str e));
   ("chiplet", VInt (e mod cl_rram_chiplets cl));
   ("activation_bytes", VInt (cs / Z.max (cl_experts_per_tok cl) 1));
   ("weight_bytes",
    if c =? 0 then VInt (cl_expert_weight_bytes cl) else VInt 0);
   ("execute_latency",
    VInt (Z.max (trunc_div (cl_intermediate_size cl) 16) 32));
   ("chunk_index", VInt c)].

Definition experts_at (l c : Z) : list dict :=
  map (chunk_expert_entry l c (size_at c)) (range (cl_num_experts cl)).

(** The three stages of chunk [c] of the MoE dispatch that starts at [b],
    after a gating group that starts at [g]. *)
Definition moe_triple (b g l : Z) (it : Z * Z) : list dict :=
  let c := fst it in
  let cd := chunk_digital_owner cl l c in
  [with_deps ([g + c] ++ (if c =? 0 then [] else [b + 3 * c - 1]))
     (moe_down cl l c (size_at c) (target_at c) cd);
   with_deps [b + 3 * c] (moe_linear cl l c (size_at c) (experts_at l c));
   with_deps [b + 3 * c + 1] (moe_up cl l c (size_at c) cd (target_at c))].

Definition moe_block (b g l : Z) (its : list (Z * Z)) : list dict :=
  flat_map (moe_triple b g l) its.

(** The stages of layer [l], which starts at position [b]. *)
Definition layer_block (b l : Z) : list dict :=
  let n := len (cl_chunk_plan cl) in
  let its := enumerate (cl_chunk_plan cl) in
  let count := List.length (cl_chunk_plan cl) in
  let pwb := cl_projection_weight_bytes cl in
  let rram := cl_rram_chiplets cl in
  let rram_base := (l * 4) mod rram in
  projection_block b (b - 1) "q" l pwb ((rram_base + 0) mod rram) its
  ++ projection_block (b + 3 * n) (b + 3 * n - 1) "k" l pwb
       ((rram_base + 1) mod rram) its
  ++ projection_block (b + 6 * n) (b + 6 * n - 1) "v" l pwb
       ((rram_base + 2) mod rram) its
  ++ chunked_block (attn_score_stage cl l) [b + 3 * n - 1; b + 6 * n - 1]
       None false (b + 9 * n) its
  ++ chunked_block (softmax_stage cl l) []
       (Some (map VInt (range_from (b + 9 * n) count))) false (b + 10 * n) its
  ++ chunked_block (attn_mix_stage cl l) []
       (Some (map (fun c => VInts [b + 10 * n + c; b + 9 * n - 1]) (range n)))
       false (b + 11 * n) its
  ++ projection_block (b + 12 * n) (b + 12 * n - 1) "o" l pwb
       ((rram_base + 3) mod rram) its
  ++ chunked_block (post_attention_stage cl l) [b + 15 * n - 1]
       None false (b + 15 * n) its
  ++ chunked_block (moe_gating_stage cl l) []
       (Some (map VInt (range_from (b + 15 * n) count))) true (b + 16 * n) its
  ++ moe_block (b + 17 * n) (b + 16 * n) l its
  ++ chunked_block (moe_merge_stage cl l) []
       (Some (map VInt (map (fun c => b + 17 * n + 3 * c + 2) (range n))))
       true (b + 20 * n) its
  ++ chunked_block (postprocess_stage cl l) []
       (Some (map VInt (range_from (b + 20 * n) count))) true (b + 21 * n) its.

End Layout.

(** The closure that [build_moe_sequence] builds from its arguments and
    the chunk plan. *)
Definition closure_of
    (hidden_size intermediate_size num_experts experts_per_tok : Z)
    (seq_length batch dtype_bytes digital_chiplets rram_chiplets : Z)
    (digital_latency_scale : Z -> Z) (chunk_plan : list Z) : closure :=
  let dtype_bytes := Z.max dtype_bytes 1 in
  let tokens := seq_length * batch in
  {| cl_hidden_size := hidden_size;
     cl_intermediate_size := intermediate_size;
     cl_num_experts := num_experts;
     cl_experts_per_tok := experts_per_tok;
     cl_dtype_bytes := dtype_bytes;
     cl_digital_chiplets := Z.max digital_chiplets 1;
     cl_rram_chiplets := Z.max rram_chiplets 1;
     cl_activation_bytes_total := tokens * hidden_size * dtype_bytes;
     cl_projection_weight_bytes := hidden_size * hidden_size * dtype_bytes;
     cl_expert_weight_bytes := hidden_size * intermediate_size * dtype_bytes;
     cl_chunk_plan := chunk_plan;
     cl_chunk_byte_plan :=
       map (fun chunk_tokens =>
              Z.max (chunk_tokens * hidden_size * dtype_bytes) dtype_bytes)
         chunk_plan;
     cl_num_chunks := len chunk_plan;
     cl_digital_latency_base := Z.max (digital_latency_scale hidden_size) 1;
     cl_expert_chips :=
       map (fun chip_idx => chip_idx mod Z.max rram_chiplets 1)
         (range num_experts);
     cl_embed_stage := 0 |}.

(** The chunk plan that [build_moe_sequence] uses: the planner's, or
    [[tokens]] when that is empty. *)
Definition plan_of (hidden_size seq_length batch dtype_bytes chunk_bytes : Z)
  : list Z :=
  let dtype_bytes := Z.max dtype_bytes 1 in
  let chunk_bytes := Z.max chunk_bytes dtype_bytes in
  let tokens := seq_length * batch in
  if tokens <=? 0 then [tokens]
  else chunk_closed_form
         (Z.max (chunk_bytes / Z.max (hidden_size * dtype_bytes) dtype_bytes) 1)
         tokens.

(** The whole sequence: [embed], then 22 stages per chunk and layer. *)
Definition layout (cl : closure) (tokens layers : Z) : list dict :=
  with_deps [] (embed tokens (cl_hidden_size cl) (cl_digital_latency_base cl))
  :: flat_map
       (fun l => layer_block cl (1 + 22 * len (cl_chunk_plan cl) * l) l)
       (range layers).

End GolangLayout.

Module GolangInv.

Import GolangTools.

(** What [build_moe_sequence] establishes about its locals before the
    layer loop. *)
Record closure_ok (cl : closure) : Prop := {
  ok_plan : cl_chunk_plan cl <> [];
  ok_bytes : len (cl_chunk_byte_plan cl) = len (cl_chunk_plan cl);
  ok_chips :
    cl_expert_chips cl =
    map (fun chip_idx => chip_idx mod cl_rram_chiplets cl)
      (range (cl_num_experts cl));
  ok_embed : cl_embed_stage cl = 0;
  ok_digital : 1 <= cl_digital_chiplets cl;
  ok_rram : 1 <= cl_rram_chiplets cl
}.

End GolangInv.

Module ToolsLayout.

Import Tools.

Section Layout.

Variable lc : locals.

Definition num_chunks : Z :=
  Z.max (ceil_div (lc_activation_bytes_total lc) (lc_chunk_bytes lc)) 1.

Definition chunk_size_at (c : Z) : Z :=
  if c <? num_chunks - 1 then lc_chunk_bytes lc
  else lc_activation_bytes_total lc - lc_chunk_bytes lc * (num_chunks - 1).

Definition experts_template (l : Z) : list dict :=
  map (fun e => expert_template_entry lc l e (e mod lc_rram_chiplets lc))
    (range (lc_num_experts lc)).

(** An expert sub-record of chunk [c]. *)
Definition chunk_expert_entry (l c e : Z) : dict :=
  [("name", VStr ("expert_" ++ str l ++ "_" ++ str e));
   ("chiplet", VInt (e mod lc_rram_chiplets lc));
   ("activation_bytes",
    VInt (chunk_size_at c / Z.max (lc_experts_per_tok lc) 1));
   ("weight_bytes",
    if c =? 0 then VInt (lc_expert_weight_bytes lc) else VInt 0);
   ("execute_latency",
    VInt (Z.max (trunc_div (lc_intermediate_size lc) 16) 32));
   ("metadata",
    VDict [("layer_index", VInt l);
           ("expert_index", VInt e);
           ("rram_chiplet", VInt (e mod lc_rram_chiplets lc));
           ("chunk_index", VInt c);
           ("chunk_bytes",
            VInt (chunk_size_at c / Z.max (lc_experts_per_tok lc) 1));
           ("chunk_total", VInt num_chunks)]);
   ("chunk_index", VInt c)].

Definition experts_at (l c : Z) : list dict :=
  map (chunk_expert_entry l c) (range (lc_num_experts lc)).

(** The three stages of chunk [c] of a layer whose chunk loop starts at
    [b], after the gating stage at [g]. *)
Definition chunk_triple (b g l c : Z) : list dict :=
  let d := l mod lc_digital_chiplets lc in
  let t := c mod lc_rram_chiplets lc in
  [with_deps [if c =? 0 then g else b + 3 * c - 1]
     (transfer_down_stage lc l c num_chunks (chunk_size_at c) t d);
   with_deps [b + 3 * c]
     (moe_linear_stage lc l c num_chunks (chunk_size_at c) (experts_at l c));
   with_deps [b + 3 * c + 1]
     (transfer_up_stage lc l c num_chunks (chunk_size_at c) t d)].

(** The stages of layer [l], which starts at position [b]. *)
Definition layer_block (b l : Z) : list dict :=
  let d := l mod lc_digital_chiplets lc in
  [with_deps [b - 1] (attention_stage lc l d);
   with_deps [b] (softmax_stage lc l d);
   with_deps [b + 1]
     (moe_gating_stage lc l d (range (lc_num_experts lc))
        (map (fun e => VInt (e mod lc_rram_chiplets lc))
           (range (lc_num_experts lc))))]
  ++ flat_map (chunk_triple (b + 3) (b + 2) l) (range num_chunks)
  ++ [with_deps [b + 3 + 3 * num_chunks - 1] (moe_merge_stage lc l d);
      with_deps [b + 3 + 3 * num_chunks] (postprocess_stage lc l d)].

(** Stages per layer. *)
Definition layer_size : Z := 5 + 3 * num_chunks.

End Layout.

(** The locals that [build_moe_sequence] computes from its arguments. *)
Definition locals_of
    (hidden_size intermediate_size num_experts experts_per_tok : Z)
    (seq_length batch dtype_bytes digital_chiplets rram_chiplets : Z)
    (digital_latency_scale : Z -> Z) (chunk_bytes : Z) : locals :=
  let dtype_bytes := Z.max dtype_bytes 1 in
  let tokens := seq_length * batch in
  {| lc_hidden_size := hidden_size;
     lc_intermediate_size := intermediate_size;
     lc_num_experts := num_experts;
     lc_experts_per_tok := experts_per_tok;
     lc_chunk_bytes := Z.max chunk_bytes dtype_bytes;
     lc_digital_chiplets := Z.max digital_chiplets 1;
     lc_rram_chiplets := Z.max rram_chiplets 1;
     lc_tokens := tokens;
     lc_activation_bytes_total := tokens * hidden_size * dtype_bytes;
     lc_expert_weight_bytes := hidden_size * intermediate_size * dtype_bytes;
     lc_digital_latency_base := Z.max (digital_latency_scale hidden_size) 1 |}.

(** [host_load_latency] *)
Definition host_load_latency (lc : locals) : Z :=
  Z.max (ceil_div (Z.max (lc_activation_bytes_total lc) 1)
           (Z.max (lc_chunk_bytes lc / 4) 4096)) 8.

(** The whole sequence: the host load, [embed], the layers, the host
    store. *)
Definition layout (lc : locals) (seq_length batch dtype_bytes layers : Z)
  : list dict :=
  let act := lc_activation_bytes_total lc in
  let h := lc_hidden_size lc in
  let dt := Z.max dtype_bytes 1 in
  [with_deps [] (host_load_input act (host_load_latency lc) h batch
                   seq_length dt);
   with_deps [0] (embed (lc_tokens lc) h (lc_digital_latency_base lc))]
  ++ flat_map (fun l => layer_block lc (2 + layer_size lc * l) l)
       (range layers)
  ++ [with_deps [2 + layer_size lc * Z.max layers 0 - 1]
        (store_logits act (host_load_latency lc) h batch seq_length dt)].

End ToolsLayout.

(** * Properties of emitted sequences *)

(** [sequence[i]] for [0 <= i < len(sequence)]. *)
Definition lookup (seq : list dict) (i : Z) : option dict :=
  if i <? 0 then None else nth_error seq (Z.to_nat i).

(** Every index in a stage's [deps] is non-negative and smaller than the
    stage's own position. *)
Definition deps_before (seq : list dict) : Prop :=
  forall i st d,
    lookup seq i = Some st -> In d (stage_deps st) -> 0 <= d < i.

Definition has_type (t : string) (st : dict) : bool :=
  match get_str "type" st with
  | Some t' => String.eqb t t'
  | None => false
  end.

Definition has_direction (d : string) (st : dict) : bool :=
  match get_str "direction" st with
  | Some d' => String.eqb d d'
  | None => false
  end.

(** The two resource classes of the accelerator. *)
Inductive resource : Type := Digital | Rram.

(** The class of the chiplet named by a stage's [chiplet] field: the RRAM
    chiplet for an [rram_linear] stage and for the target of a
    digital-to-RRAM transfer, a digital chiplet otherwise. *)
Definition chiplet_class (st : dict) : resource :=
  if has_type "rram_linear" st then Rram
  else if has_type "transfer" st && has_direction "digital_to_rram" st then Rram
  else Digital.

(** The class of the id in a stage's [queue] field: the source of a
    transfer to digital is an RRAM chiplet, every other queue is digital. *)
Definition queue_class (st : dict) : resource :=
  if has_type "transfer" st && has_direction "rram_to_digital" st then Rram
  else Digital.

(** The clamped count of a resource class. *)
Definition class_count (r : resource) (digital_chiplets rram_chiplets : Z) : Z :=
  match r with
  | Digital => Z.max digital_chiplets 1
  | Rram => Z.max rram_chiplets 1
  end.

(** Field [k], when present, is an integer in [[0, bound)]. *)
Definition field_below (k : string) (bound : Z) (st : dict) : Prop :=
  forall v, get k st = Some v -> exists p, v = VInt p /\ 0 <= p < bound.

(** Every resource id on a stage is in the range of its class. *)
Definition resources_in_range (digital_chiplets rram_chiplets : Z) (st : dict)
  : Prop :=
  field_below "chiplet"
    (class_count (chiplet_class st) digital_chiplets rram_chiplets) st
  /\ field_below "queue"
       (class_count (queue_class st) digital_chiplets rram_chiplets) st
  /\ Forall (fun ex =>
               exists p, get "chiplet" ex = Some (VInt p)
                         /\ 0 <= p < Z.max rram_chiplets 1)
       (stage_experts st).

(** The digital-chiplet ids on a stage. *)
Definition digital_placements (st : dict) : list Z :=
  (match chiplet_class st, get_int "chiplet" st with
   | Digital, Some p => [p]
   | _, _ => []
   end)
  ++ (match queue_class st, get_int "queue" st with
      | Digital, Some p => [p]
      | _, _ => []
      end).

(** The placement functions, in the words of the specification. *)
Definition digitalOwner (layerIndex chunkIndex digitalCount : Z) : Z :=
  (layerIndex + chunkIndex) mod Z.max digitalCount 1.

Definition expertOwner (expertIndex rramCount : Z) : Z :=
  expertIndex mod Z.max rramCount 1.

(** The stage is named as a stage of chunk [c] of layer [l]. *)
Definition named_at (l c : Z) (st : dict) : Prop :=
  exists label : string,
    get_str "name" st = Some (label ++ "_L" ++ str l ++ "_C" ++ str c)%string.

(** The expert sub-records of a stage are placed by [expertOwner]: the
    record at position [e] is expert [e] of some layer. *)
Definition experts_placed (rram_chiplets : Z) (st : dict) : Prop :=
  forall e ex,
    nth_error (stage_experts st) e = Some ex ->
    (exists l,
        get_str "name" ex =
        Some ("expert_" ++ str l ++ "_" ++ str (Z.of_nat e))%string)
    /\ get_int "chiplet" ex = Some (expertOwner (Z.of_nat e) rram_chiplets).

(** [metadata["layer_index"]] of a stage. *)
Definition metadata_layer (st : dict) : option Z :=
  match get "metadata" st with
  | Some (VDict md) => get_int "layer_index" md
  | _ => None
  end.

(** A [transfer] stage whose latency follows the transfer formula on its
    own byte count. *)
Definition transfer_latency_ok (st : dict) : Prop :=
  exists bytes,
    get_int "bytes" st = Some bytes
    /\ get_int "latency" st = Some (transfer_latency bytes).

(** [weight_bytes] is present, and non-zero exactly on chunk 0. *)
Definition weight_on_first_chunk (c : Z) (d : dict) : Prop :=
  exists w, get_int "weight_bytes" d = Some w /\ (w <> 0 <-> c = 0).

(** The four projections of a layer, in emission order. *)
Inductive projection : Type := ProjQ | ProjK | ProjV | ProjO.

Definition projection_label (p : projection) : string :=
  match p with
  | ProjQ => "q"
  | ProjK => "k"
  | ProjV => "v"
  | ProjO => "o"
  end.

Module GolangIndex.

(** Positions in the sequence of the chunked builder, for [n] chunks:
    layer [l] starts at [1 + 22 * n * l]. *)
Definition layer_start (n l : Z) : Z := 1 + 22 * n * l.

Definition projection_start (n : Z) (p : projection) : Z :=
  match p with
  | ProjQ => 0
  | ProjK => 3 * n
  | ProjV => 6 * n
  | ProjO => 12 * n
  end.

(** The [rram_linear] stage of chunk [c] of projection [p] of layer [l]. *)
Definition projection_linear_index (n l : Z) (p : projection) (c : Z) : Z :=
  layer_start n l + projection_start n p + 3 * c + 1.

(** The MoE [transfer] to RRAM, the [moe_linear] stage and the [transfer]
    to digital of chunk [c] of layer [l]. *)
Definition moe_down_index (n l c : Z) : Z := layer_start n l + 17 * n + 3 * c.
Definition moe_linear_index (n l c : Z) : Z := layer_start n l + 17 * n + 3 * c + 1.
Definition moe_up_index (n l c : Z) : Z := layer_start n l + 17 * n + 3 * c + 2.

End GolangIndex.

Module GolangBodies.

Import GolangTools GolangLayout.

(** The 22 stages of chunk [c] of layer [l], before [append_stage] adds
    their [deps]. *)
Definition chunk_bodies (cl : closure) (l c tok : Z) : list dict :=
  let cs := size_at cl c in
  let cd := chunk_digital_owner cl l c in
  let pwb := cl_projection_weight_bytes cl in
  let rram := cl_rram_chiplets cl in
  let rb := (l * 4) mod rram in
  [projection_down cl "q" l c cs ((rb + 0) mod rram) cd;
   projection_linear cl "q" l c tok cs pwb ((rb + 0) mod rram);
   projection_up cl "q" l c cs ((rb + 0) mod rram) cd;
   projection_down cl "k" l c cs ((rb + 1) mod rram) cd;
   projection_linear cl "k" l c tok cs pwb ((rb + 1) mod rram);
   projection_up cl "k" l c cs ((rb + 1) mod rram) cd;
   projection_down cl "v" l c cs ((rb + 2) mod rram) cd;
   projection_linear cl "v" l c tok cs pwb ((rb + 2) mod rram);
   projection_up cl "v" l c cs ((rb + 2) mod rram) cd;
   attn_score_stage cl l c tok;
   softmax_stage cl l c tok;
   attn_mix_stage cl l c tok;
   projection_down cl "o" l c cs ((rb + 3) mod rram) cd;
   projection_linear cl "o" l c tok cs pwb ((rb + 3) mod rram);
   projection_up cl "o" l c cs ((rb + 3) mod rram) cd;
   post_attention_stage cl l c tok;
   moe_gating_stage cl l c tok;
   moe_down cl l c cs (target_at cl c) cd;
   moe_linear cl l c cs (experts_at cl l c);
   moe_up cl l c cs cd (target_at cl c);
   moe_merge_stage cl l c tok;
   postprocess_stage cl l c tok].

(** [st] is a stage literal of some chunk of layer [l], with some [deps]. *)
Definition chunk_stage (cl : closure) (l : Z) (st : dict) : Prop :=
  exists c tok deps body,
    0 <= c < len (cl_chunk_plan cl)
    /\ nth_error (cl_chunk_plan cl) (Z.to_nat c) = Some tok
    /\ In body (chunk_bodies cl l c tok)
    /\ st = with_deps deps body.

End GolangBodies.

Module ToolsBodies.

Import Tools ToolsLayout.

(** The stages of layer [l] outside its chunk loop, and the stages of its
    chunk [c], before [append_stage] adds their [deps]. *)
Definition layer_bodies (lc : locals) (l : Z) : list dict :=
  let d := l mod lc_digital_chiplets lc in
  [attention_stage lc l d;
   softmax_stage lc l d;
   moe_gating_stage lc l d (range (lc_num_experts lc))
     (map (fun e => VInt (e mod lc_rram_chiplets lc))
        (range (lc_num_experts lc)));
   moe_merge_stage lc l d;
   postprocess_stage lc l d].

Definition chunk_bodies (lc : locals) (l c : Z) : list dict :=
  let d := l mod lc_digital_chiplets lc in
  let t := c mod lc_rram_chiplets lc in
  [transfer_down_stage lc l c (num_chunks lc) (chunk_size_at lc c) t d;
   moe_linear_stage lc l c (num_chunks lc) (chunk_size_at lc c)
     (experts_at lc l c);
   transfer_up_stage lc l c (num_chunks lc) (chunk_size_at lc c) t d].

Definition layer_stage (lc : locals) (l : Z) (st : dict) : Prop :=
  exists deps body, In body (layer_bodies lc l) /\ st = with_deps deps body.

Definition chunk_stage (lc : locals) (l : Z) (st : dict) : Prop :=
  exists c deps body,
    0 <= c < num_chunks lc
    /\ In body (chunk_bodies lc l c)
    /\ st = with_deps deps body.

End ToolsBodies.

(** * Resolution of the model shape *)

(** The names under which each quantity is looked up in the configuration
    document. *)
Definition hidden_aliases : list string := ["hidden_size"; "n_embd"; "dim"].
Definition intermediate_aliases : list string :=
  ["moe_intermediate_size"; "intermediate_size"; "ffn_hidden_size"].
Definition layers_aliases : list string :=
  ["num_hidden_layers"; "n_layer"; "num_layers"].
Definition local_experts_aliases : list string := ["num_local_experts"].
Definition moe_experts_aliases : list string := ["moe_num_experts"; "num_experts"].
Definition topk_aliases : list string := ["moe_topk"; "moe_top_k"].

(** An override or configuration value that counts as given: present and
    not zero. *)
Definition given (a : option Z) : option Z :=
  match a with
  | Some v => if v =? 0 then None else Some v
  | None => None
  end.

(** [value] is the given override, else the value that the configuration
    lookup yields, else the default. The lookup is only made when no
    override is given. *)
Definition precedence (override : option Z) (lookup : result (option Z))
    (default value : Z) : Prop :=
  match given override with
  | Some v => value = v
  | None =>
      match lookup with
      | Ok (Some c) => value = c
      | Ok None => value = default
      | Raise _ => False
      end
  end.

(** The expert count before the check: the first given value among the
    override and the two configuration lookups, else 16. *)
Definition first_experts (override config_local config_moe : option Z) : Z :=
  match given override, given config_local, given config_moe with
  | Some v, _, _ => v
  | None, Some v, _ => v
  | None, None, Some v => v
  | None, None, None => 16
  end.

(** The expert count that [generate_chiplet_model] resolves from the
    configuration document and the arguments, before its check. *)
Definition resolved_experts (config_data : dict) (args : Namespace)
  : result (option Z) :=
  rbind (int_from_config config_data local_experts_aliases None)
    (fun config_local_experts =>
  rbind (int_from_config config_data moe_experts_aliases None)
    (fun config_moe_experts =>
  or_int (args_num_experts args)
    (or_int config_local_experts
       (or_int config_moe_experts (Ok (Some 16)))))).

(** The [metadata] block of a document. *)
Definition metadata_of (doc : dict) : dict :=
  match get "metadata" doc with
  | Some (VDict md) => md
  | _ => []
  end.

(** * Host transfers of the unchunked builder *)

(** A transfer between the host and a digital chiplet. *)
Definition host_transfer (st : dict) : bool :=
  has_direction "host_to_digital" st || has_direction "digital_to_host" st.

(** [host_load_latency] of [tools/generate_chiplet_model.py], from the
    arguments of [build_moe_sequence] and the byte count of the transfer:
    the bytes are moved in units of [max(chunk_bytes // 4, 4096)], in at
    least 8 cycles. *)
Definition host_transfer_latency (dtype_bytes chunk_bytes bytes : Z) : Z :=
  let dtype_bytes := Z.max dtype_bytes 1 in
  let chunk_bytes := Z.max chunk_bytes dtype_bytes in
  let host_dma_unit := Z.max (chunk_bytes / 4) 4096 in
  Z.max (ceil_div (Z.max bytes 1) host_dma_unit) 8.

Definition host_latency_ok (dtype_bytes chunk_bytes : Z) (st : dict) : Prop :=
  exists bytes,
    get_int "bytes" st = Some bytes
    /\ get_int "latency" st =
       Some (host_transfer_latency dtype_bytes chunk_bytes bytes).

(** * Small invocations *)

Module Examples.

(** One layer of a model with four tokens, which the chunk budget of 32
    bytes splits in two chunks when [hidden_size] resolves to 8. *)
Definition small_args (config : option string)
    (hidden_size num_experts : option Z) : Namespace :=
  {| args_config := config;
     args_output := "chiplet_model.json";
     args_name := Some "small";
     args_seq_length := 4;
     args_batch := 1;
     args_dtype_bytes := 2;
     args_layers := Some 1;
     args_hidden_size := hidden_size;
     args_intermediate_size := Some 16;
     args_num_experts := num_experts;
     args_experts_per_tok := Some 1;
     args_digital_chiplets := 2;
     args_rram_chiplets := 3;
     args_digital_latency_scale := fun h => h;
     args_chunk_bytes := 32 |}.

(** A file system with one configuration document, at [config.json]. *)
Definition one_file (config : dict) : string -> option dict :=
  fun path => if String.eqb path "config.json" then Some config else None.

Definition no_file : string -> option dict := fun _ => None.

End Examples.

(** * Positions and dependencies of the per-chunk groups *)

Module GolangGroups.

Import GolangIndex.

(** The seven groups of a layer that [append_chunked_stage] emits, one
    stage per chunk each. *)
Inductive group : Type :=
| AttnScore | Softmax | AttnMix | PostAttention | Gating | Merge | Postprocess.

Definition group_label (g : group) : string :=
  match g with
  | AttnScore => "attn_score"
  | Softmax => "softmax"
  | AttnMix => "attn_mix"
  | PostAttention => "post_attention"
  | Gating => "moe_gating"
  | Merge => "moe_merge"
  | Postprocess => "postprocess"
  end.

(** Offset of the group in its layer, for [n] chunks: the Q, K and V
    projections take [9 * n] positions, the O projection follows
    [attn_mix], the MoE dispatch follows the gating. *)
Definition group_start (n : Z) (g : group) : Z :=
  match g with
  | AttnScore => 9 * n
  | Softmax => 10 * n
  | AttnMix => 11 * n
  | PostAttention => 15 * n
  | Gating => 16 * n
  | Merge => 20 * n
  | Postprocess => 21 * n
  end.

Definition group_index (n l : Z) (g : group) (c : Z) : Z :=
  layer_start n l + group_start n g + c.

(** [q_done], [k_done], [v_done], [o_done]: the last transfer to digital of
    a projection. *)
Definition projection_done (n l : Z) (p : projection) : Z :=
  layer_start n l + projection_start n p + 3 * n - 1.

(** The [deps] of chunk [c] of each group, as the calls of
    [append_chunked_stage] in the layer loop wire them:
    [attn_score] has [base_dep=[q_done, k_done]] and [post_attention] has
    [base_dep=o_done], both without [per_chunk_dep] and with
    [enforce_sequential=False], so their chunks after the first get the
    default of [append_stage], the stage before them;
    [softmax] and [attn_mix] have a [per_chunk_dep] and
    [enforce_sequential=False]; the gating, the merge and [postprocess]
    have a [per_chunk_dep] and the default [enforce_sequential=True]. *)
Definition group_deps (n l : Z) (g : group) (c : Z) : list Z :=
  let chained (d : Z) :=
    if c =? 0 then [d] else [d; group_index n l g c - 1] in
  match g with
  | AttnScore =>
      if c =? 0 then [projection_done n l ProjQ; projection_done n l ProjK]
      else [group_index n l AttnScore c - 1]
  | Softmax => [group_index n l AttnScore c]
  | AttnMix => [group_index n l Softmax c; projection_done n l ProjV]
  | PostAttention =>
      if c =? 0 then [projection_done n l ProjO]
      else [group_index n l PostAttention c - 1]
  | Gating => chained (group_index n l PostAttention c)
  | Merge => chained (moe_up_index n l c)
  | Postprocess => chained (group_index n l Merge c)
  end.

End GolangGroups.

(** * RRAM chiplets of the transfers of the chunked builder *)

(** [q_rram], [k_rram], [v_rram], [o_rram] of layer [l]:
    [(rram_base + k) % rram_chiplets] for
    [rram_base = (layer_idx * 4) % rram_chiplets], after the count is
    clamped. *)
Definition projection_rram (l : Z) (p : projection) (rram_chiplets : Z) : Z :=
  let rram_chiplets := Z.max rram_chiplets 1 in
  let rram_base := (l * 4) mod rram_chiplets in
  (rram_base + match p with ProjQ => 0 | ProjK => 1 | ProjV => 2 | ProjO => 3 end)
  mod rram_chiplets.

(** [target_rram] of MoE chunk [c]:
    [expert_chips[(chunk_idx * experts_per_tok) % len(expert_chips)]], where
    [expert_chips[e]] is [e % rram_chiplets]. *)
Definition moe_rram (c experts_per_tok num_experts rram_chiplets : Z) : Z :=
  ((c * experts_per_tok) mod num_experts) mod Z.max rram_chiplets 1.

(** An entry of [chunk_byte_plan]. *)
Definition chunk_bytes_of (chunk_tokens hidden_size dtype_bytes : Z) : Z :=
  let dtype_bytes := Z.max dtype_bytes 1 in
  Z.max (chunk_tokens * hidden_size * dtype_bytes) dtype_bytes.

(** * Chains of stages *)

(** The stages of [blk], placed from position [b] on, each depend on the
    stage just before them and on nothing else. *)
Definition block_chain (b : Z) (blk : list dict) : Prop :=
  forall k st, lookup blk k = Some st -> stage_deps st = [b + k - 1].

(** * Positions in the sequence of the unchunked builder *)

Module ToolsIndex.

(** For [m] chunks, layer [l] starts after the host load and [embed] and
    has [5 + 3 * m] stages: attention, softmax, gating, three stages per
    chunk, merge, postprocess. *)
Definition layer_start (m l : Z) : Z := 2 + (5 + 3 * m) * l.

Definition transfer_down_index (m l c : Z) : Z := layer_start m l + 3 + 3 * c.
Definition moe_linear_index (m l c : Z) : Z := layer_start m l + 3 + 3 * c + 1.
Definition transfer_up_index (m l c : Z) : Z := layer_start m l + 3 + 3 * c + 2.

End ToolsIndex.

(** * Timing fields *)

(** Field [k] is an integer of at least [lo]. *)
Definition field_at_least (k : string) (lo : Z) (st : dict) : Prop :=
  exists p, get_int k st = Some p /\ lo <= p.

(** A stage has a [latency] of at least one cycle; the stages computed on
    RRAM ([rram_linear] and [moe_linear]) have a [pulse_count] of at least
    16 instead. *)
Definition timing_ok (st : dict) : Prop :=
  field_at_least "latency" 1 st
  \/ (has_type "rram_linear" st || has_type "moe_linear" st = true
      /\ field_at_least "pulse_count" 16 st).

(** * Dependency values *)

(** A dependency value without [bool]s: [_normalize_deps] keeps what
    [isinstance(v, int)] accepts, and Python's [bool] is an [int]. *)
Definition bool_free (v : value) : Prop :=
  match v with
  | VBool _ => False
  | VList l => Forall (fun x => match x with VBool _ => False | _ => True end) l
  | _ => True
  end.

(** * The resolver as a whole *)

(** [a or d] for an override [a] and a value [d]. *)
Definition or_default (a : option Z) (d : Z) : Z :=
  match given a with
  | Some v => v
  | None => d
  end.

(** The value that [int_from_config(..., default=d)] returns when the
    lookup without default returns [c]. *)
Definition config_or (c : option Z) (d : Z) : Z :=
  match c with
  | Some v => v
  | None => d
  end.

(** [args.name or config_data.get("model_type")
     or config_data.get("architectures", ["moe_model"])[0]] *)
Definition document_name (args : Namespace) (config_data : dict)
  : result value :=
  let n := match args_name args with
           | Some n => VStr n
           | None => VNone
           end in
  if truthy n then Ok n else
  let m := opt_value (get "model_type" config_data) in
  if truthy m then Ok m else
  subscript0 (match get "architectures" config_data with
              | Some a => a
              | None => VList [VStr "moe_model"]
              end).

(** The [metadata] block of the document. *)
Definition document_metadata (args : Namespace)
    (hidden_size intermediate_size num_layers num_experts experts_per_tok : Z)
  : value :=
  VDict [("hidden_size", VInt hidden_size);
         ("intermediate_size", VInt intermediate_size);
         ("layers", VInt num_layers);
         ("num_experts", VInt num_experts);
         ("experts_per_tok", VInt experts_per_tok);
         ("seq_length", VInt (args_seq_length args));
         ("batch", VInt (args_batch args));
         ("dtype_bytes", VInt (args_dtype_bytes args));
         ("digital_chiplets", VInt (args_digital_chiplets args));
         ("rram_chiplets", VInt (args_rram_chiplets args));
         ("chunk_bytes", VInt (args_chunk_bytes args))].

(** ** golang/uPIMulator/tools/export_pytorch_chiplet.py *)

Module ExportPytorchChiplet.

(** The [argparse.Namespace] of [export_pytorch_chiplet.py]: every size has
    an integer default, none is optional. *)
Record Namespace : Type := {
  args_output : string;
  args_name : option string;
  args_layers : Z;
  args_hidden_size : Z;
  args_intermediate_size : Z;
  args_num_heads : Z;
  args_num_experts : Z;
  args_experts_per_tok : Z;
  args_seq_length : Z;
  args_batch : Z;
  args_dtype_bytes : Z;
  args_digital_chiplets : Z;
  args_rram_chiplets : Z;
  args_digital_latency_scale : Z -> Z;
  args_chunk_bytes : Z;
  args_skip_forward : bool
}.


End ExportPytorchChiplet.

(** * Values that the configuration lookups accept *)

(** [isinstance(v, (int, float))], for a key that may be absent. *)
Definition numeric (v : option value) : bool :=
  match v with
  | Some (VInt _) | Some (VBool _) | Some (VFloat _) => true
  | _ => false
  end.

(** [isinstance(v, bool) or isinstance(v, str)], for a key that may be
    absent. *)
Definition boolish (v : option value) : bool :=
  match v with
  | Some (VBool _) | Some (VStr _) => true
  | _ => false
  end.

(** The small invocation without [--name], with every size overridden and
    a configuration file. *)
Definition unnamed_args : Namespace :=
  {| args_config := Some "config.json";
     args_output := "chiplet_model.json";
     args_name := None;
     args_seq_length := 4;
     args_batch := 1;
     args_dtype_bytes := 2;
     args_layers := Some 1;
     args_hidden_size := Some 8;
     args_intermediate_size := Some 16;
     args_num_experts := Some 2;
     args_experts_per_tok := Some 1;
     args_digital_chiplets := 2;
     args_rram_chiplets := 3;
     args_digital_latency_scale := fun h => h;
     args_chunk_bytes := 32 |}.

(** * Where the integer model of the float expressions is exact *)

(** Python evaluates [int(math.ceil(a / b))] through a double: [a / b] is
    the correctly rounded quotient of the two ints.  For [|a| < 2^53] and
    [0 < b < 2^53] the rounded quotient has the ceiling of the exact one,
    which is [ceil_div a b]; beyond that the two can differ (for
    [a = 2^65 + 1] and [b = 4096] the double is [2^53], the ceiling is
    [2^53 + 1]).  Statements about such a value carry this bound on its
    operands. *)
Definition double_bound : Z := 2 ^ 53.


(** * Weights of the stages of the chunked builder *)

(** The [weight_bytes] of chunk [c] of a sub-pipeline whose weights are
    [total] bytes: [projection_weight_bytes if chunk_idx == 0 else 0] in
    [add_projection], [expert_weight_bytes if chunk_idx == 0 else 0] in the
    MoE loop. *)
Definition resident_weight (total c : Z) : Z :=
  if c =? 0 then total else 0.

(** The [weight_bytes] of the [attn_score] and [attn_mix] stages of a chunk
    of [chunk_tokens] tokens. *)
Definition attention_weight (chunk_tokens hidden_size dtype_bytes : Z) : Z :=
  chunk_tokens * hidden_size * Z.max dtype_bytes 1.

(** * Blocks of stages *)

(** The stages of [blk], placed from position [b] on, only depend on
    earlier positions. *)
Definition block_ok (b : Z) (blk : list dict) : Prop :=
  forall k st d,
    lookup blk k = Some st -> In d (stage_deps st) -> 0 <= d < b + k.

(** * Proofs *)

(** ** The chunk planner *)

Lemma chunk_loop_done tpc H remaining plan :
  remaining <= 0 -> chunk_loop tpc H remaining plan = plan.
Proof.
  intros Hle. simp chunk_loop.
  destruct (Z_gt_dec remaining 0); [lia | reflexivity].
Qed.

Lemma chunk_loop_step tpc H remaining plan :
  0 < remaining ->
  chunk_loop tpc H remaining plan =
  chunk_loop tpc H (remaining - Z.min tpc remaining)
    (plan ++ [Z.min tpc remaining]).
Proof.
  intros Hlt. rewrite chunk_loop_equation_1 at 1.
  destruct (Z_gt_dec remaining 0); [reflexivity | lia].
Qed.

Lemma chunk_closed_form_small tpc remaining :
  0 < remaining <= tpc -> chunk_closed_form tpc remaining = [remaining].
Proof.
  intros Hr. unfold chunk_closed_form.
  destruct (Z.eq_dec remaining tpc) as [->|Hne].
  - rewrite Z.div_same, Z.mod_same by lia. reflexivity.
  - rewrite Z.div_small, Z.mod_small by lia.
    destruct (Z.eqb_spec remaining 0); [lia | reflexivity].
Qed.

Lemma chunk_closed_form_large tpc remaining :
  1 <= tpc < remaining ->
  chunk_closed_form tpc remaining = tpc :: chunk_closed_form tpc (remaining - tpc).
Proof.
  intros Hr. unfold chunk_closed_form.
  assert (Hdiv : remaining / tpc = (remaining - tpc) / tpc + 1).
  { replace remaining with ((remaining - tpc) + 1 * tpc) at 1 by lia.
    apply Z.div_add; lia. }
  assert (Hmod : remaining mod tpc = (remaining - tpc) mod tpc).
  { replace remaining with ((remaining - tpc) + 1 * tpc) at 1 by lia.
    apply Z.mod_add; lia. }
  rewrite Hdiv, Hmod.
  assert (0 <= (remaining - tpc) / tpc) by (apply Z.div_pos; lia).
  replace (Z.to_nat ((remaining - tpc) / tpc + 1))
    with (S (Z.to_nat ((remaining - tpc) / tpc))) by lia.
  reflexivity.
Qed.

Lemma chunk_loop_closed tpc H (n : nat) :
  forall remaining plan,
    (Z.to_nat remaining <= n)%nat ->
    0 <= remaining ->
    chunk_loop tpc H remaining plan =
    plan ++ (if remaining =? 0 then [] else chunk_closed_form tpc remaining).
Proof.
  induction n as [|n IH]; intros remaining plan Hn Hr.
  - assert (remaining = 0) as -> by lia.
    rewrite chunk_loop_done by lia. cbn. now rewrite app_nil_r.
  - destruct (Z.eqb_spec remaining 0) as [->|Hnz].
    + rewrite chunk_loop_done by lia. now rewrite app_nil_r.
    + rewrite chunk_loop_step by lia.
      rewrite IH by lia. rewrite <- app_assoc. f_equal.
      destruct (Z.min_spec tpc remaining) as [[Hlt ->]|[Hge ->]].
      * destruct (Z.eqb_spec (remaining - tpc) 0); [lia|].
        rewrite (chunk_closed_form_large tpc remaining) by lia. reflexivity.
      * rewrite Z.sub_diag. cbn.
        now rewrite chunk_closed_form_small by lia.
Qed.

Lemma sum_list_app l1 l2 : sum_list (l1 ++ l2) = sum_list l1 + sum_list l2.
Proof.
  unfold sum_list. induction l1 as [|a l1 IH]; cbn [app fold_right]; lia.
Qed.

Lemma sum_list_repeat x n : sum_list (repeat x n) = Z.of_nat n * x.
Proof.
  unfold sum_list. induction n as [|n IH]; cbn [repeat fold_right]; lia.
Qed.

Lemma chunk_closed_form_sum tpc remaining :
  1 <= tpc -> 0 <= remaining -> sum_list (chunk_closed_form tpc remaining) = remaining.
Proof.
  intros Ht Hr. unfold chunk_closed_form.
  rewrite sum_list_app, sum_list_repeat.
  assert (0 <= remaining / tpc) by (apply Z.div_pos; lia).
  rewrite Z2Nat.id by lia.
  pose proof (Z.div_mod remaining tpc ltac:(lia)) as Hdm.
  destruct (Z.eqb_spec (remaining mod tpc) 0); cbn; lia.
Qed.

Lemma chunk_closed_form_pos tpc remaining :
  1 <= tpc -> 0 <= remaining ->
  Forall (fun take => 1 <= take <= tpc) (chunk_closed_form tpc remaining).
Proof.
  intros Ht Hr. unfold chunk_closed_form. apply Forall_app. split.
  - apply Forall_forall. intros x Hx. apply repeat_spec in Hx. lia.
  - pose proof (Z.mod_pos_bound remaining tpc ltac:(lia)).
    destruct (Z.eqb_spec (remaining mod tpc) 0); constructor; [lia | constructor].
Qed.

Lemma chunk_closed_form_nonempty tpc remaining :
  1 <= tpc -> 0 < remaining -> chunk_closed_form tpc remaining <> [].
Proof.
  intros Ht Hr.
  destruct (Z_le_gt_dec remaining tpc).
  - rewrite chunk_closed_form_small by lia. discriminate.
  - rewrite chunk_closed_form_large by lia. discriminate.
Qed.

(** The plan for a positive token count, in closed form. *)
Lemma build_chunk_plan_closed tokens hidden_size dtype_bytes chunk_bytes :
  0 < tokens -> 1 <= dtype_bytes ->
  build_chunk_plan tokens hidden_size dtype_bytes chunk_bytes =
  Ok (chunk_closed_form
        (Z.max (chunk_bytes / Z.max (hidden_size * dtype_bytes) dtype_bytes) 1)
        tokens).
Proof.
  intros Ht Hd. unfold build_chunk_plan.
  destruct (Z.leb_spec tokens 0); [lia|].
  destruct (Z.leb_spec (Z.max (hidden_size * dtype_bytes) dtype_bytes) 0); [lia|].
  unfold py_floordiv.
  destruct (Z.eqb_spec (Z.max (hidden_size * dtype_bytes) dtype_bytes) 0); [lia|].
  cbn [rbind].
  rewrite (chunk_loop_closed _ _ (Z.to_nat tokens)) by lia.
  destruct (Z.eqb_spec tokens 0); [lia|]. cbn [app].
  set (tpc := Z.max _ 1).
  pose proof (chunk_closed_form_nonempty tpc tokens ltac:(lia) Ht) as Hne.
  destruct (chunk_closed_form tpc tokens); [contradiction | reflexivity].
Qed.

(** ** Lists, lengths and indexing *)

Lemma len_nil {A} : len (@nil A) = 0.
Proof. reflexivity. Qed.

Lemma len_cons {A} (a : A) l : len (a :: l) = len l + 1.
Proof. unfold len. cbn [List.length]. lia. Qed.

Lemma len_app {A} (l1 l2 : list A) : len (l1 ++ l2) = len l1 + len l2.
Proof. unfold len. rewrite length_app. lia. Qed.

Lemma len_snoc {A} (l : list A) a : len (l ++ [a]) = len l + 1.
Proof. rewrite len_app, len_cons, len_nil. lia. Qed.

Lemma len_map {A B} (f : A -> B) l : len (map f l) = len l.
Proof. unfold len. now rewrite length_map. Qed.

Lemma len_nonneg {A} (l : list A) : 0 <= len l.
Proof. unfold len. lia. Qed.

Lemma length_range_from s n : List.length (range_from s n) = n.
Proof. revert s. induction n as [|n IH]; intros s; cbn; [reflexivity | now rewrite IH]. Qed.

Lemma len_range_from s n : len (range_from s n) = Z.of_nat n.
Proof. unfold len. now rewrite length_range_from. Qed.

Lemma len_range n : len (range n) = Z.max n 0.
Proof. unfold range. rewrite len_range_from. lia. Qed.

Lemma length_enumerate_from {A} s (l : list A) :
  List.length (enumerate_from s l) = List.length l.
Proof. revert s. induction l as [|a l IH]; intros s; cbn; [reflexivity | now rewrite IH]. Qed.

Lemma len_enumerate_from {A} s (l : list A) : len (enumerate_from s l) = len l.
Proof. unfold len. now rewrite length_enumerate_from. Qed.

Lemma len_enumerate {A} (l : list A) : len (enumerate l) = len l.
Proof. unfold len, enumerate. now rewrite length_enumerate_from. Qed.

Lemma range_from_snoc s n :
  range_from s (S n) = range_from s n ++ [s + Z.of_nat n].
Proof.
  revert s. induction n as [|n IH]; intros s.
  - cbn. now rewrite Z.add_0_r.
  - change (range_from s (S (S n))) with (s :: range_from (s + 1) (S n)).
    rewrite IH. cbn [range_from app]. do 3 f_equal. lia.
Qed.

Lemma nth_error_range_from s n k :
  (k < n)%nat -> nth_error (range_from s n) k = Some (s + Z.of_nat k).
Proof.
  revert s k. induction n as [|n IH]; intros s k Hk; [lia|].
  destruct k as [|k]; cbn [range_from nth_error].
  - now rewrite Z.add_0_r.
  - rewrite IH by lia. f_equal. lia.
Qed.

Lemma in_range_from s n x :
  In x (range_from s n) <-> s <= x < s + Z.of_nat n.
Proof.
  revert s. induction n as [|n IH]; intros s; cbn [range_from In].
  - lia.
  - rewrite IH. lia.
Qed.

Lemma in_range n x : In x (range n) <-> 0 <= x < n.
Proof. unfold range. rewrite in_range_from. lia. Qed.

Lemma nth_error_enumerate_from {A} s (l : list A) k a :
  nth_error l k = Some a ->
  nth_error (enumerate_from s l) k = Some (s + Z.of_nat k, a).
Proof.
  revert s k. induction l as [|x l IH]; intros s k Hk; destruct k as [|k];
    cbn in *; try discriminate.
  - injection Hk as ->. now rewrite Z.add_0_r.
  - rewrite (IH (s + 1) k Hk). do 2 f_equal. lia.
Qed.

Lemma in_enumerate_from {A} s (l : list A) it :
  In it (enumerate_from s l) ->
  s <= fst it < s + len l /\ nth_error l (Z.to_nat (fst it - s)) = Some (snd it).
Proof.
  revert s. induction l as [|x l IH]; intros s Hin; cbn in Hin; [contradiction|].
  rewrite len_cons. pose proof (len_nonneg l).
  destruct Hin as [<-|Hin].
  - cbn [fst snd]. rewrite Z.sub_diag. cbn. split; [lia | reflexivity].
  - apply IH in Hin. destruct Hin as [Hr Hn]. split; [lia|].
    replace (Z.to_nat (fst it - s)) with (S (Z.to_nat (fst it - (s + 1)))) by lia.
    exact Hn.
Qed.

Lemma py_index_nth {A} (l : list A) i d :
  0 <= i < len l -> py_index l i = Ok (nth (Z.to_nat i) l d).
Proof.
  intros Hi. unfold py_index. fold (len l).
  destruct (Z.ltb_spec i 0); [lia|].
  destruct (Z.leb_spec 0 i); [|lia].
  destruct (Z.ltb_spec i (len l)); [|lia]. cbn [andb].
  destruct (nth_error l (Z.to_nat i)) eqn:E.
  - now rewrite (nth_error_nth _ _ d E).
  - apply nth_error_None in E. unfold len in Hi. lia.
Qed.

Lemma py_index_range_from s n i :
  0 <= i < Z.of_nat n -> py_index (range_from s n) i = Ok (s + i).
Proof.
  intros Hi. rewrite (py_index_nth _ _ 0) by (rewrite len_range_from; lia).
  f_equal. apply nth_error_nth.
  rewrite nth_error_range_from by lia. f_equal. lia.
Qed.

Lemma py_index_last_range_from s n :
  (0 < n)%nat -> py_index (range_from s n) (-1) = Ok (s + Z.of_nat n - 1).
Proof.
  intros Hn. unfold py_index. fold (len (range_from s n)).
  rewrite len_range_from. cbn [Z.ltb Z.compare].
  destruct (Z.leb_spec 0 (-1 + Z.of_nat n)); [|lia].
  destruct (Z.ltb_spec (-1 + Z.of_nat n) (Z.of_nat n)); [|lia]. cbn [andb].
  rewrite nth_error_range_from by lia. f_equal. lia.
Qed.

Lemma py_index_map {A B} (f : A -> B) l i a :
  py_index l i = Ok a -> py_index (map f l) i = Ok (f a).
Proof.
  unfold py_index. rewrite length_map.
  destruct (_ && _); [|discriminate].
  rewrite nth_error_map.
  destruct (nth_error l _); [|discriminate].
  intros [= ->]. reflexivity.
Qed.

Lemma traverse_map {A B} (f : A -> result B) (g : A -> B) l :
  (forall a, In a l -> f a = Ok (g a)) -> traverse f l = Ok (map g l).
Proof.
  induction l as [|a l IH]; intros H; [reflexivity|].
  cbn [traverse map]. rewrite (H a (or_introl eq_refl)). cbn [rbind].
  rewrite IH by (intros; apply H; now right). reflexivity.
Qed.

Lemma ints_of_map_VInt l : ints_of (map VInt l) = l.
Proof. induction l as [|a l IH]; [reflexivity|]. cbn. f_equal. exact IH. Qed.

(** ** The builder monad *)

Lemma bind_ok {A B} (m : M A) (k : A -> M B) s a s' :
  m s = Ok (a, s') -> bind m k s = k a s'.
Proof. intros H. unfold bind. now rewrite H. Qed.

Lemma bind_raise {A B} (m : M A) (k : A -> M B) s e :
  m s = Raise e -> bind m k s = Raise e.
Proof. intros H. unfold bind. now rewrite H. Qed.

Lemma bind_ret {A B} (a : A) (k : A -> M B) s : bind (ret a) k s = k a s.
Proof. reflexivity. Qed.

Lemma bind_lift_ok {A B} (r : result A) a (k : A -> M B) s :
  r = Ok a -> bind (lift r) k s = k a s.
Proof. intros ->. reflexivity. Qed.

Lemma bind_lift_raise {A B} (r : result A) e (k : A -> M B) s :
  r = Raise e -> bind (lift r) k s = Raise e.
Proof. intros ->. reflexivity. Qed.

Lemma append_stage_some st deps seq :
  append_stage st (Some deps) seq = Ok (len seq, seq ++ [with_deps deps st]).
Proof.
  unfold append_stage. fold (with_deps deps st).
  fold (len (seq ++ [with_deps deps st])).
  rewrite len_app, len_cons, len_nil. do 2 f_equal. lia.
Qed.

Lemma bind_append_some {B} st deps (k : Z -> M B) seq :
  bind (append_stage st (Some deps)) k seq =
  k (len seq) (seq ++ [with_deps deps st]).
Proof. apply bind_ok, append_stage_some. Qed.

Lemma append_stage_appended st deps seq pos :
  len seq = pos ->
  append_stage st (match deps with [] => None | _ => Some deps end) seq =
  Ok (pos, seq ++ [appended pos deps st]).
Proof.
  intros <-. destruct deps as [|d deps].
  - unfold append_stage, appended.
    destruct seq as [|s0 seq]; [reflexivity|].
    fold (len (s0 :: seq)). fold (with_deps [len (s0 :: seq) - 1] st).
    fold (len ((s0 :: seq) ++ [with_deps [len (s0 :: seq) - 1] st])).
    rewrite len_app, !len_cons, len_nil. pose proof (len_nonneg seq).
    destruct (Z.eqb_spec (len seq + 1) 0); [lia|].
    do 2 f_equal. lia.
  - apply append_stage_some.
Qed.

Create Rewrite HintDb len_db.
#[export] Hint Rewrite @len_nil @len_cons @len_app @len_map @len_enumerate
  @len_enumerate_from len_range_from : len_db.

(** ** The chunked builder appends the layout *)

Module GolangProofs.

Import GolangTools GolangLayout GolangInv.

Lemma len_chunked_block sb base per enf b its :
  len (chunked_block sb base per enf b its) = len its.
Proof. unfold chunked_block. apply len_map. Qed.

Lemma len_flat_map3 {A B} (f : A -> list B) l :
  (forall a, len (f a) = 3) -> len (flat_map f l) = 3 * len l.
Proof.
  intros H. induction l as [|a l IH]; [reflexivity|].
  cbn [flat_map]. rewrite len_app, len_cons, H, IH. lia.
Qed.

Lemma len_projection_block cl b dep label l wb rid its :
  len (projection_block cl b dep label l wb rid its) = 3 * len its.
Proof. apply len_flat_map3. reflexivity. Qed.

Lemma len_moe_block cl b g l its :
  len (moe_block cl b g l its) = 3 * len its.
Proof. apply len_flat_map3. reflexivity. Qed.

#[export] Hint Rewrite len_chunked_block len_projection_block len_moe_block
  : len_db.

Lemma len_projection_triple cl b dep label l wb rid it :
  len (projection_triple cl b dep label l wb rid it) = 3.
Proof. reflexivity. Qed.

Lemma len_moe_triple cl b g l it : len (moe_triple cl b g l it) = 3.
Proof. reflexivity. Qed.

#[export] Hint Rewrite len_projection_triple len_moe_triple : len_db.

Ltac solve_len :=
  autorewrite with len_db in *; unfold len in *; lia.

Section Loops.

Variable cl : closure.
Hypothesis Hok : closure_ok cl.

Local Abbreviation n := (len (cl_chunk_plan cl)).

Lemma chunk_size_of_ok c :
  0 <= c < n -> chunk_size_of cl c = Ok (size_at cl c).
Proof.
  intros Hc. unfold chunk_size_of, size_at.
  rewrite (ok_bytes cl Hok).
  destruct (Z.ltb_spec c n); [|lia].
  apply py_index_nth. rewrite (ok_bytes cl Hok). lia.
Qed.

Lemma add_projection_body_spec b dep label l wb did rid c tok seq last :
  0 <= c < n ->
  len seq = b + 3 * c ->
  last = (if c =? 0 then dep else b + 3 * c - 1) ->
  add_projection_body cl label l wb did rid last (c, tok) seq =
  Ok (b + 3 * c + 2,
      seq ++ projection_triple cl b dep label l wb rid (c, tok)).
Proof.
  intros Hc Hlen ->. unfold add_projection_body.
  rewrite (bind_lift_ok _ _ _ _ (chunk_size_of_ok c Hc)).
  rewrite !bind_append_some. unfold ret.
  rewrite !len_app, !len_cons, !len_nil, Hlen.
  unfold projection_triple. cbn [fst snd].
  rewrite <- !app_assoc. cbn [app].
  rewrite !Z.add_0_l.
  replace (b + 3 * c + 1 + 1) with (b + 3 * c + 2) by lia.
  reflexivity.
Qed.

Lemma add_projection_loop b dep label l wb did rid :
  forall rest c0 seq last,
    0 <= c0 -> c0 + len rest <= n ->
    len seq = b + 3 * c0 ->
    last = (if c0 =? 0 then dep else b + 3 * c0 - 1) ->
    for_each (enumerate_from c0 rest) last
      (add_projection_body cl label l wb did rid) seq =
    Ok (if c0 + len rest =? 0 then dep else b + 3 * (c0 + len rest) - 1,
        seq ++ projection_block cl b dep label l wb rid (enumerate_from c0 rest)).
Proof.
  induction rest as [|tok rest IH]; intros c0 seq last Hc0 Hn Hlen Hlast.
  - cbn [enumerate_from for_each projection_block flat_map].
    rewrite len_nil, Z.add_0_r, app_nil_r. unfold ret. now subst last.
  - rewrite len_cons in Hn. pose proof (len_nonneg rest) as Hrest.
    cbn [enumerate_from for_each].
    rewrite (bind_ok _ _ _ _ _
               (add_projection_body_spec b dep label l wb did rid c0 tok seq
                  last ltac:(lia) Hlen Hlast)).
    rewrite (IH (c0 + 1)); [ | lia | lia | solve_len | ].
    + rewrite len_cons. unfold projection_block. cbn [flat_map].
      rewrite <- app_assoc.
      replace (c0 + 1 + len rest) with (c0 + (len rest + 1)) by lia.
      reflexivity.
    + destruct (Z.eqb_spec (c0 + 1) 0); lia.
Qed.

Lemma plan_count_pos : 0 < n.
Proof.
  pose proof (ok_plan cl Hok) as Hp.
  destruct (cl_chunk_plan cl) as [|t p]; [contradiction|].
  rewrite len_cons. pose proof (len_nonneg p). lia.
Qed.

Lemma add_projection_spec b r label l dep wb did rid seq :
  len seq = b ->
  dep = b - 1 ->
  r = b + 3 * n - 1 ->
  add_projection cl label l dep wb did rid seq =
  Ok (r,
      seq ++ projection_block cl b (b - 1) label l wb rid
               (enumerate (cl_chunk_plan cl))).
Proof.
  intros Hlen -> ->. unfold add_projection, enumerate.
  rewrite (add_projection_loop b (b - 1)); [ | lia | lia | lia | reflexivity].
  rewrite Z.add_0_l. pose proof plan_count_pos.
  destruct (Z.eqb_spec n 0) as [E|E]; [lia | reflexivity].
Qed.

Lemma append_chunked_stage_body_spec sb base per enf b ids prev idx tok seq :
  0 <= idx ->
  len seq = b + idx ->
  prev = (if idx =? 0 then None else Some (b + idx - 1)) ->
  append_chunked_stage_body sb base per enf (ids, prev) (idx, tok) seq =
  Ok ((ids ++ [b + idx], Some (b + idx)),
      seq ++ [appended (b + idx) (chunk_dep_list base per enf b idx)
                (sb idx tok)]).
Proof.
  intros Hidx Hlen ->. unfold append_chunked_stage_body.
  set (deps0 :=
         match per with
         | Some pcd =>
             if idx <? len pcd
             then _normalize_deps (nth (Z.to_nat idx) pcd VNone)
             else []
         | None => []
         end).
  assert (Hdeps :
    forall B (k : list Z -> M B),
      bind (match per with
            | Some pcd =>
                if idx <? len pcd
                then bind (lift (py_index pcd idx))
                       (fun d => ret ([] ++ _normalize_deps d))
                else ret []
            | None => ret []
            end) k seq = k deps0 seq).
  { intros B k. subst deps0. destruct per as [pcd|]; [|reflexivity].
    destruct (Z.ltb_spec idx (len pcd)); [|reflexivity].
    unfold bind at 1.
    rewrite (bind_lift_ok _ _ _ _ (py_index_nth pcd idx VNone ltac:(lia))).
    reflexivity. }
  rewrite Hdeps.
  assert (Hfinal :
    (match (if idx =? 0 then None else Some (b + idx - 1)) with
     | Some p =>
         if enf
         then (if (idx =? 0)
                  && match deps0 with [] => true | _ :: _ => false end
                  && match base with [] => false | _ :: _ => true end
               then deps0 ++ base else deps0) ++ [p]
         else (if (idx =? 0)
                  && match deps0 with [] => true | _ :: _ => false end
                  && match base with [] => false | _ :: _ => true end
               then deps0 ++ base else deps0)
     | None =>
         (if (idx =? 0)
             && match deps0 with [] => true | _ :: _ => false end
             && match base with [] => false | _ :: _ => true end
          then deps0 ++ base else deps0)
     end) = chunk_dep_list base per enf b idx).
  { unfold chunk_dep_list. fold deps0.
    destruct (idx =? 0), enf; cbn [andb negb]; reflexivity. }
  rewrite Hfinal.
  rewrite (bind_ok _ _ _ _ _
             (append_stage_appended (sb idx tok)
                (chunk_dep_list base per enf b idx) seq (b + idx) Hlen)).
  reflexivity.
Qed.

Lemma append_chunked_stage_loop sb base per enf b :
  forall rest i0 seq ids prev,
    0 <= i0 ->
    len seq = b + i0 ->
    prev = (if i0 =? 0 then None else Some (b + i0 - 1)) ->
    exists prev',
      for_each (enumerate_from i0 rest) (ids, prev)
        (append_chunked_stage_body sb base per enf) seq =
      Ok ((ids ++ range_from (b + i0) (List.length rest), prev'),
          seq ++ chunked_block sb base per enf b (enumerate_from i0 rest)).
Proof.
  induction rest as [|tok rest IH]; intros i0 seq ids prev Hi0 Hlen Hprev.
  - exists prev. cbn. now rewrite !app_nil_r.
  - cbn [enumerate_from for_each].
    rewrite (bind_ok _ _ _ _ _
               (append_chunked_stage_body_spec sb base per enf b ids prev i0
                  tok seq Hi0 Hlen Hprev)).
    destruct (IH (i0 + 1) (seq ++ [appended (b + i0)
                                     (chunk_dep_list base per enf b i0)
                                     (sb i0 tok)])
                (ids ++ [b + i0]) (Some (b + i0))) as [prev' Hrun].
    + lia.
    + solve_len.
    + destruct (Z.eqb_spec (i0 + 1) 0); [lia|]. f_equal. lia.
    + exists prev'. rewrite Hrun.
      cbn [List.length range_from chunked_block map fst snd].
      rewrite <- !app_assoc. cbn [app].
      replace (b + (i0 + 1)) with (b + i0 + 1) by lia. reflexivity.
Qed.

Lemma append_chunked_stage_spec sb base per enf b seq :
  len seq = b ->
  append_chunked_stage sb (cl_chunk_plan cl) base per enf seq =
  Ok (range_from b (List.length (cl_chunk_plan cl)),
      seq ++ chunked_block sb (_normalize_deps base) per enf b
               (enumerate (cl_chunk_plan cl))).
Proof.
  intros Hlen. unfold append_chunked_stage.
  pose proof (ok_plan cl Hok) as Hp.
  destruct (cl_chunk_plan cl) as [|t p] eqn:E; [contradiction|].
  destruct (append_chunked_stage_loop sb (_normalize_deps base) per enf b
              (t :: p) 0 seq [] None) as [prev' Hrun];
    [lia | lia | reflexivity |].
  unfold enumerate.
  rewrite (bind_ok _ _ _ _ _ Hrun). unfold ret. cbn [fst app].
  now rewrite Z.add_0_r.
Qed.

Lemma traverse_map_map {A B C} (f : B -> result C) (g : A -> B) (h : A -> C) l :
  (forall a, In a l -> f (g a) = Ok (h a)) ->
  traverse f (map g l) = Ok (map h l).
Proof.
  induction l as [|a l IH]; intros H; [reflexivity|].
  cbn [traverse map]. rewrite (H a (or_introl eq_refl)). cbn [rbind].
  rewrite IH by (intros; apply H; now right). reflexivity.
Qed.

Lemma build_experts_template_ok l :
  build_experts_template cl l =
  Ok (map (fun e => expert_template_entry cl l e (e mod cl_rram_chiplets cl))
        (range (cl_num_experts cl))).
Proof.
  unfold build_experts_template. apply traverse_map.
  intros e He. rewrite (ok_chips cl Hok).
  erewrite py_index_map; [reflexivity|].
  apply in_range in He. unfold range.
  rewrite py_index_range_from by lia. now rewrite Z.add_0_l.
Qed.

Lemma chunk_experts_ok l c :
  traverse (chunk_expert cl c (size_at cl c))
    (map (fun e => expert_template_entry cl l e (e mod cl_rram_chiplets cl))
       (range (cl_num_experts cl))) =
  Ok (experts_at cl l c).
Proof.
  unfold experts_at. apply traverse_map_map. intros e _. reflexivity.
Qed.

Lemma match_range_from {A} s k (X Y : A) :
  (0 < k)%nat ->
  match range_from s k with [] => Y | _ :: _ => X end = X.
Proof. destruct k; [lia | reflexivity]. Qed.

Lemma plan_length_pos : (0 < List.length (cl_chunk_plan cl))%nat.
Proof. pose proof plan_count_pos. unfold len in *. lia. Qed.

Lemma last_of_range_from s r :
  r = s + n - 1 ->
  last_of (range_from s (List.length (cl_chunk_plan cl))) = Ok r.
Proof.
  intros ->. unfold last_of.
  now rewrite py_index_last_range_from by apply plan_length_pos.
Qed.

Lemma build_mix_deps_ok p v :
  build_mix_deps cl (range_from p (List.length (cl_chunk_plan cl))) v =
  Ok (map (fun c => VInts [p + c; v]) (range n)).
Proof.
  unfold build_mix_deps. apply traverse_map. intros c Hc.
  apply in_range in Hc. rewrite len_range_from. fold n.
  destruct (Z.ltb_spec c n); [|lia].
  rewrite py_index_range_from by (unfold len in *; lia).
  reflexivity.
Qed.

Tactic Notation "step" uconstr(lem) :=
  erewrite bind_ok by (apply lem; solve_len); cbv beta.

(** Everything before the MoE dispatch loop does not depend on the number
    of experts. *)
Ltac layer_prefix b l Hdep :=
  unfold layer_body; rewrite Hdep;
  step (add_projection_spec b (b + 3 * n - 1));
  step (add_projection_spec (b + 3 * n) (b + 6 * n - 1));
  step (add_projection_spec (b + 6 * n) (b + 9 * n - 1));
  step (append_chunked_stage_spec (attn_score_stage cl l)
          (VInts [b + 3 * n - 1; b + 6 * n - 1]) None false (b + 9 * n));
  step (append_chunked_stage_spec (softmax_stage cl l) VNone
          (Some (map VInt (range_from (b + 9 * n)
                             (List.length (cl_chunk_plan cl)))))
          false (b + 10 * n));
  rewrite (bind_lift_ok _ _ _ _ (build_mix_deps_ok (b + 10 * n) (b + 9 * n - 1)));
  step (append_chunked_stage_spec (attn_mix_stage cl l) VNone
          (Some (map (fun c => VInts [b + 10 * n + c; b + 9 * n - 1]) (range n)))
          false (b + 11 * n));
  rewrite (match_range_from (b + 11 * n) _ _ _ plan_length_pos);
  rewrite (bind_lift_ok _ _ _ _
             (last_of_range_from (b + 11 * n) (b + 12 * n - 1) ltac:(lia)));
  step (add_projection_spec (b + 12 * n) (b + 15 * n - 1));
  step (append_chunked_stage_spec (post_attention_stage cl l)
          (VInt (b + 15 * n - 1)) None false (b + 15 * n));
  step (append_chunked_stage_spec (moe_gating_stage cl l) VNone
          (Some (map VInt (range_from (b + 15 * n)
                             (List.length (cl_chunk_plan cl)))))
          true (b + 16 * n)).

Section Experts.

Hypothesis Hne : 1 <= cl_num_experts cl.

Lemma len_expert_chips : len (cl_expert_chips cl) = cl_num_experts cl.
Proof. rewrite (ok_chips cl Hok), len_map, len_range. lia. Qed.

Lemma moe_target_ok c : moe_target cl c = Ok (target_at cl c).
Proof.
  unfold moe_target, target_at, py_mod. rewrite len_expert_chips.
  destruct (Z.eqb_spec (cl_num_experts cl) 0); [lia|]. cbn [rbind].
  apply py_index_nth. rewrite len_expert_chips.
  apply Z.mod_pos_bound. lia.
Qed.

Lemma moe_chunk_body_spec b g l prev ups c tok seq :
  0 <= c < n ->
  len seq = b + 3 * c ->
  prev = (if c =? 0 then None else Some (b + 3 * c - 1)) ->
  moe_chunk_body cl l (range_from g (List.length (cl_chunk_plan cl)))
    (map (fun e => expert_template_entry cl l e (e mod cl_rram_chiplets cl))
       (range (cl_num_experts cl)))
    (prev, ups) (c, tok) seq =
  Ok ((Some (b + 3 * c + 2), ups ++ [b + 3 * c + 2]),
      seq ++ moe_triple cl b g l (c, tok)).
Proof.
  intros Hc Hlen ->. unfold moe_chunk_body.
  rewrite (bind_lift_ok _ _ _ _ (chunk_size_of_ok c Hc)).
  rewrite (bind_lift_ok _ _ _ _ (moe_target_ok c)).
  rewrite len_range_from. fold n.
  destruct (Z.ltb_spec c n); [|lia].
  unfold bind at 1.
  rewrite (bind_lift_ok _ _ _ _ (py_index_range_from g (List.length (cl_chunk_plan cl)) c
                                 ltac:(unfold len in *; lia))).
  unfold ret at 1.
  assert (Hdeps :
    (match (match (if c =? 0 then None else Some (b + 3 * c - 1)) with
            | Some p => ([] ++ [g + c]) ++ [p]
            | None => [] ++ [g + c]
            end) with
     | [] => None
     | d :: ds => Some (match (if c =? 0 then None else Some (b + 3 * c - 1)) with
                        | Some p => ([] ++ [g + c]) ++ [p]
                        | None => [] ++ [g + c]
                        end)
     end) = Some ([g + c] ++ (if c =? 0 then [] else [b + 3 * c - 1]))).
  { destruct (c =? 0); reflexivity. }
  rewrite Hdeps.
  rewrite bind_append_some.
  rewrite (bind_lift_ok _ _ _ _ (chunk_experts_ok l c)).
  rewrite bind_append_some.
  rewrite (bind_lift_ok _ _ _ _ (moe_target_ok c)).
  rewrite bind_append_some. unfold ret.
  rewrite !len_app, !len_cons, !len_nil, Hlen, !Z.add_0_l.
  unfold moe_triple. cbn [fst snd].
  rewrite <- !app_assoc. cbn [app].
  replace (b + 3 * c + 1 + 1) with (b + 3 * c + 2) by lia.
  reflexivity.
Qed.

Lemma moe_loop b g l :
  forall rest c0 seq ups prev,
    0 <= c0 -> c0 + len rest <= n ->
    len seq = b + 3 * c0 ->
    prev = (if c0 =? 0 then None else Some (b + 3 * c0 - 1)) ->
    for_each (enumerate_from c0 rest) (prev, ups)
      (moe_chunk_body cl l (range_from g (List.length (cl_chunk_plan cl)))
         (map (fun e => expert_template_entry cl l e (e mod cl_rram_chiplets cl))
            (range (cl_num_experts cl)))) seq =
    Ok ((if c0 + len rest =? 0 then None
         else Some (b + 3 * (c0 + len rest) - 1),
         ups ++ map (fun c => b + 3 * c + 2) (range_from c0 (List.length rest))),
        seq ++ moe_block cl b g l (enumerate_from c0 rest)).
Proof.
  induction rest as [|tok rest IH]; intros c0 seq ups prev Hc0 Hn Hlen Hprev.
  - cbn [enumerate_from for_each moe_block flat_map List.length range_from map].
    rewrite len_nil, Z.add_0_r, !app_nil_r. unfold ret. now subst prev.
  - rewrite len_cons in Hn. pose proof (len_nonneg rest) as Hrest.
    cbn [enumerate_from for_each].
    rewrite (bind_ok _ _ _ _ _
               (moe_chunk_body_spec b g l prev ups c0 tok seq ltac:(lia) Hlen
                  Hprev)).
    rewrite (IH (c0 + 1)); [ | lia | lia | solve_len | ].
    + rewrite len_cons. unfold moe_block.
      cbn [flat_map List.length range_from map].
      rewrite <- !app_assoc. cbn [app].
      replace (c0 + 1 + len rest) with (c0 + (len rest + 1)) by lia.
      reflexivity.
    + destruct (Z.eqb_spec (c0 + 1) 0); [lia|]. f_equal. lia.
Qed.

Lemma layer_body_spec prev l seq b :
  len seq = b ->
  (if l =? 0 then cl_embed_stage cl else prev) = b - 1 ->
  layer_body cl prev l seq = Ok (b + 22 * n - 1, seq ++ layer_block cl b l).
Proof.
  intros Hlen Hdep. layer_prefix b l Hdep.
  rewrite (bind_lift_ok _ _ _ _ (build_experts_template_ok l)).
  erewrite bind_ok.
  2: { unfold enumerate.
       apply (moe_loop (b + 17 * n) (b + 16 * n) l (cl_chunk_plan cl) 0);
         [lia | lia | solve_len | reflexivity]. }
  cbv beta iota.
  step (append_chunked_stage_spec (moe_merge_stage cl l) VNone
          (Some (map VInt ([] ++ map (fun c => b + 17 * n + 3 * c + 2)
                                   (range_from 0 (List.length (cl_chunk_plan cl))))))
          true (b + 20 * n)).
  step (append_chunked_stage_spec (postprocess_stage cl l) VNone
          (Some (map VInt (range_from (b + 20 * n)
                             (List.length (cl_chunk_plan cl)))))
          true (b + 21 * n)).
  rewrite (match_range_from (b + 21 * n) _ _ _ plan_length_pos).
  rewrite (last_of_range_from (b + 21 * n) (b + 22 * n - 1) ltac:(lia)).
  unfold lift, layer_block, enumerate, range, VInts, len.
  cbn [_normalize_deps ints_of flat_map map app].
  rewrite Nat2Z.id, <- !app_assoc. reflexivity.
Qed.

End Experts.

Section NoExperts.

Hypothesis Hzero : cl_num_experts cl <= 0.

Lemma moe_target_raise c : moe_target cl c = Raise ZeroDivisionError.
Proof.
  unfold moe_target, py_mod.
  rewrite (ok_chips cl Hok), len_map, len_range.
  replace (Z.max (cl_num_experts cl) 0) with 0 by lia. reflexivity.
Qed.

(** With no expert the first MoE chunk of a layer divides by
    [len(expert_chips) == 0]. *)
Lemma layer_body_raise prev l seq b :
  len seq = b ->
  (if l =? 0 then cl_embed_stage cl else prev) = b - 1 ->
  layer_body cl prev l seq = Raise ZeroDivisionError.
Proof.
  intros Hlen Hdep. layer_prefix b l Hdep.
  rewrite (bind_lift_ok _ _ _ _ (build_experts_template_ok l)).
  apply bind_raise.
  pose proof plan_count_pos as Hpos.
  unfold enumerate.
  pose proof (chunk_size_of_ok 0 ltac:(lia)) as Hsize.
  destruct (cl_chunk_plan cl) as [|tok rest]; [cbn in Hpos; lia|].
  cbn [enumerate_from for_each]. apply bind_raise.
  unfold moe_chunk_body.
  rewrite (bind_lift_ok _ _ _ _ Hsize).
  apply bind_lift_raise, moe_target_raise.
Qed.

End NoExperts.

End Loops.

Lemma len_layer_block cl b l :
  len (layer_block cl b l) = 22 * len (cl_chunk_plan cl).
Proof. unfold layer_block. solve_len. Qed.

#[export] Hint Rewrite len_layer_block : len_db.

Lemma layers_loop cl (Hok : closure_ok cl) (Hne : 1 <= cl_num_experts cl) :
  forall k l0 seq prev,
    0 <= l0 ->
    len seq = 1 + 22 * len (cl_chunk_plan cl) * l0 ->
    prev = 22 * len (cl_chunk_plan cl) * l0 ->
    for_each (range_from l0 k) prev (layer_body cl) seq =
    Ok (22 * len (cl_chunk_plan cl) * (l0 + Z.of_nat k),
        seq ++ flat_map
                 (fun l => layer_block cl (1 + 22 * len (cl_chunk_plan cl) * l) l)
                 (range_from l0 k)).
Proof.
  induction k as [|k IH]; intros l0 seq prev Hl0 Hlen ->.
  - cbn [range_from for_each flat_map]. unfold ret.
    now rewrite app_nil_r, Z.add_0_r.
  - cbn [range_from for_each flat_map].
    erewrite bind_ok.
    2: { apply (layer_body_spec cl Hok Hne _ l0 seq _ Hlen).
         destruct (Z.eqb_spec l0 0) as [->|]; [rewrite (ok_embed cl Hok)|]; lia. }
    rewrite (IH (l0 + 1)); [ | lia | solve_len | lia ].
    rewrite <- app_assoc. do 2 f_equal. lia.
Qed.

Lemma plan_of_spec hidden_size seq_length batch dtype_bytes chunk_bytes :
  exists p,
    build_chunk_plan (seq_length * batch) hidden_size (Z.max dtype_bytes 1)
      (Z.max chunk_bytes (Z.max dtype_bytes 1)) = Ok p /\
    match p with [] => [seq_length * batch] | _ :: _ => p end =
    plan_of hidden_size seq_length batch dtype_bytes chunk_bytes.
Proof.
  unfold plan_of. cbv zeta.
  destruct (Z.leb_spec (seq_length * batch) 0) as [Hle|Hgt].
  - exists []. split; [|reflexivity].
    unfold build_chunk_plan. destruct (Z.leb_spec (seq_length * batch) 0); [reflexivity | lia].
  - eexists. split; [apply build_chunk_plan_closed; lia|].
    set (tpc := Z.max _ 1).
    pose proof (chunk_closed_form_nonempty tpc (seq_length * batch)
                  ltac:(lia) Hgt) as Hnil.
    destruct (chunk_closed_form tpc (seq_length * batch));
      [contradiction | reflexivity].
Qed.

Lemma plan_of_nonempty hidden_size seq_length batch dtype_bytes chunk_bytes :
  plan_of hidden_size seq_length batch dtype_bytes chunk_bytes <> [].
Proof.
  unfold plan_of. cbv zeta.
  destruct (Z.leb_spec (seq_length * batch) 0); [discriminate|].
  apply chunk_closed_form_nonempty; lia.
Qed.

Lemma closure_of_ok hidden_size intermediate_size num_experts experts_per_tok
    seq_length batch dtype_bytes digital_chiplets rram_chiplets scale
    chunk_bytes :
  closure_ok
    (closure_of hidden_size intermediate_size num_experts experts_per_tok
       seq_length batch dtype_bytes digital_chiplets rram_chiplets scale
       (plan_of hidden_size seq_length batch dtype_bytes chunk_bytes)).
Proof.
  split; cbn.
  - apply plan_of_nonempty.
  - apply len_map.
  - reflexivity.
  - reflexivity.
  - lia.
  - lia.
Qed.

(** The sequence that [build_moe_sequence] returns, when it returns:
    [embed], then the 22 stages per chunk of each layer. *)
Lemma build_moe_sequence_layout layers hidden_size intermediate_size
    num_experts experts_per_tok seq_length batch dtype_bytes digital_chiplets
    rram_chiplets scale chunk_bytes :
  1 <= num_experts \/ layers <= 0 ->
  build_moe_sequence layers hidden_size intermediate_size num_experts
    experts_per_tok seq_length batch dtype_bytes digital_chiplets
    rram_chiplets scale chunk_bytes =
  Ok (layout
        (closure_of hidden_size intermediate_size num_experts experts_per_tok
           seq_length batch dtype_bytes digital_chiplets rram_chiplets scale
           (plan_of hidden_size seq_length batch dtype_bytes chunk_bytes))
        (seq_length * batch) layers).
Proof.
  intros Hcase. unfold build_moe_sequence. cbv zeta.
  destruct (plan_of_spec hidden_size seq_length batch dtype_bytes chunk_bytes)
    as [p [Hp Hplan]].
  rewrite Hp. cbn [rbind]. rewrite Hplan.
  set (plan := plan_of hidden_size seq_length batch dtype_bytes chunk_bytes).
  set (cl := closure_of hidden_size intermediate_size num_experts
               experts_per_tok seq_length batch dtype_bytes digital_chiplets
               rram_chiplets scale plan).
  rewrite bind_append_some. cbv beta. cbn [app].
  match goal with
  | |- context [layer_body ?c] => change c with cl
  end.
  change (len (@nil dict)) with 0.
  unfold layout. fold plan. fold cl.
  change (cl_hidden_size cl) with hidden_size.
  change (cl_digital_latency_base cl) with (Z.max (scale hidden_size) 1).
  change (cl_chunk_plan cl) with plan.
  destruct Hcase as [Hne|Hlayers].
  - unfold range.
    rewrite (layers_loop cl (closure_of_ok _ _ _ _ _ _ _ _ _ _ _) Hne
               (Z.to_nat layers) 0); [ reflexivity | lia | | ].
    + change (cl_chunk_plan cl) with plan. rewrite len_cons, len_nil. lia.
    + lia.
  - unfold range. replace (Z.to_nat layers) with O by lia. reflexivity.
Qed.

(** With no expert and at least one layer the builder raises. *)
Lemma build_moe_sequence_raise layers hidden_size intermediate_size
    num_experts experts_per_tok seq_length batch dtype_bytes digital_chiplets
    rram_chiplets scale chunk_bytes :
  num_experts <= 0 -> 1 <= layers ->
  build_moe_sequence layers hidden_size intermediate_size num_experts
    experts_per_tok seq_length batch dtype_bytes digital_chiplets
    rram_chiplets scale chunk_bytes = Raise ZeroDivisionError.
Proof.
  intros Hzero Hlayers. unfold build_moe_sequence. cbv zeta.
  destruct (plan_of_spec hidden_size seq_length batch dtype_bytes chunk_bytes)
    as [p [Hp Hplan]].
  rewrite Hp. cbn [rbind]. rewrite Hplan.
  set (plan := plan_of hidden_size seq_length batch dtype_bytes chunk_bytes).
  set (cl := closure_of hidden_size intermediate_size num_experts
               experts_per_tok seq_length batch dtype_bytes digital_chiplets
               rram_chiplets scale plan).
  rewrite bind_append_some. cbv beta. cbn [app].
  match goal with
  | |- context [layer_body ?c] => change c with cl
  end.
  change (len (@nil dict)) with 0.
  unfold range. destruct (Z.to_nat layers) as [|k] eqn:E; [lia|].
  cbn [range_from for_each].
  erewrite bind_raise; [reflexivity|].
  apply (layer_body_raise cl (closure_of_ok _ _ _ _ _ _ _ _ _ _ _) Hzero
           _ 0 _ 1); reflexivity.
Qed.

End GolangProofs.

(** ** The unchunked-attention builder appends its layout *)

Module ToolsProofs.

Import Tools ToolsLayout GolangProofs.

Lemma len_chunk_triple lc b g l c : len (chunk_triple lc b g l c) = 3.
Proof. reflexivity. Qed.

Lemma len_chunk_block lc b g l cs :
  len (flat_map (chunk_triple lc b g l) cs) = 3 * len cs.
Proof. apply len_flat_map3. intros. reflexivity. Qed.

Lemma num_chunks_pos lc : 1 <= num_chunks lc.
Proof. unfold num_chunks. lia. Qed.

Lemma tools_len_layer_block lc b l : len (layer_block lc b l) = layer_size lc.
Proof.
  unfold layer_block, layer_size.
  rewrite !len_app, len_chunk_block, len_range, !len_cons, len_nil.
  pose proof (num_chunks_pos lc). lia.
Qed.

#[export] Hint Rewrite len_chunk_triple len_chunk_block tools_len_layer_block
  len_range : len_db.

Section Loops.

Variable lc : locals.

Local Abbreviation m := (num_chunks lc).

Lemma tools_chunk_experts_ok l c :
  traverse (chunk_expert lc c (chunk_size_at lc c) m)
    (map (fun e => expert_template_entry lc l e (e mod lc_rram_chiplets lc))
       (range (lc_num_experts lc))) =
  Ok (experts_at lc l c).
Proof.
  unfold experts_at. apply traverse_map_map. intros e _. reflexivity.
Qed.

Lemma tools_candidate_chiplets_ok l :
  traverse entry_chiplet
    (map (fun e => expert_template_entry lc l e (e mod lc_rram_chiplets lc))
       (range (lc_num_experts lc))) =
  Ok (map (fun e => VInt (e mod lc_rram_chiplets lc))
        (range (lc_num_experts lc))).
Proof. apply traverse_map_map. intros e _. reflexivity. Qed.

Lemma tools_chunk_body_spec b g l d last c seq :
  d = l mod lc_digital_chiplets lc ->
  len seq = b + 3 * c ->
  last = (if c =? 0 then None else Some (b + 3 * c - 1)) ->
  chunk_body lc l d g m
    (map (fun e => expert_template_entry lc l e (e mod lc_rram_chiplets lc))
       (range (lc_num_experts lc)))
    last c seq =
  Ok (Some (b + 3 * c + 2), seq ++ chunk_triple lc b g l c).
Proof.
  intros -> Hlen ->. unfold chunk_body.
  fold (chunk_size_at lc c).
  assert (Hdep :
    (if c =? 0 then [g]
     else match (if c =? 0 then None else Some (b + 3 * c - 1)) with
          | Some u => [u]
          | None => []
          end) = [if c =? 0 then g else b + 3 * c - 1]).
  { destruct (c =? 0); reflexivity. }
  rewrite Hdep.
  rewrite bind_append_some.
  rewrite (bind_lift_ok _ _ _ _ (tools_chunk_experts_ok l c)).
  rewrite !bind_append_some. unfold ret.
  rewrite !len_app, !len_cons, !len_nil, Hlen, !Z.add_0_l.
  unfold chunk_triple. rewrite <- !app_assoc. cbn [app].
  replace (b + 3 * c + 1 + 1) with (b + 3 * c + 2) by lia.
  reflexivity.
Qed.

Lemma tools_chunk_loop_spec b g l d :
  d = l mod lc_digital_chiplets lc ->
  forall k c0 seq last,
    0 <= c0 ->
    len seq = b + 3 * c0 ->
    last = (if c0 =? 0 then None else Some (b + 3 * c0 - 1)) ->
    for_each (range_from c0 k) last
      (chunk_body lc l d g m
         (map (fun e => expert_template_entry lc l e (e mod lc_rram_chiplets lc))
            (range (lc_num_experts lc)))) seq =
    Ok (if c0 + Z.of_nat k =? 0 then None
        else Some (b + 3 * (c0 + Z.of_nat k) - 1),
        seq ++ flat_map (chunk_triple lc b g l) (range_from c0 k)).
Proof.
  intros Hd. induction k as [|k IH]; intros c0 seq last Hc0 Hlen Hlast.
  - cbn [range_from for_each flat_map]. unfold ret.
    rewrite Z.add_0_r, app_nil_r. now subst last.
  - cbn [range_from for_each flat_map].
    rewrite (bind_ok _ _ _ _ _ (tools_chunk_body_spec b g l d last c0 seq Hd Hlen Hlast)).
    rewrite (IH (c0 + 1)); [ | lia | solve_len | ].
    + rewrite <- app_assoc.
      replace (c0 + 1 + Z.of_nat k) with (c0 + Z.of_nat (S k)) by lia.
      reflexivity.
    + destruct (Z.eqb_spec (c0 + 1) 0); [lia|]. f_equal. lia.
Qed.

Lemma tools_layer_body_spec l seq b :
  len seq = b -> 0 < b ->
  layer_body lc tt l seq = Ok (tt, seq ++ layer_block lc b l).
Proof.
  intros Hlen Hb. unfold layer_body.
  erewrite bind_ok.
  2: { apply (append_stage_appended _ [] seq b Hlen). }
  unfold appended. destruct (Z.eqb_spec b 0); [lia|].
  rewrite bind_append_some.
  rewrite (bind_lift_ok _ _ _ _ (tools_candidate_chiplets_ok l)).
  rewrite bind_append_some.
  fold m.
  pose proof (num_chunks_pos lc) as Hm.
  rewrite !len_snoc, Hlen.
  replace (b + 1 + 1) with (b + 2) by lia.
  erewrite bind_ok.
  2: { apply (tools_chunk_loop_spec (b + 3) (b + 2) l _ eq_refl (Z.to_nat m) 0);
         [lia | solve_len | reflexivity]. }
  destruct (Z.eqb_spec (0 + Z.of_nat (Z.to_nat m)) 0); [lia|].
  rewrite !bind_append_some. unfold ret.
  unfold layer_block. fold m.
  rewrite len_app, !len_snoc, len_chunk_block, len_range_from, Hlen.
  rewrite <- !app_assoc. cbn [app].
  unfold range. rewrite Z2Nat.id by lia.
  replace (b + 3 + 3 * (0 + m) - 1) with (b + 3 + 3 * m - 1) by lia.
  replace (b + 1 + 1 + 1 + 3 * m) with (b + 3 + 3 * m) by lia.
  reflexivity.
Qed.

Lemma tools_layers_loop :
  forall k l0 seq,
    0 <= l0 ->
    len seq = 2 + layer_size lc * l0 ->
    for_each (range_from l0 k) tt (layer_body lc) seq =
    Ok (tt, seq ++ flat_map (fun l => layer_block lc (2 + layer_size lc * l) l)
                     (range_from l0 k)).
Proof.
  induction k as [|k IH]; intros l0 seq Hl0 Hlen.
  - cbn [range_from for_each flat_map]. unfold ret. now rewrite app_nil_r.
  - cbn [range_from for_each flat_map].
    pose proof (num_chunks_pos lc) as Hm.
    erewrite bind_ok.
    2: { apply (tools_layer_body_spec l0 seq _ Hlen). unfold layer_size. nia. }
    rewrite (IH (l0 + 1)); [ | lia | solve_len ].
    rewrite <- app_assoc. reflexivity.
Qed.

End Loops.

Lemma tools_len_layers lc k l0 :
  len (flat_map (fun l => layer_block lc (2 + layer_size lc * l) l)
         (range_from l0 k)) =
  layer_size lc * Z.of_nat k.
Proof.
  revert l0. induction k as [|k IH]; intros l0.
  - cbn [range_from flat_map]. change (len (@nil dict)) with 0. lia.
  - cbn [range_from flat_map]. rewrite len_app, tools_len_layer_block, IH. lia.
Qed.

(** The sequence that [build_moe_sequence] of [tools/] returns. *)
Lemma tools_build_moe_sequence_layout layers hidden_size intermediate_size
    num_experts experts_per_tok seq_length batch dtype_bytes digital_chiplets
    rram_chiplets scale chunk_bytes :
  build_moe_sequence layers hidden_size intermediate_size num_experts
    experts_per_tok seq_length batch dtype_bytes digital_chiplets
    rram_chiplets scale chunk_bytes =
  Ok (layout
        (locals_of hidden_size intermediate_size num_experts experts_per_tok
           seq_length batch dtype_bytes digital_chiplets rram_chiplets scale
           chunk_bytes)
        seq_length batch dtype_bytes layers).
Proof.
  unfold build_moe_sequence. cbv zeta.
  set (lc := locals_of hidden_size intermediate_size num_experts
               experts_per_tok seq_length batch dtype_bytes digital_chiplets
               rram_chiplets scale chunk_bytes).
  match goal with
  | |- context [layer_body ?c] => change c with lc
  end.
  rewrite !bind_append_some. cbn [app].
  unfold range.
  erewrite bind_ok.
  2: { apply (tools_layers_loop lc (Z.to_nat layers) 0); [lia|].
       rewrite !len_cons, len_nil. lia. }
  set (body := flat_map _ _).
  assert (Hlen : len body = layer_size lc * Z.max layers 0).
  { subst body. rewrite tools_len_layers. f_equal. lia. }
  cbn [app].
  rewrite bind_append_some. unfold ret.
  rewrite !len_cons, Hlen.
  replace (layer_size lc * Z.max layers 0 + 1 + 1 - 1)
    with (2 + layer_size lc * Z.max layers 0 - 1) by lia.
  reflexivity.
Qed.

End ToolsProofs.

(** ** Dicts and [deps] *)

Lemma get_dict_set_eq k v d : get k (dict_set k v d) = Some v.
Proof.
  induction d as [|[k' v'] d IH]; cbn [dict_set get].
  - now rewrite String.eqb_refl.
  - destruct (String.eqb k k') eqn:E; cbn [get]; rewrite E; [reflexivity | exact IH].
Qed.

Lemma get_dict_set_neq k k' v d :
  String.eqb k k' = false -> get k (dict_set k' v d) = get k d.
Proof.
  intros Hne. induction d as [|[k0 v0] d IH]; cbn [dict_set get].
  - now rewrite Hne.
  - destruct (String.eqb k' k0) eqn:E; cbn [get].
    + apply String.eqb_eq in E. subst k0. now rewrite Hne.
    + now rewrite IH.
Qed.

Lemma stage_deps_with_deps deps st : stage_deps (with_deps deps st) = deps.
Proof.
  unfold stage_deps, with_deps, VInts. rewrite get_dict_set_eq.
  apply ints_of_map_VInt.
Qed.

Lemma get_with_deps k deps st :
  String.eqb k "deps" = false -> get k (with_deps deps st) = get k st.
Proof. apply get_dict_set_neq. Qed.

Lemma appended_with_deps pos deps st :
  0 < pos ->
  appended pos deps st =
  with_deps (match deps with [] => [pos - 1] | _ => deps end) st.
Proof.
  intros Hpos. unfold appended. destruct deps; [|reflexivity].
  destruct (Z.eqb_spec pos 0); [lia | reflexivity].
Qed.

(** ** Lookups by position *)

Lemma lookup_bounds seq i st : lookup seq i = Some st -> 0 <= i < len seq.
Proof.
  unfold lookup. destruct (Z.ltb_spec i 0); [discriminate|].
  intros Hs. assert (nth_error seq (Z.to_nat i) <> None) as Hn by congruence.
  apply nth_error_Some in Hn. unfold len. lia.
Qed.

Lemma lookup_In seq i st : lookup seq i = Some st -> In st seq.
Proof.
  unfold lookup. destruct (i <? 0); [discriminate|]. apply nth_error_In.
Qed.

Lemma In_lookup seq st : In st seq -> exists i, lookup seq i = Some st.
Proof.
  intros H. apply In_nth_error in H. destruct H as [k Hk].
  exists (Z.of_nat k). unfold lookup.
  destruct (Z.ltb_spec (Z.of_nat k) 0); [lia|]. now rewrite Nat2Z.id.
Qed.

Lemma lookup_nil i : lookup [] i = None.
Proof. unfold lookup. destruct (i <? 0); [reflexivity|]. now destruct (Z.to_nat i). Qed.

Lemma lookup_cons a seq i :
  lookup (a :: seq) i = if i =? 0 then Some a else lookup seq (i - 1).
Proof.
  unfold lookup.
  destruct (Z.ltb_spec i 0), (Z.eqb_spec i 0), (Z.ltb_spec (i - 1) 0);
    try lia; try reflexivity.
  - subst. reflexivity.
  - replace (Z.to_nat i) with (S (Z.to_nat (i - 1))) by lia. reflexivity.
Qed.

Lemma lookup_app_l A B i :
  i < len A -> lookup (A ++ B) i = lookup A i.
Proof.
  intros Hi. unfold lookup. destruct (Z.ltb_spec i 0); [reflexivity|].
  apply nth_error_app1. unfold len in Hi. lia.
Qed.

Lemma lookup_app_r A B i :
  len A <= i -> lookup (A ++ B) i = lookup B (i - len A).
Proof.
  intros Hi. unfold lookup. pose proof (len_nonneg A).
  destruct (Z.ltb_spec i 0), (Z.ltb_spec (i - len A) 0); try lia.
  rewrite nth_error_app2 by (unfold len in Hi; lia).
  f_equal. unfold len. lia.
Qed.

Lemma lookup_app_at A B i k :
  len A = k -> k <= i -> lookup (A ++ B) i = lookup B (i - k).
Proof. intros <-. apply lookup_app_r. Qed.

Lemma lookup_map {A} (f : A -> dict) l i :
  lookup (map f l) i =
  if i <? 0 then None else option_map f (nth_error l (Z.to_nat i)).
Proof.
  unfold lookup. destruct (i <? 0); [reflexivity|]. apply nth_error_map.
Qed.

(** A [flat_map] whose pieces all have length [L]. *)
Lemma lookup_flat_map {A} (f : A -> list dict) L xs j r x :
  (forall a, len (f a) = L) ->
  nth_error xs j = Some x ->
  0 <= r < L ->
  lookup (flat_map f xs) (L * Z.of_nat j + r) = lookup (f x) r.
Proof.
  intros HL. revert j. induction xs as [|a xs IH]; intros j Hj Hr.
  - destruct j; discriminate.
  - destruct j as [|j]; cbn [flat_map nth_error] in *.
    + injection Hj as ->. rewrite Z.mul_0_r, Z.add_0_l.
      apply lookup_app_l. rewrite HL. lia.
    + rewrite (lookup_app_at _ _ _ L (HL a)) by nia.
      rewrite <- (IH j Hj Hr). f_equal. lia.
Qed.

Lemma nth_error_enumerate {A} (l : list A) k a :
  nth_error l k = Some a -> nth_error (enumerate l) k = Some (Z.of_nat k, a).
Proof.
  intros H. unfold enumerate. rewrite (nth_error_enumerate_from 0 l k a H).
  now rewrite Z.add_0_l.
Qed.

(** ** Dependencies point backwards *)


Lemma block_ok_nil b : block_ok b [].
Proof. intros k st d H. now rewrite lookup_nil in H. Qed.

Lemma block_ok_cons b deps st blk :
  (forall d, In d deps -> 0 <= d < b) ->
  block_ok (b + 1) blk ->
  block_ok b (with_deps deps st :: blk).
Proof.
  intros Hd Hblk k st' d Hk Hin. rewrite lookup_cons in Hk.
  destruct (Z.eqb_spec k 0) as [->|Hne].
  - injection Hk as <-. rewrite stage_deps_with_deps in Hin.
    specialize (Hd d Hin). lia.
  - pose proof (lookup_bounds _ _ _ Hk).
    specialize (Hblk (k - 1) st' d Hk Hin). lia.
Qed.

Lemma block_ok_app b b' A B :
  block_ok b A -> b' = b + len A -> block_ok b' B -> block_ok b (A ++ B).
Proof.
  intros HA -> HB k st d Hk Hin.
  destruct (Z_lt_ge_dec k (len A)) as [Hlt|Hge].
  - rewrite lookup_app_l in Hk by lia. eauto.
  - rewrite lookup_app_r in Hk by lia.
    specialize (HB _ _ _ Hk Hin). lia.
Qed.

Lemma deps_before_block seq : block_ok 0 seq <-> deps_before seq.
Proof.
  unfold block_ok, deps_before. split; intros H i st d Hi Hd;
    specialize (H i st d Hi Hd); lia.
Qed.

Lemma in1 {A} (a x : A) (P : A -> Prop) : P a -> In x [a] -> P x.
Proof. intros H [<-|[]]. exact H. Qed.

Ltac deps_singleton :=
  let d := fresh "d" in
  let H := fresh "H" in
  intros d H; cbn [In] in H;
  repeat match goal with
         | H : _ \/ _ |- _ => destruct H as [H|H]
         | H : False |- _ => contradiction
         end; subst; try lia.

Module GolangDeps.

Import GolangTools GolangLayout GolangInv GolangProofs.

Section Blocks.

Variable cl : closure.
Local Abbreviation n := (len (cl_chunk_plan cl)).

Lemma projection_block_ok b dep label l wb rid :
  0 <= dep < b ->
  forall rest c0,
    0 <= c0 ->
    block_ok (b + 3 * c0)
      (projection_block cl b dep label l wb rid (enumerate_from c0 rest)).
Proof.
  intros Hdep. induction rest as [|tok rest IH]; intros c0 Hc0.
  - apply block_ok_nil.
  - cbn [enumerate_from projection_block flat_map].
    unfold projection_triple at 1. cbn [fst snd app].
    apply block_ok_cons.
    { deps_singleton. destruct (Z.eqb_spec c0 0); lia. }
    apply block_ok_cons; [deps_singleton|].
    apply block_ok_cons; [deps_singleton|].
    replace (b + 3 * c0 + 1 + 1 + 1) with (b + 3 * (c0 + 1)) by lia.
    apply IH. lia.
Qed.

Lemma moe_block_ok b g l :
  0 <= g -> g + n <= b ->
  forall rest c0,
    0 <= c0 -> c0 + len rest <= n ->
    block_ok (b + 3 * c0) (moe_block cl b g l (enumerate_from c0 rest)).
Proof.
  intros Hg Hgb. induction rest as [|tok rest IH]; intros c0 Hc0 Hn.
  - apply block_ok_nil.
  - rewrite len_cons in Hn. pose proof (len_nonneg rest).
    cbn [enumerate_from moe_block flat_map].
    unfold moe_triple at 1. cbn [fst snd app].
    apply block_ok_cons.
    { destruct (Z.eqb_spec c0 0); deps_singleton. }
    apply block_ok_cons; [deps_singleton|].
    apply block_ok_cons; [deps_singleton|].
    replace (b + 3 * c0 + 1 + 1 + 1) with (b + 3 * (c0 + 1)) by lia.
    apply IH; lia.
Qed.

Lemma chunk_dep_list_bound base per enf b idx :
  0 < b -> 0 <= idx ->
  (forall d, In d base -> 0 <= d < b) ->
  (forall pcd v d,
      per = Some pcd -> In v pcd -> In d (_normalize_deps v) -> 0 <= d < b) ->
  forall d,
    In d (match chunk_dep_list base per enf b idx with
          | [] => [b + idx - 1]
          | _ :: _ => chunk_dep_list base per enf b idx
          end) ->
    0 <= d < b + idx.
Proof.
  intros Hb Hidx Hbase Hper d Hin.
  assert (Hall : forall d, In d (chunk_dep_list base per enf b idx) ->
                           0 <= d < b + idx).
  { clear d Hin. intros d Hin. unfold chunk_dep_list in Hin.
    set (deps0 := match per with
                  | Some pcd =>
                      if idx <? len pcd
                      then _normalize_deps (nth (Z.to_nat idx) pcd VNone)
                      else []
                  | None => []
                  end) in *.
    assert (H0 : forall d, In d deps0 -> 0 <= d < b).
    { subst deps0. intros d0 Hd0. destruct per as [pcd|]; [|contradiction].
      destruct (Z.ltb_spec idx (len pcd)); [|contradiction].
      assert (0 <= d0 < b); [|lia].
      eapply (Hper pcd _ d0 eq_refl); [|exact Hd0].
      apply nth_In. unfold len in *. lia. }
    assert (H1 : forall d,
               In d (if (idx =? 0)
                        && match deps0 with [] => true | _ :: _ => false end
                        && match base with [] => false | _ :: _ => true end
                     then deps0 ++ base else deps0) -> 0 <= d < b).
    { intros d1 Hd1.
      match type of Hd1 with In _ (if ?c then _ else _) => destruct c end.
      - apply in_app_or in Hd1. destruct Hd1; auto.
      - auto. }
    destruct (enf && negb (idx =? 0)) eqn:E.
    - apply in_app_or in Hin. destruct Hin as [Hin|Hin].
      + specialize (H1 d Hin). lia.
      + destruct Hin as [<-|[]].
        apply andb_prop in E. destruct E as [_ E].
        apply negb_true_iff in E. apply Z.eqb_neq in E. lia.
    - specialize (H1 d Hin). lia. }
  destruct (chunk_dep_list base per enf b idx) eqn:E.
  - destruct Hin as [<-|[]]. lia.
  - auto.
Qed.

Lemma chunked_block_ok sb base per enf b :
  0 < b ->
  (forall d, In d base -> 0 <= d < b) ->
  (forall pcd v d,
      per = Some pcd -> In v pcd -> In d (_normalize_deps v) -> 0 <= d < b) ->
  forall rest i0,
    0 <= i0 ->
    block_ok (b + i0) (chunked_block sb base per enf b (enumerate_from i0 rest)).
Proof.
  intros Hb Hbase Hper. induction rest as [|tok rest IH]; intros i0 Hi0.
  - apply block_ok_nil.
  - cbn [enumerate_from chunked_block map fst snd].
    rewrite appended_with_deps by lia.
    apply block_ok_cons.
    + now apply chunk_dep_list_bound.
    + replace (b + i0 + 1) with (b + (i0 + 1)) by lia. apply IH. lia.
Qed.

Lemma per_range_bound s k b' pcd v d :
  0 <= s -> s + Z.of_nat k <= b' ->
  Some (map VInt (range_from s k)) = Some pcd ->
  In v pcd -> In d (_normalize_deps v) -> 0 <= d < b'.
Proof.
  intros Hs Hk [= <-] Hv Hd.
  apply in_map_iff in Hv. destruct Hv as [x [<- Hx]].
  apply in_range_from in Hx. destruct Hd as [<-|[]]. lia.
Qed.

Lemma per_pair_bound p v0 b' pcd v d :
  0 <= p -> p + n <= b' -> 0 <= v0 < b' ->
  Some (map (fun c => VInts [p + c; v0]) (range n)) = Some pcd ->
  In v pcd -> In d (_normalize_deps v) -> 0 <= d < b'.
Proof.
  intros Hp Hk Hv0 [= <-] Hv Hd.
  apply in_map_iff in Hv. destruct Hv as [c [<- Hc]].
  apply in_range in Hc. destruct Hd as [<-|[<-|[]]]; lia.
Qed.

Lemma per_ups_bound p b' pcd v d :
  0 <= p -> p + 3 * n <= b' ->
  Some (map VInt (map (fun c => p + 3 * c + 2) (range n))) = Some pcd ->
  In v pcd -> In d (_normalize_deps v) -> 0 <= d < b'.
Proof.
  intros Hp Hk Heq Hv Hd.
  assert (pcd = map VInt (map (fun c => p + 3 * c + 2) (range n)))
    by congruence.
  subst pcd. clear Heq.
  apply in_map_iff in Hv. destruct Hv as [x [Hvx Hx]].
  apply in_map_iff in Hx. destruct Hx as [c [Hxc Hc]].
  apply in_range in Hc. subst v. destruct Hd as [Hd|[]]. lia.
Qed.

Lemma layer_block_ok b l :
  0 < b -> block_ok b (layer_block cl b l).
Proof.
  intros Hb. unfold layer_block. cbv zeta.
  pose proof (len_nonneg (cl_chunk_plan cl)) as Hn.
  assert (Hcount : Z.of_nat (List.length (cl_chunk_plan cl)) = n) by reflexivity.
  unfold enumerate.
  apply (block_ok_app b (b + 3 * n)).
  { replace b with (b + 3 * 0) at 1 by lia.
    apply projection_block_ok; lia. }
  { solve_len. }
  apply (block_ok_app _ (b + 6 * n)).
  { replace (b + 3 * n) with (b + 3 * n + 3 * 0) at 1 by lia.
    apply projection_block_ok; lia. }
  { solve_len. }
  apply (block_ok_app _ (b + 9 * n)).
  { replace (b + 6 * n) with (b + 6 * n + 3 * 0) at 1 by lia.
    apply projection_block_ok; lia. }
  { solve_len. }
  apply (block_ok_app _ (b + 10 * n)).
  { replace (b + 9 * n) with (b + 9 * n + 0) at 1 by lia.
    apply chunked_block_ok; [lia | deps_singleton | discriminate | lia]. }
  { solve_len. }
  apply (block_ok_app _ (b + 11 * n)).
  { replace (b + 10 * n) with (b + 10 * n + 0) at 1 by lia.
    apply chunked_block_ok; [lia | deps_singleton | | lia].
    intros pcd v d. apply per_range_bound; lia. }
  { solve_len. }
  apply (block_ok_app _ (b + 12 * n)).
  { replace (b + 11 * n) with (b + 11 * n + 0) at 1 by lia.
    apply chunked_block_ok; [lia | deps_singleton | | lia].
    intros pcd v d. apply per_pair_bound; lia. }
  { solve_len. }
  apply (block_ok_app _ (b + 15 * n)).
  { replace (b + 12 * n) with (b + 12 * n + 3 * 0) at 1 by lia.
    apply projection_block_ok; lia. }
  { solve_len. }
  apply (block_ok_app _ (b + 16 * n)).
  { replace (b + 15 * n) with (b + 15 * n + 0) at 1 by lia.
    apply chunked_block_ok; [lia | deps_singleton | discriminate | lia]. }
  { solve_len. }
  apply (block_ok_app _ (b + 17 * n)).
  { replace (b + 16 * n) with (b + 16 * n + 0) at 1 by lia.
    apply chunked_block_ok; [lia | deps_singleton | | lia].
    intros pcd v d. apply per_range_bound; lia. }
  { solve_len. }
  apply (block_ok_app _ (b + 20 * n)).
  { replace (b + 17 * n) with (b + 17 * n + 3 * 0) at 1 by lia.
    apply moe_block_ok; lia. }
  { solve_len. }
  apply (block_ok_app _ (b + 21 * n)).
  { replace (b + 20 * n) with (b + 20 * n + 0) at 1 by lia.
    apply chunked_block_ok; [lia | deps_singleton | | lia].
    intros pcd v d. apply per_ups_bound; lia. }
  { solve_len. }
  replace (b + 21 * n) with (b + 21 * n + 0) at 1 by lia.
  apply chunked_block_ok; [lia | deps_singleton | | lia].
  intros pcd v d. apply per_range_bound; lia.
Qed.

Lemma layers_ok :
  forall k l0,
    0 <= l0 ->
    block_ok (1 + 22 * n * l0)
      (flat_map (fun l => layer_block cl (1 + 22 * n * l) l) (range_from l0 k)).
Proof.
  pose proof (len_nonneg (cl_chunk_plan cl)) as Hn.
  induction k as [|k IH]; intros l0 Hl0.
  - apply block_ok_nil.
  - cbn [range_from flat_map].
    apply (block_ok_app _ (1 + 22 * n * (l0 + 1))).
    + apply layer_block_ok. nia.
    + rewrite len_layer_block. lia.
    + apply IH. lia.
Qed.

Lemma layout_deps_before tokens layers : deps_before (layout cl tokens layers).
Proof.
  apply (proj1 (deps_before_block _)). unfold layout.
  apply block_ok_cons; [deps_singleton|].
  unfold range. replace (0 + 1) with (1 + 22 * n * 0) by lia.
  apply layers_ok. lia.
Qed.

End Blocks.

End GolangDeps.

Module ToolsDeps.

Import Tools ToolsLayout ToolsProofs GolangProofs.

Section Blocks.

Variable lc : locals.
Local Abbreviation m := (num_chunks lc).

Lemma tools_chunk_block_ok b g l :
  0 <= g < b ->
  forall k c0,
    0 <= c0 ->
    block_ok (b + 3 * c0)
      (flat_map (chunk_triple lc b g l) (range_from c0 k)).
Proof.
  intros Hg. induction k as [|k IH]; intros c0 Hc0.
  - apply block_ok_nil.
  - cbn [range_from flat_map]. unfold chunk_triple at 1. cbn [app].
    apply block_ok_cons.
    { deps_singleton. destruct (Z.eqb_spec c0 0); lia. }
    apply block_ok_cons; [deps_singleton|].
    apply block_ok_cons; [deps_singleton|].
    replace (b + 3 * c0 + 1 + 1 + 1) with (b + 3 * (c0 + 1)) by lia.
    apply IH. lia.
Qed.

Lemma tools_layer_block_ok b l : 0 < b -> block_ok b (layer_block lc b l).
Proof.
  intros Hb. unfold layer_block. cbv zeta. fold m.
  pose proof (num_chunks_pos lc) as Hm.
  cbn [app].
  apply block_ok_cons; [deps_singleton|].
  apply block_ok_cons; [deps_singleton|].
  apply block_ok_cons; [deps_singleton|].
  apply (block_ok_app _ (b + 3 + 3 * m)).
  - replace (b + 1 + 1 + 1) with (b + 3 + 3 * 0) by lia.
    unfold range. apply tools_chunk_block_ok; lia.
  - rewrite len_chunk_block, len_range. lia.
  - apply block_ok_cons; [deps_singleton|].
    apply block_ok_cons; [deps_singleton|].
    apply block_ok_nil.
Qed.

Lemma tools_layers_ok :
  forall k l0,
    0 <= l0 ->
    block_ok (2 + layer_size lc * l0)
      (flat_map (fun l => layer_block lc (2 + layer_size lc * l) l)
         (range_from l0 k)).
Proof.
  pose proof (num_chunks_pos lc) as Hm.
  assert (Hsize : 0 < layer_size lc) by (unfold layer_size; lia).
  induction k as [|k IH]; intros l0 Hl0.
  - apply block_ok_nil.
  - cbn [range_from flat_map].
    apply (block_ok_app _ (2 + layer_size lc * (l0 + 1))).
    + apply tools_layer_block_ok. nia.
    + rewrite tools_len_layer_block. lia.
    + apply IH. lia.
Qed.

Lemma tools_layout_deps_before seq_length batch dtype_bytes layers :
  deps_before (layout lc seq_length batch dtype_bytes layers).
Proof.
  apply (proj1 (deps_before_block _)). unfold layout. cbv zeta. cbn [app].
  pose proof (num_chunks_pos lc) as Hm.
  assert (Hsize : 0 < layer_size lc) by (unfold layer_size; lia).
  apply block_ok_cons; [deps_singleton|].
  apply block_ok_cons; [deps_singleton|].
  apply (block_ok_app _ (2 + layer_size lc * Z.max layers 0)).
  - unfold range. replace (0 + 1 + 1) with (2 + layer_size lc * 0) by lia.
    apply tools_layers_ok. lia.
  - unfold range. rewrite tools_len_layers. nia.
  - apply block_ok_cons; [deps_singleton; nia | apply block_ok_nil].
Qed.

End Blocks.

End ToolsDeps.

(** ** Where each stage of the chunked builder sits *)

Module GolangPositions.

Import GolangTools GolangLayout GolangInv GolangProofs GolangIndex GolangBodies.

Lemma nth_error_range n l :
  0 <= l < n -> nth_error (range n) (Z.to_nat l) = Some l.
Proof.
  intros Hl. unfold range. rewrite nth_error_range_from by lia.
  f_equal. lia.
Qed.

Section Positions.

Variable cl : closure.
Local Abbreviation n := (len (cl_chunk_plan cl)).

Lemma lookup_layer tokens layers l off :
  0 <= l < layers -> 0 <= off < 22 * n ->
  lookup (layout cl tokens layers) (layer_start n l + off) =
  lookup (layer_block cl (layer_start n l) l) off.
Proof.
  intros Hl Hoff. unfold layout, layer_start.
  pose proof (len_nonneg (cl_chunk_plan cl)) as Hn.
  rewrite lookup_cons.
  destruct (Z.eqb_spec (1 + 22 * n * l + off) 0) as [E|E]; [nia|]. clear E.
  replace (1 + 22 * n * l + off - 1)
    with (22 * n * Z.of_nat (Z.to_nat l) + off) by lia.
  apply (lookup_flat_map
           (fun l0 => layer_block cl (1 + 22 * n * l0) l0) (22 * n)).
  - intros a. apply len_layer_block.
  - now apply nth_error_range.
  - exact Hoff.
Qed.

Lemma nth_error_plan c :
  0 <= c < n ->
  exists tok,
    nth_error (cl_chunk_plan cl) (Z.to_nat c) = Some tok
    /\ nth_error (enumerate (cl_chunk_plan cl)) (Z.to_nat c) = Some (c, tok).
Proof.
  intros Hc.
  destruct (nth_error (cl_chunk_plan cl) (Z.to_nat c)) as [tok|] eqn:E.
  - exists tok. split; [reflexivity|].
    rewrite (nth_error_enumerate _ _ _ E). do 2 f_equal. lia.
  - apply nth_error_None in E. unfold len in Hc. lia.
Qed.

Tactic Notation "skip_block" constr(k) :=
  rewrite (lookup_app_at _ _ _ k) by solve_len.

(** The stages of chunk [c] of projection [p]. *)
Lemma lookup_projection b l p c j :
  0 <= c < n -> 0 <= j < 3 ->
  exists tok,
    nth_error (cl_chunk_plan cl) (Z.to_nat c) = Some tok
    /\ lookup (layer_block cl b l) (projection_start n p + 3 * c + j) =
       lookup
         (projection_triple cl (b + projection_start n p)
            (b + projection_start n p - 1) (projection_label p) l
            (cl_projection_weight_bytes cl)
            (((l * 4) mod cl_rram_chiplets cl
              + match p with ProjQ => 0 | ProjK => 1 | ProjV => 2 | ProjO => 3 end)
             mod cl_rram_chiplets cl)
            (c, tok)) j.
Proof.
  intros Hc Hj. destruct (nth_error_plan c Hc) as [tok [Htok Hen]].
  exists tok. split; [exact Htok|].
  unfold layer_block. cbv zeta.
  destruct p; cbn [projection_start projection_label].
  - rewrite lookup_app_l by solve_len.
    replace (b + 0) with b by lia.
    replace (0 + 3 * c + j) with (3 * Z.of_nat (Z.to_nat c) + j) by lia.
    now apply (lookup_flat_map _ 3).
  - skip_block (3 * n).
    rewrite lookup_app_l by solve_len.
    replace (3 * n + 3 * c + j - 3 * n)
      with (3 * Z.of_nat (Z.to_nat c) + j) by lia.
    now apply (lookup_flat_map _ 3).
  - skip_block (3 * n). skip_block (3 * n).
    rewrite lookup_app_l by solve_len.
    replace (6 * n + 3 * c + j - 3 * n - 3 * n)
      with (3 * Z.of_nat (Z.to_nat c) + j) by lia.
    now apply (lookup_flat_map _ 3).
  - skip_block (3 * n). skip_block (3 * n). skip_block (3 * n).
    skip_block n. skip_block n. skip_block n.
    rewrite lookup_app_l by solve_len.
    replace (12 * n + 3 * c + j - 3 * n - 3 * n - 3 * n - n - n - n)
      with (3 * Z.of_nat (Z.to_nat c) + j) by lia.
    now apply (lookup_flat_map _ 3).
Qed.

(** The stages of chunk [c] of the MoE dispatch. *)
Lemma lookup_moe b l c j :
  0 <= c < n -> 0 <= j < 3 ->
  exists tok,
    nth_error (cl_chunk_plan cl) (Z.to_nat c) = Some tok
    /\ lookup (layer_block cl b l) (17 * n + 3 * c + j) =
       lookup (moe_triple cl (b + 17 * n) (b + 16 * n) l (c, tok)) j.
Proof.
  intros Hc Hj. destruct (nth_error_plan c Hc) as [tok [Htok Hen]].
  exists tok. split; [exact Htok|].
  unfold layer_block. cbv zeta.
  skip_block (3 * n). skip_block (3 * n). skip_block (3 * n).
  skip_block n. skip_block n. skip_block n.
  skip_block (3 * n). skip_block n. skip_block n.
  rewrite lookup_app_l by solve_len.
  replace (17 * n + 3 * c + j - 3 * n - 3 * n - 3 * n - n - n - n - 3 * n
           - n - n)
    with (3 * Z.of_nat (Z.to_nat c) + j) by lia.
  now apply (lookup_flat_map _ 3).
Qed.

End Positions.

End GolangPositions.

(** ** Every stage is one of the stage literals, with [deps] added *)

Lemma in_enumerate {A} (l : list A) it :
  In it (enumerate l) ->
  0 <= fst it < len l /\ nth_error l (Z.to_nat (fst it)) = Some (snd it).
Proof.
  intros H. apply in_enumerate_from in H. destruct H as [Hr Hn].
  rewrite Z.sub_0_r in Hn. split; [lia | exact Hn].
Qed.

Ltac solve_in :=
  cbv zeta; cbn [In]; repeat (first [left; reflexivity | right]).

Module GolangCases.

Import GolangTools GolangLayout GolangInv GolangProofs GolangBodies.

Section Cases.

Variable cl : closure.
Local Abbreviation n := (len (cl_chunk_plan cl)).

Lemma projection_block_cases b dep label l wb rid st :
  In st (projection_block cl b dep label l wb rid (enumerate (cl_chunk_plan cl))) ->
  exists c tok deps,
    0 <= c < n
    /\ nth_error (cl_chunk_plan cl) (Z.to_nat c) = Some tok
    /\ (st = with_deps deps
               (projection_down cl label l c (size_at cl c) rid
                  (chunk_digital_owner cl l c))
        \/ st = with_deps deps
                  (projection_linear cl label l c tok (size_at cl c) wb rid)
        \/ st = with_deps deps
                  (projection_up cl label l c (size_at cl c) rid
                     (chunk_digital_owner cl l c))).
Proof.
  intros H. unfold projection_block in H. apply in_flat_map in H.
  destruct H as [[c tok] [Hit Hst]].
  apply in_enumerate in Hit. cbn [fst snd] in Hit. destruct Hit as [Hc Htok].
  unfold projection_triple in Hst. cbn [fst snd In] in Hst.
  destruct Hst as [<-|[<-|[<-|[]]]]; exists c, tok; eexists;
    (split; [exact Hc | split; [exact Htok|]]); auto.
Qed.

Lemma moe_block_cases b g l st :
  In st (moe_block cl b g l (enumerate (cl_chunk_plan cl))) ->
  exists c tok deps,
    0 <= c < n
    /\ nth_error (cl_chunk_plan cl) (Z.to_nat c) = Some tok
    /\ (st = with_deps deps
               (moe_down cl l c (size_at cl c) (target_at cl c)
                  (chunk_digital_owner cl l c))
        \/ st = with_deps deps
                  (moe_linear cl l c (size_at cl c) (experts_at cl l c))
        \/ st = with_deps deps
                  (moe_up cl l c (size_at cl c) (chunk_digital_owner cl l c)
                     (target_at cl c))).
Proof.
  intros H. unfold moe_block in H. apply in_flat_map in H.
  destruct H as [[c tok] [Hit Hst]].
  apply in_enumerate in Hit. cbn [fst snd] in Hit. destruct Hit as [Hc Htok].
  unfold moe_triple in Hst. cbn [fst snd In] in Hst.
  destruct Hst as [<-|[<-|[<-|[]]]]; exists c, tok; eexists;
    (split; [exact Hc | split; [exact Htok|]]); auto.
Qed.

Lemma chunked_block_cases sb base per enf b st :
  0 < b ->
  In st (chunked_block sb base per enf b (enumerate (cl_chunk_plan cl))) ->
  exists c tok deps,
    0 <= c < n
    /\ nth_error (cl_chunk_plan cl) (Z.to_nat c) = Some tok
    /\ st = with_deps deps (sb c tok).
Proof.
  intros Hb H. unfold chunked_block in H. apply in_map_iff in H.
  destruct H as [[c tok] [Hst Hit]].
  apply in_enumerate in Hit. cbn [fst snd] in *. destruct Hit as [Hc Htok].
  rewrite appended_with_deps in Hst by lia.
  exists c, tok. eexists. split; [exact Hc | split; [exact Htok|]].
  symmetry. exact Hst.
Qed.

Ltac from_projection H :=
  apply projection_block_cases in H;
  destruct H as [c [tok [deps [Hc [Htok H]]]]];
  destruct H as [H|[H|H]];
  exists c, tok, deps; eexists;
  (split; [exact Hc | split; [exact Htok | split; [|exact H]]]);
  unfold chunk_bodies; solve_in.

Ltac from_chunked H :=
  apply chunked_block_cases in H; [|lia];
  destruct H as [c [tok [deps [Hc [Htok H]]]]];
  exists c, tok, deps; eexists;
  (split; [exact Hc | split; [exact Htok | split; [|exact H]]]);
  unfold chunk_bodies; solve_in.

Ltac from_moe H :=
  apply moe_block_cases in H;
  destruct H as [c [tok [deps [Hc [Htok H]]]]];
  destruct H as [H|[H|H]];
  exists c, tok, deps; eexists;
  (split; [exact Hc | split; [exact Htok | split; [|exact H]]]);
  unfold chunk_bodies; solve_in.

Lemma layer_block_cases b l st :
  0 < b -> In st (layer_block cl b l) -> chunk_stage cl l st.
Proof.
  intros Hb H. unfold layer_block in H. cbv zeta in H.
  pose proof (len_nonneg (cl_chunk_plan cl)) as Hn.
  unfold chunk_stage.
  repeat (apply in_app_or in H; destruct H as [H0|H];
          [try (from_projection H0); try (from_chunked H0); try (from_moe H0)|]).
  from_chunked H.
Qed.

Lemma layout_cases tokens layers st :
  In st (layout cl tokens layers) ->
  st = with_deps [] (embed tokens (cl_hidden_size cl)
                       (cl_digital_latency_base cl))
  \/ exists l, 0 <= l < layers /\ chunk_stage cl l st.
Proof.
  intros H. unfold layout in H. destruct H as [<-|H]; [now left|right].
  apply in_flat_map in H. destruct H as [l [Hl Hst]].
  apply in_range in Hl. exists l. split; [exact Hl|].
  apply (layer_block_cases (1 + 22 * n * l)); [|exact Hst].
  pose proof (len_nonneg (cl_chunk_plan cl)). nia.
Qed.

End Cases.

End GolangCases.

Module ToolsCases.

Import Tools ToolsLayout ToolsProofs ToolsBodies.

Section Cases.

Variable lc : locals.

Lemma tools_layer_block_cases b l st :
  In st (layer_block lc b l) -> layer_stage lc l st \/ chunk_stage lc l st.
Proof.
  intros H. unfold layer_block in H. cbv zeta in H.
  apply in_app_or in H. destruct H as [H|H].
  - left. cbn [In] in H. destruct H as [<-|[<-|[<-|[]]]];
      eexists; eexists; (split; [|reflexivity]); unfold layer_bodies; solve_in.
  - apply in_app_or in H. destruct H as [H|H].
    + right. apply in_flat_map in H. destruct H as [c [Hc Hst]].
      apply in_range in Hc. unfold chunk_triple in Hst. cbn [In] in Hst.
      destruct Hst as [<-|[<-|[<-|[]]]]; exists c; eexists; eexists;
        (split; [exact Hc | split; [|reflexivity]]);
        unfold chunk_bodies; solve_in.
    + left. cbn [In] in H. destruct H as [<-|[<-|[]]];
        eexists; eexists; (split; [|reflexivity]); unfold layer_bodies; solve_in.
Qed.

Lemma tools_layout_cases seq_length batch dtype_bytes layers st :
  In st (layout lc seq_length batch dtype_bytes layers) ->
  (exists deps,
      st = with_deps deps
             (host_load_input (lc_activation_bytes_total lc)
                (host_load_latency lc) (lc_hidden_size lc) batch seq_length
                (Z.max dtype_bytes 1)))
  \/ (exists deps,
         st = with_deps deps (embed (lc_tokens lc) (lc_hidden_size lc)
                                (lc_digital_latency_base lc)))
  \/ (exists deps,
         st = with_deps deps
                (store_logits (lc_activation_bytes_total lc)
                   (host_load_latency lc) (lc_hidden_size lc) batch seq_length
                   (Z.max dtype_bytes 1)))
  \/ exists l, 0 <= l < layers /\ (layer_stage lc l st \/ chunk_stage lc l st).
Proof.
  intros H. unfold layout in H. cbv zeta in H. cbn [app] in H.
  destruct H as [<-|[<-|H]]; [left; eauto | right; left; eauto |].
  apply in_app_or in H. destruct H as [H|[<-|[]]].
  - do 3 right. apply in_flat_map in H. destruct H as [l [Hl Hst]].
    apply in_range in Hl. exists l. split; [exact Hl|].
    eapply tools_layer_block_cases. exact Hst.
  - right. right. left. eauto.
Qed.

End Cases.

End ToolsCases.

(** ** Fields other than [deps] are those of the stage literal *)

Lemma get_str_with_deps k deps st :
  String.eqb k "deps" = false ->
  get_str k (with_deps deps st) = get_str k st.
Proof. intros H. unfold get_str. now rewrite get_with_deps. Qed.

Lemma get_int_with_deps k deps st :
  String.eqb k "deps" = false ->
  get_int k (with_deps deps st) = get_int k st.
Proof. intros H. unfold get_int. now rewrite get_with_deps. Qed.

Lemma has_type_with_deps t deps st :
  has_type t (with_deps deps st) = has_type t st.
Proof. unfold has_type. now rewrite get_str_with_deps. Qed.

Lemma has_direction_with_deps d deps st :
  has_direction d (with_deps deps st) = has_direction d st.
Proof. unfold has_direction. now rewrite get_str_with_deps. Qed.

Lemma chiplet_class_with_deps deps st :
  chiplet_class (with_deps deps st) = chiplet_class st.
Proof.
  unfold chiplet_class. now rewrite !has_type_with_deps, has_direction_with_deps.
Qed.

Lemma queue_class_with_deps deps st :
  queue_class (with_deps deps st) = queue_class st.
Proof.
  unfold queue_class. now rewrite has_type_with_deps, has_direction_with_deps.
Qed.

Lemma stage_experts_with_deps deps st :
  stage_experts (with_deps deps st) = stage_experts st.
Proof. unfold stage_experts. now rewrite get_with_deps. Qed.

Lemma digital_placements_with_deps deps st :
  digital_placements (with_deps deps st) = digital_placements st.
Proof.
  unfold digital_placements.
  now rewrite chiplet_class_with_deps, queue_class_with_deps,
    !get_int_with_deps.
Qed.

Lemma metadata_layer_with_deps deps st :
  metadata_layer (with_deps deps st) = metadata_layer st.
Proof. unfold metadata_layer. now rewrite get_with_deps. Qed.

Lemma resources_in_range_with_deps d r deps st :
  resources_in_range d r st -> resources_in_range d r (with_deps deps st).
Proof.
  unfold resources_in_range, field_below.
  now rewrite chiplet_class_with_deps, queue_class_with_deps,
    stage_experts_with_deps, !get_with_deps.
Qed.

Lemma transfer_latency_ok_with_deps deps st :
  transfer_latency_ok st -> transfer_latency_ok (with_deps deps st).
Proof.
  unfold transfer_latency_ok. now rewrite !get_int_with_deps.
Qed.

Lemma named_at_with_deps l c deps st :
  named_at l c st -> named_at l c (with_deps deps st).
Proof. unfold named_at. now rewrite get_str_with_deps. Qed.

Lemma experts_placed_with_deps r deps st :
  experts_placed r st -> experts_placed r (with_deps deps st).
Proof. unfold experts_placed. now rewrite stage_experts_with_deps. Qed.

Lemma nth_error_range_inv n e x :
  nth_error (range n) e = Some x -> x = Z.of_nat e.
Proof.
  unfold range. intros H.
  destruct (Nat.lt_ge_cases e (Z.to_nat n)) as [Hlt|Hge].
  - rewrite nth_error_range_from in H by exact Hlt.
    injection H as <-. lia.
  - assert (nth_error (range_from 0 (Z.to_nat n)) e = None) as Hnone
      by (apply nth_error_None; rewrite length_range_from; exact Hge).
    congruence.
Qed.

Lemma dicts_of_map_VDict (l : list dict) :
  flat_map (fun v => match v with VDict d => [d] | _ => [] end) (map VDict l) = l.
Proof. induction l as [|a l IH]; [reflexivity|]. cbn. now rewrite IH. Qed.

(** Evaluation of field lookups on stage literals: only the accessors and
    the literals are unfolded, the values stay as they are. *)
Ltac eval_fields :=
  cbv beta iota zeta delta
    [get get_str get_int has_type has_direction chiplet_class queue_class
     class_count digital_placements metadata_layer stage_experts
     String.eqb Ascii.eqb Bool.eqb andb app
     GolangTools.projection_down GolangTools.projection_linear
     GolangTools.projection_up GolangTools.attn_score_stage
     GolangTools.softmax_stage GolangTools.attn_mix_stage
     GolangTools.post_attention_stage GolangTools.moe_gating_stage
     GolangTools.moe_down GolangTools.moe_linear GolangTools.moe_up
     GolangTools.moe_merge_stage GolangTools.postprocess_stage
     GolangTools.embed GolangTools.chunk_metadata GolangTools.projection_aux
     GolangTools.moe_aux
     GolangLayout.chunk_expert_entry
     Tools.attention_stage Tools.softmax_stage Tools.moe_gating_stage
     Tools.transfer_down_stage Tools.moe_linear_stage Tools.transfer_up_stage
     Tools.moe_merge_stage Tools.postprocess_stage Tools.host_load_input
     Tools.embed Tools.store_logits Tools.host_metadata Tools.transfer_aux
     ToolsLayout.chunk_expert_entry].

Module GolangLocal.

Import GolangTools GolangLayout GolangInv GolangProofs GolangBodies GolangCases.

Section Local.

Variable cl : closure.
Variables digital_chiplets rram_chiplets : Z.
Hypothesis Hok : closure_ok cl.
Hypothesis Hdigital : cl_digital_chiplets cl = Z.max digital_chiplets 1.
Hypothesis Hrram : cl_rram_chiplets cl = Z.max rram_chiplets 1.

Lemma chunk_digital_owner_eq l c :
  chunk_digital_owner cl l c = digitalOwner l c digital_chiplets.
Proof.
  unfold chunk_digital_owner, digitalOwner. rewrite Hdigital.
  destruct (Z.leb_spec (Z.max digital_chiplets 1) 0); [lia | reflexivity].
Qed.

Lemma chunk_digital_owner_range l c :
  0 <= chunk_digital_owner cl l c < Z.max digital_chiplets 1.
Proof.
  rewrite chunk_digital_owner_eq. unfold digitalOwner.
  apply Z.mod_pos_bound. lia.
Qed.

Lemma rram_id_range x :
  0 <= x mod cl_rram_chiplets cl < Z.max rram_chiplets 1.
Proof. rewrite Hrram. apply Z.mod_pos_bound. lia. Qed.

Lemma target_at_range c :
  1 <= cl_num_experts cl ->
  0 <= target_at cl c < Z.max rram_chiplets 1.
Proof.
  intros Hne. unfold target_at.
  rewrite (len_expert_chips cl Hok Hne).
  set (i := (c * cl_experts_per_tok cl) mod cl_num_experts cl).
  assert (Hi : 0 <= i < cl_num_experts cl) by (apply Z.mod_pos_bound; lia).
  rewrite (ok_chips cl Hok).
  assert (Hnth : nth_error (range (cl_num_experts cl)) (Z.to_nat i) = Some i)
    by (apply GolangPositions.nth_error_range; exact Hi).
  erewrite nth_error_nth.
  2: { rewrite nth_error_map, Hnth. reflexivity. }
  apply rram_id_range.
Qed.

Lemma stage_experts_experts_at l c :
  Forall (fun ex =>
            exists p, get "chiplet" ex = Some (VInt p)
                      /\ 0 <= p < Z.max rram_chiplets 1)
    (experts_at cl l c).
Proof.
  unfold experts_at. apply Forall_forall. intros ex Hex.
  apply in_map_iff in Hex. destruct Hex as [e [<- _]].
  eexists. split; [reflexivity | apply rram_id_range].
Qed.

Ltac field_tac :=
  let v := fresh "v" in
  let Hv := fresh "Hv" in
  intros v Hv;
  first
    [ discriminate Hv
    | injection Hv as <-; eexists; split;
      [ reflexivity
      | first [ apply chunk_digital_owner_range
              | apply rram_id_range
              | apply target_at_range; assumption ] ] ].

Lemma chunk_bodies_in_range l c tok body :
  1 <= cl_num_experts cl ->
  In body (chunk_bodies cl l c tok) ->
  resources_in_range digital_chiplets rram_chiplets body.
Proof.
  intros Hne Hin. unfold chunk_bodies in Hin. cbv zeta in Hin. cbn [In] in Hin.
  repeat (destruct Hin as [<-|Hin]); try contradiction;
    unfold resources_in_range, field_below; eval_fields;
    (split; [field_tac | split; [field_tac|]]);
    first [ apply Forall_nil
          | rewrite dicts_of_map_VDict; apply stage_experts_experts_at ].
Qed.

Lemma chunk_bodies_latency l c tok body :
  In body (chunk_bodies cl l c tok) ->
  has_type "transfer" body = true ->
  transfer_latency_ok body.
Proof.
  intros Hin. unfold chunk_bodies in Hin. cbv zeta in Hin. cbn [In] in Hin.
  repeat (destruct Hin as [<-|Hin]); try contradiction;
    unfold transfer_latency_ok; eval_fields; intros Ht;
    first [ discriminate Ht | eexists; split; reflexivity ].
Qed.

Lemma experts_at_placed l c : experts_placed rram_chiplets
                                (moe_linear cl l c (size_at cl c)
                                   (experts_at cl l c)).
Proof.
  intros e ex. eval_fields. rewrite dicts_of_map_VDict.
  intros Hex. unfold experts_at in Hex.
  rewrite nth_error_map in Hex.
  destruct (nth_error (range (cl_num_experts cl)) e) as [x|] eqn:E;
    [|discriminate].
  injection Hex as <-.
  apply nth_error_range_inv in E. subst x.
  split; [exists l; reflexivity|].
  unfold expertOwner. rewrite <- Hrram. reflexivity.
Qed.

Lemma chunk_bodies_experts_placed l c tok body :
  In body (chunk_bodies cl l c tok) ->
  experts_placed rram_chiplets body.
Proof.
  intros Hin. unfold chunk_bodies in Hin. cbv zeta in Hin. cbn [In] in Hin.
  repeat (destruct Hin as [<-|Hin]); try contradiction;
    first [ apply experts_at_placed
          | intros e ex; eval_fields; destruct e; discriminate ].
Qed.

Lemma chunk_bodies_placement l c tok body :
  In body (chunk_bodies cl l c tok) ->
  forall p, In p (digital_placements body) ->
            p = digitalOwner l c digital_chiplets.
Proof.
  intros Hin. unfold chunk_bodies in Hin. cbv zeta in Hin. cbn [In] in Hin.
  repeat (destruct Hin as [<-|Hin]); try contradiction;
    eval_fields; intros p Hp; cbn [In] in Hp;
    repeat match goal with
           | H : _ \/ _ |- _ => destruct H as [H|H]
           | H : False |- _ => contradiction
           end;
    subst p; apply chunk_digital_owner_eq.
Qed.

Lemma chunk_bodies_named l c tok body :
  In body (chunk_bodies cl l c tok) -> named_at l c body.
Proof.
  intros Hin. unfold chunk_bodies in Hin. cbv zeta in Hin. cbn [In] in Hin.
  unfold named_at.
  repeat (destruct Hin as [<-|Hin]); try contradiction.
  - exists "q_transfer_to_rram". reflexivity.
  - exists "q_proj_rram". reflexivity.
  - exists "q_transfer_to_digital". reflexivity.
  - exists "k_transfer_to_rram". reflexivity.
  - exists "k_proj_rram". reflexivity.
  - exists "k_transfer_to_digital". reflexivity.
  - exists "v_transfer_to_rram". reflexivity.
  - exists "v_proj_rram". reflexivity.
  - exists "v_transfer_to_digital". reflexivity.
  - exists "attn_score". reflexivity.
  - exists "softmax". reflexivity.
  - exists "attn_mix". reflexivity.
  - exists "o_transfer_to_rram". reflexivity.
  - exists "o_proj_rram". reflexivity.
  - exists "o_transfer_to_digital". reflexivity.
  - exists "post_attention". reflexivity.
  - exists "moe_gating". reflexivity.
  - exists "moe_transfer_to_rram". reflexivity.
  - exists "moe". reflexivity.
  - exists "moe_transfer_to_digital". reflexivity.
  - exists "moe_merge". reflexivity.
  - exists "postprocess". reflexivity.
Qed.

End Local.

End GolangLocal.

Module ToolsLocal.

Import Tools ToolsLayout ToolsProofs ToolsBodies ToolsCases.

Section Local.

Variable lc : locals.
Variables digital_chiplets rram_chiplets : Z.
Hypothesis Hdigital : lc_digital_chiplets lc = Z.max digital_chiplets 1.
Hypothesis Hrram : lc_rram_chiplets lc = Z.max rram_chiplets 1.

Lemma digital_owner_eq l :
  l mod lc_digital_chiplets lc = digitalOwner l 0 digital_chiplets.
Proof. unfold digitalOwner. rewrite Hdigital, Z.add_0_r. reflexivity. Qed.

Lemma digital_owner_range l :
  0 <= l mod lc_digital_chiplets lc < Z.max digital_chiplets 1.
Proof. rewrite Hdigital. apply Z.mod_pos_bound. lia. Qed.

Lemma rram_target_range x :
  0 <= x mod lc_rram_chiplets lc < Z.max rram_chiplets 1.
Proof. rewrite Hrram. apply Z.mod_pos_bound. lia. Qed.

Lemma zero_below_digital : 0 <= 0 < Z.max digital_chiplets 1.
Proof. lia. Qed.

Lemma tools_experts_in_range l c :
  Forall (fun ex =>
            exists p, get "chiplet" ex = Some (VInt p)
                      /\ 0 <= p < Z.max rram_chiplets 1)
    (experts_at lc l c).
Proof.
  unfold experts_at. apply Forall_forall. intros ex Hex.
  apply in_map_iff in Hex. destruct Hex as [e [<- _]].
  eexists. split; [reflexivity | apply rram_target_range].
Qed.

Ltac field_tac :=
  let v := fresh "v" in
  let Hv := fresh "Hv" in
  intros v Hv;
  first
    [ discriminate Hv
    | injection Hv as <-; eexists; split;
      [ reflexivity
      | first [ apply digital_owner_range
              | apply rram_target_range
              | apply zero_below_digital ] ] ].

Ltac in_range_tac :=
  unfold resources_in_range, field_below; eval_fields;
  (split; [field_tac | split; [field_tac|]]);
  first [ apply Forall_nil
        | rewrite dicts_of_map_VDict; apply tools_experts_in_range ].

Lemma tools_layer_bodies_in_range l body :
  In body (layer_bodies lc l) ->
  resources_in_range digital_chiplets rram_chiplets body.
Proof.
  intros Hin. unfold layer_bodies in Hin. cbv zeta in Hin. cbn [In] in Hin.
  repeat (destruct Hin as [<-|Hin]); try contradiction; in_range_tac.
Qed.

Lemma tools_chunk_bodies_in_range l c body :
  In body (chunk_bodies lc l c) ->
  resources_in_range digital_chiplets rram_chiplets body.
Proof.
  intros Hin. unfold chunk_bodies in Hin. cbv zeta in Hin. cbn [In] in Hin.
  repeat (destruct Hin as [<-|Hin]); try contradiction; in_range_tac.
Qed.

Lemma tools_host_in_range a lat h b s d :
  resources_in_range digital_chiplets rram_chiplets (host_load_input a lat h b s d)
  /\ resources_in_range digital_chiplets rram_chiplets (embed a lat h)
  /\ resources_in_range digital_chiplets rram_chiplets (store_logits a lat h b s d).
Proof. split; [|split]; in_range_tac. Qed.

Lemma tools_chunk_bodies_latency l c body :
  In body (chunk_bodies lc l c) ->
  has_type "transfer" body = true ->
  transfer_latency_ok body.
Proof.
  intros Hin. unfold chunk_bodies in Hin. cbv zeta in Hin. cbn [In] in Hin.
  repeat (destruct Hin as [<-|Hin]); try contradiction;
    unfold transfer_latency_ok; eval_fields; intros Ht;
    first [ discriminate Ht | eexists; split; reflexivity ].
Qed.

Lemma tools_layer_bodies_not_transfer l body :
  In body (layer_bodies lc l) -> has_type "transfer" body = false.
Proof.
  intros Hin. unfold layer_bodies in Hin. cbv zeta in Hin. cbn [In] in Hin.
  repeat (destruct Hin as [<-|Hin]); try contradiction; reflexivity.
Qed.

Ltac placement_tac :=
  eval_fields;
  split; [reflexivity|];
  let p := fresh "p" in
  let Hp := fresh "Hp" in
  intros p Hp; cbn [In] in Hp;
  repeat match goal with
         | H : _ \/ _ |- _ => destruct H as [H|H]
         | H : False |- _ => contradiction
         end;
  subst p; apply digital_owner_eq.

Lemma tools_layer_bodies_placement l body :
  In body (layer_bodies lc l) ->
  metadata_layer body = Some l
  /\ forall p, In p (digital_placements body) ->
               p = digitalOwner l 0 digital_chiplets.
Proof.
  intros Hin. unfold layer_bodies in Hin. cbv zeta in Hin. cbn [In] in Hin.
  repeat (destruct Hin as [<-|Hin]); try contradiction; placement_tac.
Qed.

Lemma tools_chunk_bodies_placement l c body :
  In body (chunk_bodies lc l c) ->
  metadata_layer body = Some l
  /\ forall p, In p (digital_placements body) ->
               p = digitalOwner l 0 digital_chiplets.
Proof.
  intros Hin. unfold chunk_bodies in Hin. cbv zeta in Hin. cbn [In] in Hin.
  repeat (destruct Hin as [<-|Hin]); try contradiction; placement_tac.
Qed.

Lemma tools_experts_at_placed l c :
  experts_placed rram_chiplets
    (moe_linear_stage lc l c (num_chunks lc) (chunk_size_at lc c)
       (experts_at lc l c)).
Proof.
  intros e ex. eval_fields. rewrite dicts_of_map_VDict.
  intros Hex. unfold experts_at in Hex.
  rewrite nth_error_map in Hex.
  destruct (nth_error (range (lc_num_experts lc)) e) as [x|] eqn:E;
    [|discriminate].
  injection Hex as <-.
  apply nth_error_range_inv in E. subst x.
  split; [exists l; reflexivity|].
  unfold expertOwner. rewrite <- Hrram. reflexivity.
Qed.

Lemma tools_bodies_experts_placed l c body :
  In body (layer_bodies lc l) \/ In body (chunk_bodies lc l c) ->
  experts_placed rram_chiplets body.
Proof.
  intros [Hin|Hin];
    [unfold layer_bodies in Hin | unfold chunk_bodies in Hin];
    cbv zeta in Hin; cbn [In] in Hin;
    repeat (destruct Hin as [<-|Hin]); try contradiction;
    first [ apply tools_experts_at_placed
          | intros e ex; eval_fields; destruct e; discriminate ].
Qed.

End Local.

End ToolsLocal.

(** ** The configuration resolver *)

Lemma or_int_given a b v : given a = Some v -> or_int a b = Ok (Some v).
Proof.
  unfold given, or_int. destruct a as [x|]; [|discriminate].
  destruct (x =? 0); [discriminate|]. now intros [= ->].
Qed.

Lemma or_int_not_given a b : given a = None -> or_int a b = b.
Proof.
  unfold given, or_int. destruct a as [x|]; [|reflexivity].
  destruct (x =? 0); [reflexivity | discriminate].
Qed.

Lemma given_nonzero a v : given a = Some v -> a = Some v /\ v <> 0.
Proof.
  unfold given. destruct a as [x|]; [|discriminate].
  destruct (Z.eqb_spec x 0); [discriminate|]. intros [= <-]. auto.
Qed.

Lemma int_from_config_default data keys d :
  int_from_config data keys d =
  match int_from_config data keys None with
  | Ok (Some c) => Ok (Some c)
  | Ok None => Ok d
  | Raise e => Raise e
  end.
Proof.
  induction keys as [|k keys IH]; cbn [int_from_config]; [reflexivity|].
  destruct (get k data) as [[| | |f| | |]|]; try exact IH; try reflexivity.
  destruct (int_of_float f); reflexivity.
Qed.

Lemma or_int_precedence override data keys d r v :
  or_int override (int_from_config data keys (Some d)) = Ok r ->
  as_int r = Ok v ->
  precedence override (int_from_config data keys None) d v.
Proof.
  intros Hr Hv. unfold precedence.
  destruct (given override) as [x|] eqn:G.
  - rewrite (or_int_given _ _ _ G) in Hr. injection Hr as <-.
    cbn in Hv. congruence.
  - rewrite (or_int_not_given _ _ G) in Hr.
    rewrite int_from_config_default in Hr.
    destruct (int_from_config data keys None) as [[c|]|e];
      try discriminate; injection Hr as <-; cbn in Hv; congruence.
Qed.

Lemma or_int_first_experts override cl cm r :
  or_int override (or_int cl (or_int cm (Ok (Some 16)))) = Ok r ->
  r = Some (first_experts override cl cm).
Proof.
  unfold first_experts. intros Hr.
  destruct (given override) as [v|] eqn:G1.
  - rewrite (or_int_given _ _ _ G1) in Hr. congruence.
  - rewrite (or_int_not_given _ _ G1) in Hr.
    destruct (given cl) as [v|] eqn:G2.
    + rewrite (or_int_given _ _ _ G2) in Hr. congruence.
    + rewrite (or_int_not_given _ _ G2) in Hr.
      destruct (given cm) as [v|] eqn:G3.
      * rewrite (or_int_given _ _ _ G3) in Hr. congruence.
      * rewrite (or_int_not_given _ _ G3) in Hr. congruence.
Qed.

Lemma first_experts_nonzero override cl cm : first_experts override cl cm <> 0.
Proof.
  unfold first_experts.
  destruct (given override) eqn:G1; [apply given_nonzero in G1; tauto|].
  destruct (given cl) eqn:G2; [apply given_nonzero in G2; tauto|].
  destruct (given cm) eqn:G3; [apply given_nonzero in G3; tauto|].
  discriminate.
Qed.

Section Generate.

Variable build :
  Z -> Z -> Z -> Z -> Z -> Z -> Z -> Z -> Z -> Z -> (Z -> Z) -> Z ->
  result (list dict).

Ltac inv_step H :=
  match type of H with
  | rbind ?x _ = Ok _ =>
      let E := fresh "E" in
      destruct x eqn:E; cbn [rbind] in H; [|discriminate H]
  | (if ?b then _ else _) = Ok _ =>
      let E := fresh "E" in
      destruct b eqn:E; [discriminate H|]
  end.

(** What a returned document is made of. *)
Lemma generate_inv fs args doc :
  generate_chiplet_model build fs args = Ok doc ->
  exists config cl cm h i L ne ept seq name,
    load_model_config fs (args_config args) = Ok config
    /\ int_from_config config local_experts_aliases None = Ok cl
    /\ int_from_config config moe_experts_aliases None = Ok cm
    /\ precedence (args_hidden_size args)
         (int_from_config config hidden_aliases None) 4096 h
    /\ precedence (args_intermediate_size args)
         (int_from_config config intermediate_aliases None) (h * 4) i
    /\ precedence (args_layers args)
         (int_from_config config layers_aliases None) 32 L
    /\ ne = (if first_experts (args_num_experts args) cl cm <=? 0 then 1
             else first_experts (args_num_experts args) cl cm)
    /\ (first_experts (args_num_experts args) cl cm <= 0 ->
        bool_from_config config ["use_moe"] false = true)
    /\ precedence (args_experts_per_tok args)
         (int_from_config config topk_aliases None) 2 ept
    /\ build L h i ne ept (args_seq_length args) (args_batch args)
         (args_dtype_bytes args) (args_digital_chiplets args)
         (args_rram_chiplets args) (args_digital_latency_scale args)
         (args_chunk_bytes args) = Ok seq
    /\ doc =
       [("name", name);
        ("sequence", VList (map VDict seq));
        ("metadata",
         VDict [("hidden_size", VInt h);
                ("intermediate_size", VInt i);
                ("layers", VInt L);
                ("num_experts", VInt ne);
                ("experts_per_tok", VInt ept);
                ("seq_length", VInt (args_seq_length args));
                ("batch", VInt (args_batch args));
                ("dtype_bytes", VInt (args_dtype_bytes args));
                ("digital_chiplets", VInt (args_digital_chiplets args));
                ("rram_chiplets", VInt (args_rram_chiplets args));
                ("chunk_bytes", VInt (args_chunk_bytes args))])].
Proof.
  intros H. unfold generate_chiplet_model in H.
  do 9 inv_step H. inv_step H. cbv zeta in H. do 6 inv_step H.
  injection H as <-.
  match goal with
  | Hh : or_int (args_hidden_size args) _ = Ok ?r, Hv : as_int ?r = Ok ?h |- _ =>
      pose proof (or_int_precedence _ _ _ _ _ _ Hh Hv) as Ph
  end.
  match goal with
  | Hh : or_int (args_intermediate_size args) _ = Ok ?r,
    Hv : as_int ?r = Ok ?h |- _ =>
      cbn [rbind] in Hh;
      pose proof (or_int_precedence _ _ _ _ _ _ Hh Hv) as Pi
  end.
  match goal with
  | Hh : or_int (args_layers args) _ = Ok ?r, Hv : as_int ?r = Ok ?h |- _ =>
      pose proof (or_int_precedence _ _ _ _ _ _ Hh Hv) as PL
  end.
  match goal with
  | Hh : or_int (args_experts_per_tok args) _ = Ok ?r,
    Hv : as_int ?r = Ok ?h |- _ =>
      pose proof (or_int_precedence _ _ _ _ _ _ Hh Hv) as Pk
  end.
  match goal with
  | Hh : or_int (args_num_experts args) _ = Ok ?r, Hv : as_int ?r = Ok ?h |- _ =>
      apply or_int_first_experts in Hh; subst r; cbn in Hv;
      injection Hv as Hne
  end.
  subst.
  do 10 eexists.
  repeat match goal with |- _ /\ _ => split end;
    try eassumption; try reflexivity.
  intros Hle.
  match goal with
  | Hb : negb (bool_from_config _ _ ?dflt) && _ = false |- _ =>
      replace dflt with false in Hb by (symmetry; apply Z.ltb_ge; exact Hle);
      apply andb_false_iff in Hb; destruct Hb as [Hb|Hb];
      [ now apply negb_false_iff in Hb
      | apply Z.leb_gt in Hb; lia ]
  end.
Qed.

Lemma main_raise fs args e :
  generate_chiplet_model build fs args = Raise e ->
  main build fs args = Raise e.
Proof. intros H. unfold main. now rewrite H. Qed.

Ltac run_or_raise :=
  match goal with
  | |- exists e, rbind ?x _ = Raise e =>
      let E := fresh "E" in
      destruct x eqn:E; cbn [rbind]; [|eexists; reflexivity]
  end.

(** A non-positive resolved expert count without [use_moe] is rejected
    before the builder is called. *)
Lemma generate_rejects fs args config ne :
  load_model_config fs (args_config args) = Ok config ->
  resolved_experts config args = Ok (Some ne) ->
  ne <= 0 ->
  bool_from_config config ["use_moe"] false = false ->
  exists e, generate_chiplet_model build fs args = Raise e.
Proof.
  intros Hload Hres Hne Huse.
  unfold resolved_experts, local_experts_aliases, moe_experts_aliases in Hres.
  destruct (int_from_config config ["num_local_experts"] None) as [cl|] eqn:El;
    [|discriminate].
  destruct (int_from_config config ["moe_num_experts"; "num_experts"] None)
    as [cm|] eqn:Em; [|discriminate].
  cbn [rbind] in Hres.
  unfold generate_chiplet_model. rewrite Hload. cbn [rbind].
  do 3 run_or_raise.
  rewrite El, Em. cbn [rbind]. rewrite Hres. cbn [rbind].
  run_or_raise. cbn [as_int rbind].
  replace (0 <? ne) with false by (symmetry; apply Z.ltb_ge; lia).
  rewrite Huse.
  replace (ne <=? 0) with true by (symmetry; apply Z.leb_le; lia).
  cbn [negb andb]. eexists. reflexivity.
Qed.

(** ... and the exception is [ValueError] when no lookup in the
    configuration raises. *)
Lemma generate_rejects_value_error fs args config ne :
  load_model_config fs (args_config args) = Ok config ->
  resolved_experts config args = Ok (Some ne) ->
  ne <= 0 ->
  bool_from_config config ["use_moe"] false = false ->
  (forall keys d e, int_from_config config keys d <> Raise e) ->
  generate_chiplet_model build fs args = Raise ValueError.
Proof.
  intros Hload Hres Hne Huse Hnoraise.
  assert (Hor : forall a keys d,
             exists r, or_int a (int_from_config config keys (Some d)) = Ok (Some r)).
  { intros a keys d. unfold or_int.
    assert (exists r, int_from_config config keys (Some d) = Ok (Some r)) as [r Hr].
    { rewrite int_from_config_default.
      destruct (int_from_config config keys None) as [[c|]|e] eqn:E; eauto.
      exfalso. exact (Hnoraise _ _ _ E). }
    destruct a as [v|]; [destruct (v =? 0)|]; eauto. }
  unfold resolved_experts, local_experts_aliases, moe_experts_aliases in Hres.
  destruct (int_from_config config ["num_local_experts"] None) as [cl|] eqn:El;
    [|discriminate].
  destruct (int_from_config config ["moe_num_experts"; "num_experts"] None)
    as [cm|] eqn:Em; [|discriminate].
  cbn [rbind] in Hres.
  unfold generate_chiplet_model. rewrite Hload. cbn [rbind].
  destruct (Hor (args_hidden_size args) ["hidden_size"; "n_embd"; "dim"] 4096)
    as [h Hh].
  rewrite Hh. cbn [rbind as_int].
  destruct (Hor (args_intermediate_size args)
              ["moe_intermediate_size"; "intermediate_size"; "ffn_hidden_size"]
              (h * 4)) as [i Hi].
  rewrite Hi. cbn [rbind].
  destruct (Hor (args_layers args)
              ["num_hidden_layers"; "n_layer"; "num_layers"] 32) as [L HL].
  rewrite HL. cbn [rbind].
  rewrite El, Em. cbn [rbind]. rewrite Hres. cbn [rbind].
  destruct (Hor (args_experts_per_tok args) ["moe_topk"; "moe_top_k"] 2)
    as [k Hk].
  rewrite Hk. cbn [rbind as_int].
  replace (0 <? ne) with false by (symmetry; apply Z.ltb_ge; lia).
  rewrite Huse.
  replace (ne <=? 0) with true by (symmetry; apply Z.leb_le; lia).
  reflexivity.
Qed.

(** The resolved expert count is never zero. *)
Lemma resolved_experts_nonzero config args ne :
  resolved_experts config args = Ok (Some ne) -> ne <> 0.
Proof.
  unfold resolved_experts. intros H.
  destruct (int_from_config config local_experts_aliases None) as [cl|];
    [|discriminate].
  destruct (int_from_config config moe_experts_aliases None) as [cm|];
    [|discriminate].
  cbn [rbind] in H. apply or_int_first_experts in H.
  injection H as ->. apply first_experts_nonzero.
Qed.

(** Two documents with the same name and the same metadata, built with the
    same latency scale, are the same document. *)
Lemma generate_deterministic fs1 args1 fs2 args2 doc1 doc2 :
  generate_chiplet_model build fs1 args1 = Ok doc1 ->
  generate_chiplet_model build fs2 args2 = Ok doc2 ->
  get "name" doc1 = get "name" doc2 ->
  get "metadata" doc1 = get "metadata" doc2 ->
  args_digital_latency_scale args1 = args_digital_latency_scale args2 ->
  doc1 = doc2.
Proof.
  intros H1 H2 Hname Hmeta Hscale.
  apply generate_inv in H1, H2.
  destruct H1 as (c1 & cl1 & cm1 & h1 & i1 & L1 & ne1 & e1 & s1 & n1 & H1).
  destruct H2 as (c2 & cl2 & cm2 & h2 & i2 & L2 & ne2 & e2 & s2 & n2 & H2).
  destruct H1 as (_ & _ & _ & _ & _ & _ & _ & _ & _ & Hb1 & ->).
  destruct H2 as (_ & _ & _ & _ & _ & _ & _ & _ & _ & Hb2 & ->).
  cbn in Hname, Hmeta.
  injection Hname as ->.
  injection Hmeta as -> -> -> -> -> Hs Hb Hd Hdc Hrc Hcb.
  rewrite Hs, Hb, Hd, Hdc, Hrc, Hcb, Hscale in *.
  rewrite Hb1 in Hb2. injection Hb2 as ->. reflexivity.
Qed.

End Generate.

(** * The claims *)

Import GolangIndex.

(** When the chunked builder returns, it returns its layout. *)
Lemma golang_build_inv layers hidden_size intermediate_size num_experts
    experts_per_tok seq_length batch dtype_bytes digital_chiplets
    rram_chiplets scale chunk_bytes seq :
  GolangTools.build_moe_sequence layers hidden_size intermediate_size
    num_experts experts_per_tok seq_length batch dtype_bytes digital_chiplets
    rram_chiplets scale chunk_bytes = Ok seq ->
  (1 <= num_experts \/ layers <= 0)
  /\ seq =
     GolangLayout.layout
       (GolangLayout.closure_of hidden_size intermediate_size num_experts
          experts_per_tok seq_length batch dtype_bytes digital_chiplets
          rram_chiplets scale
          (GolangLayout.plan_of hidden_size seq_length batch dtype_bytes
             chunk_bytes))
       (seq_length * batch) layers.
Proof.
  intros H.
  destruct (Z_le_gt_dec num_experts 0) as [Hne|Hne];
    [destruct (Z_le_gt_dec layers 0) as [Hl|Hl]|].
  - split; [now right|].
    rewrite GolangProofs.build_moe_sequence_layout in H by now right.
    now injection H.
  - rewrite GolangProofs.build_moe_sequence_raise in H by lia. discriminate.
  - split; [left; lia|].
    rewrite GolangProofs.build_moe_sequence_layout in H by (left; lia).
    now injection H.
Qed.

Lemma with_deps_has_deps deps st :
  get "deps" (with_deps deps st) = Some (VInts (stage_deps (with_deps deps st))).
Proof.
  rewrite stage_deps_with_deps. unfold with_deps. apply get_dict_set_eq.
Qed.

(** C1: in every sequence that either builder produces, every stage carries
    a [deps] list of integers, and every index in the [deps] of the stage
    at position [i] is non-negative and strictly smaller than [i]; the
    append order is a topological order. *)
Theorem C1_deps_point_to_earlier_stages layers hidden_size intermediate_size
    num_experts experts_per_tok seq_length batch dtype_bytes digital_chiplets
    rram_chiplets scale chunk_bytes seq :
  GolangTools.build_moe_sequence layers hidden_size intermediate_size
    num_experts experts_per_tok seq_length batch dtype_bytes digital_chiplets
    rram_chiplets scale chunk_bytes = Ok seq
  \/ Tools.build_moe_sequence layers hidden_size intermediate_size
       num_experts experts_per_tok seq_length batch dtype_bytes
       digital_chiplets rram_chiplets scale chunk_bytes = Ok seq ->
  deps_before seq
  /\ forall st, In st seq -> get "deps" st = Some (VInts (stage_deps st)).
Proof.
  intros [H|H].
  - apply golang_build_inv in H. destruct H as [_ ->]. split.
    + apply GolangDeps.layout_deps_before.
    + intros st Hst. apply GolangCases.layout_cases in Hst.
      destruct Hst as [->|[l [_ (c & tok & deps & body & _ & _ & _ & ->)]]];
        apply with_deps_has_deps.
  - rewrite ToolsProofs.tools_build_moe_sequence_layout in H.
    injection H as <-. split.
    + apply ToolsDeps.tools_layout_deps_before.
    + intros st Hst. apply ToolsCases.tools_layout_cases in Hst.
      destruct Hst as [[deps ->]|[[deps ->]|[[deps ->]|[l [_ [Hl|Hc]]]]]];
        try apply with_deps_has_deps.
      * destruct Hl as (deps & body & _ & ->). apply with_deps_has_deps.
      * destruct Hc as (c & deps & body & _ & _ & ->). apply with_deps_has_deps.
Qed.

Lemma C1_witness :
  exists seq,
    GolangTools.build_moe_sequence 1 8 16 2 1 4 1 2 2 3 (fun h => h) 32 = Ok seq
    /\ deps_before seq
    /\ forall st, In st seq -> get "deps" st = Some (VInts (stage_deps st)).
Proof.
  eexists. split; [vm_compute; reflexivity|].
  apply (C1_deps_point_to_earlier_stages 1 8 16 2 1 4 1 2 2 3 (fun h => h) 32).
  left. vm_compute. reflexivity.
Defined.

(** C2: for positive arguments the chunk plan is non-empty, every entry is
    at least 1 and the entries sum to [tokens]; the plan is full chunks of
    [tokens_per_chunk] followed by a smaller remainder, a function of the
    four arguments; for [tokens <= 0] the plan is empty. *)
Theorem C2_chunk_plan_covers_tokens tokens hidden_size dtype_bytes chunk_bytes :
  (tokens <= 0 ->
   build_chunk_plan tokens hidden_size dtype_bytes chunk_bytes = Ok [])
  /\ (0 < tokens -> 0 < hidden_size -> 0 < dtype_bytes -> 0 < chunk_bytes ->
      exists plan,
        build_chunk_plan tokens hidden_size dtype_bytes chunk_bytes = Ok plan
        /\ plan <> []
        /\ Forall (fun take => 1 <= take) plan
        /\ sum_list plan = tokens
        /\ plan =
           chunk_closed_form
             (Z.max (chunk_bytes / (hidden_size * dtype_bytes)) 1) tokens).
Proof.
  split.
  - intros Hle. unfold build_chunk_plan.
    destruct (Z.leb_spec tokens 0); [reflexivity | lia].
  - intros Ht Hh Hd Hc.
    rewrite build_chunk_plan_closed by lia.
    replace (Z.max (hidden_size * dtype_bytes) dtype_bytes)
      with (hidden_size * dtype_bytes) by nia.
    set (tpc := Z.max _ 1).
    eexists. split; [reflexivity|]. repeat split.
    + apply chunk_closed_form_nonempty; lia.
    + eapply Forall_impl; [|apply (chunk_closed_form_pos tpc tokens); lia].
      cbv beta. intros; lia.
    + apply chunk_closed_form_sum; lia.
Qed.

Lemma C2_witness :
  exists plan,
    build_chunk_plan 10 8 2 48 = Ok plan
    /\ plan <> []
    /\ Forall (fun take => 1 <= take) plan
    /\ sum_list plan = 10
    /\ plan = chunk_closed_form (Z.max (48 / (8 * 2)) 1) 10.
Proof.
  apply (proj2 (C2_chunk_plan_covers_tokens 10 8 2 48)); lia.
Defined.

Lemma lookup_triple_0 (a b c : dict) : lookup [a; b; c] 0 = Some a.
Proof. reflexivity. Qed.

Lemma lookup_triple_1 (a b c : dict) : lookup [a; b; c] 1 = Some b.
Proof. reflexivity. Qed.

Lemma lookup_triple_2 (a b c : dict) : lookup [a; b; c] 2 = Some c.
Proof. reflexivity. Qed.

(** C3: in the chunked builder, for every layer [l] and every chunk
    [c >= 1], the MoE transfer-to-RRAM stage of chunk [c] has the index of
    the transfer-to-digital stage of chunk [c - 1] of that layer among its
    [deps]. *)
Theorem C3_moe_chunks_are_sequential layers hidden_size intermediate_size
    num_experts experts_per_tok seq_length batch dtype_bytes digital_chiplets
    rram_chiplets scale chunk_bytes seq l c :
  GolangTools.build_moe_sequence layers hidden_size intermediate_size
    num_experts experts_per_tok seq_length batch dtype_bytes digital_chiplets
    rram_chiplets scale chunk_bytes = Ok seq ->
  0 <= l < layers ->
  1 <= c < len (GolangLayout.plan_of hidden_size seq_length batch dtype_bytes
                  chunk_bytes) ->
  exists down up,
    lookup seq
      (moe_down_index
         (len (GolangLayout.plan_of hidden_size seq_length batch dtype_bytes
                 chunk_bytes)) l c) = Some down
    /\ lookup seq
         (moe_up_index
            (len (GolangLayout.plan_of hidden_size seq_length batch
                    dtype_bytes chunk_bytes)) l (c - 1)) = Some up
    /\ get_str "name" down =
       Some ("moe_transfer_to_rram_L" ++ str l ++ "_C" ++ str c)%string
    /\ get_str "name" up =
       Some ("moe_transfer_to_digital_L" ++ str l ++ "_C" ++ str (c - 1))%string
    /\ In (moe_up_index
             (len (GolangLayout.plan_of hidden_size seq_length batch
                     dtype_bytes chunk_bytes)) l (c - 1))
         (stage_deps down).
Proof.
  intros H Hl Hc. apply golang_build_inv in H. destruct H as [_ ->].
  set (plan := GolangLayout.plan_of hidden_size seq_length batch dtype_bytes
                 chunk_bytes) in *.
  set (cl := GolangLayout.closure_of hidden_size intermediate_size num_experts
               experts_per_tok seq_length batch dtype_bytes digital_chiplets
               rram_chiplets scale plan).
  change (len plan) with (len (GolangTools.cl_chunk_plan cl)) in *.
  set (n := len (GolangTools.cl_chunk_plan cl)) in *.
  unfold moe_down_index, moe_up_index.
  destruct (GolangPositions.lookup_moe cl (layer_start n l) l c 0
              ltac:(fold n; lia) ltac:(lia)) as [tok [_ Hdown]].
  destruct (GolangPositions.lookup_moe cl (layer_start n l) l (c - 1) 2
              ltac:(fold n; lia) ltac:(lia)) as [tok' [_ Hup]].
  fold n in Hdown, Hup.
  rewrite Z.add_0_r in Hdown.
  unfold GolangLayout.moe_triple in Hdown, Hup. cbn [fst snd] in Hdown, Hup.
  rewrite lookup_triple_0 in Hdown. rewrite lookup_triple_2 in Hup.
  eexists. eexists.
  split.
  { replace (layer_start n l + 17 * n + 3 * c)
      with (layer_start n l + (17 * n + 3 * c)) by lia.
    rewrite GolangPositions.lookup_layer by (fold n; lia).
    exact Hdown. }
  split.
  { replace (layer_start n l + 17 * n + 3 * (c - 1) + 2)
      with (layer_start n l + (17 * n + 3 * (c - 1) + 2)) by lia.
    rewrite GolangPositions.lookup_layer by (fold n; lia).
    exact Hup. }
  split; [reflexivity|]. split; [reflexivity|].
  rewrite stage_deps_with_deps.
  destruct (Z.eqb_spec c 0); [lia|].
  cbn [app In]. right. left. lia.
Qed.

Lemma C3_witness :
  exists seq,
    GolangTools.build_moe_sequence 1 8 16 2 1 4 1 2 2 3 (fun h => h) 32 = Ok seq
    /\ exists down up,
      lookup seq (moe_down_index (len (GolangLayout.plan_of 8 4 1 2 32)) 0 1)
      = Some down
      /\ lookup seq
           (moe_up_index (len (GolangLayout.plan_of 8 4 1 2 32)) 0 (1 - 1))
         = Some up
      /\ get_str "name" down =
         Some ("moe_transfer_to_rram_L" ++ str 0 ++ "_C" ++ str 1)%string
      /\ get_str "name" up =
         Some ("moe_transfer_to_digital_L" ++ str 0 ++ "_C" ++ str (1 - 1))%string
      /\ In (moe_up_index (len (GolangLayout.plan_of 8 4 1 2 32)) 0 (1 - 1))
           (stage_deps down).
Proof.
  eexists. split; [vm_compute; reflexivity|].
  apply (C3_moe_chunks_are_sequential 1 8 16 2 1 4 1 2 2 3 (fun h => h) 32).
  - vm_compute. reflexivity.
  - lia.
  - vm_compute. split; [discriminate | reflexivity].
Defined.

Lemma golang_embed_in_range d r tokens h base :
  resources_in_range d r (GolangTools.embed tokens h base).
Proof.
  unfold resources_in_range, field_below. eval_fields.
  split; [|split]; try (intros v Hv; discriminate Hv). apply Forall_nil.
Qed.

(** C10: when [num_experts >= 1], for any chiplet counts (zero and negative
    ones included), in every sequence that either builder returns, every
    [chiplet] and [queue] field of a stage, and the [chiplet] field of
    every expert sub-record, is an integer in [[0, max(count, 1))] for the
    count of its resource class. *)
Theorem C10_resource_ids_in_range layers hidden_size intermediate_size
    num_experts experts_per_tok seq_length batch dtype_bytes digital_chiplets
    rram_chiplets scale chunk_bytes seq :
  1 <= num_experts ->
  GolangTools.build_moe_sequence layers hidden_size intermediate_size
    num_experts experts_per_tok seq_length batch dtype_bytes
    digital_chiplets rram_chiplets scale chunk_bytes = Ok seq
  \/ Tools.build_moe_sequence layers hidden_size intermediate_size
       num_experts experts_per_tok seq_length batch dtype_bytes
       digital_chiplets rram_chiplets scale chunk_bytes = Ok seq ->
  Forall (resources_in_range digital_chiplets rram_chiplets) seq.
Proof.
  intros Hne [H|H].
  - apply golang_build_inv in H. destruct H as [_ ->].
    apply Forall_forall. intros st Hst.
    apply GolangCases.layout_cases in Hst.
    destruct Hst as [->|[l [_ (c & tok & deps & body & _ & _ & Hbody & ->)]]];
      apply resources_in_range_with_deps.
    + apply golang_embed_in_range.
    + eapply GolangLocal.chunk_bodies_in_range;
        [apply GolangProofs.closure_of_ok | reflexivity | reflexivity
        | exact Hne | exact Hbody].
  - rewrite ToolsProofs.tools_build_moe_sequence_layout in H.
    injection H as <-.
    apply Forall_forall. intros st Hst.
    set (lc := ToolsLayout.locals_of hidden_size intermediate_size
                 num_experts experts_per_tok seq_length batch dtype_bytes
                 digital_chiplets rram_chiplets scale chunk_bytes) in *.
    pose proof (ToolsLocal.tools_host_in_range digital_chiplets rram_chiplets)
      as Hhost.
    apply ToolsCases.tools_layout_cases in Hst.
    destruct Hst as [[deps ->]|[[deps ->]|[[deps ->]|[l [_ [Hl|Hc]]]]]];
      try (apply resources_in_range_with_deps).
    + apply Hhost.
    + apply (Hhost 0 0 0 0 0 0).
    + apply Hhost.
    + destruct Hl as (deps & body & Hbody & ->).
      apply resources_in_range_with_deps.
      eapply (ToolsLocal.tools_layer_bodies_in_range lc);
        try reflexivity; exact Hbody.
    + destruct Hc as (c & deps & body & _ & Hbody & ->).
      apply resources_in_range_with_deps.
      eapply (ToolsLocal.tools_chunk_bodies_in_range lc);
        try reflexivity; exact Hbody.
Qed.

Lemma C10_witness :
  (exists seq,
      GolangTools.build_moe_sequence 1 8 16 2 1 4 1 2 0 (-1) (fun h => h) 32
      = Ok seq
      /\ Forall (resources_in_range 0 (-1)) seq)
  /\ (exists seq,
         Tools.build_moe_sequence 1 8 16 2 1 4 1 2 0 (-1) (fun h => h) 32
         = Ok seq
         /\ Forall (resources_in_range 0 (-1)) seq).
Proof.
  split.
  - eexists. split; [vm_compute; reflexivity|].
    apply (C10_resource_ids_in_range 1 8 16 2 1 4 1 2 0 (-1) (fun h => h) 32).
    + lia.
    + left. vm_compute. reflexivity.
  - eexists. split; [vm_compute; reflexivity|].
    apply (C10_resource_ids_in_range 1 8 16 2 1 4 1 2 0 (-1) (fun h => h) 32).
    + lia.
    + right. vm_compute. reflexivity.
Defined.

Lemma host_latency_ok_with_deps dt cb deps st :
  host_latency_ok dt cb st -> host_latency_ok dt cb (with_deps deps st).
Proof. unfold host_latency_ok. now rewrite !get_int_with_deps. Qed.

Lemma host_transfer_with_deps deps st :
  host_transfer (with_deps deps st) = host_transfer st.
Proof. unfold host_transfer. now rewrite !has_direction_with_deps. Qed.

Lemma tools_chunk_bodies_not_host lc l c body :
  In body (ToolsBodies.chunk_bodies lc l c) ->
  has_type "transfer" body = true -> host_transfer body = false.
Proof.
  intros Hin Ht. unfold ToolsBodies.chunk_bodies in Hin. cbn [In] in Hin.
  destruct Hin as [<-|[<-|[<-|[]]]]; reflexivity.
Qed.

(** C7, on the unchunked builder: the first stage is a [transfer] of 64
    bytes with latency 8, where the transfer formula gives 4. *)
Lemma C7_counterexample :
  exists seq st,
    Tools.build_moe_sequence 1 8 16 2 1 4 1 2 2 3 (fun h => h) 32 = Ok seq
    /\ lookup seq 0 = Some st
    /\ has_type "transfer" st = true
    /\ get_int "bytes" st = Some 64
    /\ get_int "latency" st = Some 8
    /\ transfer_latency 64 = 4
    /\ ~ transfer_latency_ok st.
Proof.
  eexists. eexists. split; [vm_compute; reflexivity|].
  split; [vm_compute; reflexivity|].
  repeat (split; [vm_compute; reflexivity|]).
  intros [bytes [Hb Hl]]. vm_compute in Hb. injection Hb as <-.
  vm_compute in Hl. discriminate Hl.
Qed.

(** C7, amended: in every sequence of the chunked builder, the latency of
    every [transfer] stage is [max(ceil(bytes / 4096), 4)] of its own
    [bytes]; in every sequence of the unchunked builder this holds of every
    [transfer] between chiplets, and a [transfer] from or to the host has
    latency [max(ceil(max(bytes, 1) / max(chunk_bytes // 4, 4096)), 8)],
    for the clamped [chunk_bytes].  The ceilings are those of the exact
    quotients as long as the byte count, and for a host transfer the DMA
    unit, are below [2^53]: the code divides in double precision. *)
Theorem C7_transfer_latency layers hidden_size intermediate_size
    num_experts experts_per_tok seq_length batch dtype_bytes digital_chiplets
    rram_chiplets scale chunk_bytes seq st :
  In st seq ->
  has_type "transfer" st = true ->
  (GolangTools.build_moe_sequence layers hidden_size intermediate_size
     num_experts experts_per_tok seq_length batch dtype_bytes digital_chiplets
     rram_chiplets scale chunk_bytes = Ok seq ->
   exists bytes,
     get_int "bytes" st = Some bytes
     /\ (Z.abs bytes < double_bound ->
         get_int "latency" st = Some (transfer_latency bytes)))
  /\ (Tools.build_moe_sequence layers hidden_size intermediate_size
        num_experts experts_per_tok seq_length batch dtype_bytes
        digital_chiplets rram_chiplets scale chunk_bytes = Ok seq ->
      exists bytes,
        get_int "bytes" st = Some bytes
        /\ (Z.abs bytes < double_bound ->
            if host_transfer st
            then Z.max chunk_bytes (Z.max dtype_bytes 1) / 4 < double_bound ->
                 get_int "latency" st =
                 Some (host_transfer_latency dtype_bytes chunk_bytes bytes)
            else get_int "latency" st = Some (transfer_latency bytes))).
Proof.
  intros Hst Ht. split; intros H.
  - assert (transfer_latency_ok st) as (bytes & Hb & Hlat).
    { apply golang_build_inv in H. destruct H as [_ ->].
      apply GolangCases.layout_cases in Hst.
      destruct Hst
        as [->|[l [_ (c & tok & deps & body & _ & _ & Hbody & ->)]]].
      + discriminate Ht.
      + rewrite has_type_with_deps in Ht.
        apply transfer_latency_ok_with_deps.
        exact (GolangLocal.chunk_bodies_latency _ _ _ _ _ Hbody Ht). }
    exists bytes. split; [exact Hb|]. intros _. exact Hlat.
  - enough (if host_transfer st
            then host_latency_ok dtype_bytes chunk_bytes st
            else transfer_latency_ok st) as Hlat.
    { destruct (host_transfer st); destruct Hlat as (bytes & Hb & Hlat);
        exists bytes; (split; [exact Hb|]); intros; exact Hlat. }
    rewrite ToolsProofs.tools_build_moe_sequence_layout in H.
    injection H as <-.
    apply ToolsCases.tools_layout_cases in Hst.
    destruct Hst as [[deps ->]|[[deps ->]|[[deps ->]|[l [_ [Hl|Hc]]]]]].
    + rewrite host_transfer_with_deps.
      change (host_latency_ok dtype_bytes chunk_bytes
                (with_deps deps
                   (Tools.host_load_input
                      (seq_length * batch * hidden_size * Z.max dtype_bytes 1)
                      (host_transfer_latency dtype_bytes chunk_bytes
                         (seq_length * batch * hidden_size
                          * Z.max dtype_bytes 1))
                      hidden_size batch seq_length (Z.max dtype_bytes 1)))).
      apply host_latency_ok_with_deps. eexists. split; reflexivity.
    + discriminate Ht.
    + rewrite host_transfer_with_deps.
      change (host_latency_ok dtype_bytes chunk_bytes
                (with_deps deps
                   (Tools.store_logits
                      (seq_length * batch * hidden_size * Z.max dtype_bytes 1)
                      (host_transfer_latency dtype_bytes chunk_bytes
                         (seq_length * batch * hidden_size
                          * Z.max dtype_bytes 1))
                      hidden_size batch seq_length (Z.max dtype_bytes 1)))).
      apply host_latency_ok_with_deps. eexists. split; [reflexivity|].
      unfold get_int, Tools.store_logits. cbn [get String.eqb Ascii.eqb Bool.eqb].
      f_equal. unfold host_transfer_latency. cbv zeta. lia.
    + destruct Hl as (deps & body & Hbody & ->).
      rewrite has_type_with_deps in Ht.
      rewrite (ToolsLocal.tools_layer_bodies_not_transfer _ _ _ Hbody) in Ht.
      discriminate Ht.
    + destruct Hc as (c & deps & body & _ & Hbody & ->).
      rewrite has_type_with_deps in Ht. rewrite host_transfer_with_deps.
      rewrite (tools_chunk_bodies_not_host _ _ _ _ Hbody Ht).
      apply transfer_latency_ok_with_deps.
      exact (ToolsLocal.tools_chunk_bodies_latency _ _ _ _ Hbody Ht).
Qed.

Lemma C7_witness :
  (exists seq st,
      GolangTools.build_moe_sequence 1 8 16 2 1 4 1 2 2 3 (fun h => h) 32
      = Ok seq
      /\ nth_error seq 1 = Some st
      /\ has_type "transfer" st = true
      /\ exists bytes,
          get_int "bytes" st = Some bytes
          /\ (Z.abs bytes < double_bound ->
              get_int "latency" st = Some (transfer_latency bytes)))
  /\ (exists seq st,
         Tools.build_moe_sequence 1 8 16 2 1 4 1 2 2 3 (fun h => h) 32 = Ok seq
         /\ nth_error seq 0 = Some st
         /\ has_type "transfer" st = true
         /\ host_transfer st = true
         /\ exists bytes,
             get_int "bytes" st = Some bytes
             /\ (Z.abs bytes < double_bound ->
                 if host_transfer st
                 then Z.max 32 (Z.max 2 1) / 4 < double_bound ->
                      get_int "latency" st =
                      Some (host_transfer_latency 2 32 bytes)
                 else get_int "latency" st = Some (transfer_latency bytes))).
Proof.
  split.
  - eexists. eexists. split; [vm_compute; reflexivity|].
    split; [vm_compute; reflexivity|]. split; [vm_compute; reflexivity|].
    match goal with
    | |- exists bytes, get_int "bytes" ?s = _ /\ _ =>
        refine (proj1 (C7_transfer_latency 1 8 16 2 1 4 1 2 2 3 (fun h => h)
                         32 _ s _ _) _)
    end.
    3: (vm_compute; reflexivity).
    + apply (nth_error_In _ 1). vm_compute. reflexivity.
    + vm_compute. reflexivity.
  - eexists. eexists. split; [vm_compute; reflexivity|].
    split; [vm_compute; reflexivity|]. split; [vm_compute; reflexivity|].
    split; [vm_compute; reflexivity|].
    match goal with
    | |- exists bytes, get_int "bytes" ?s = _ /\ _ =>
        refine (proj2 (C7_transfer_latency 1 8 16 2 1 4 1 2 2 3 (fun h => h)
                         32 _ s _ _) _)
    end.
    3: (vm_compute; reflexivity).
    + apply (nth_error_In _ 0). vm_compute. reflexivity.
    + vm_compute. reflexivity.
Defined.

Lemma experts_placed_none r st : stage_experts st = [] -> experts_placed r st.
Proof.
  intros H e ex Hex. rewrite H in Hex. destruct e; discriminate Hex.
Qed.

(** C6, on the unchunked builder: the stage that moves chunk 1 of layer 0
    to the RRAM is queued on digital chiplet 0, where [digitalOwner] of
    layer 0 and chunk 1 over 2 digital chiplets is 1. *)
Lemma C6_counterexample :
  exists seq st,
    Tools.build_moe_sequence 1 8 16 2 1 4 1 2 2 3 (fun h => h) 32 = Ok seq
    /\ lookup seq 8 = Some st
    /\ get_str "name" st = Some "transfer_to_rram_L0_C1"
    /\ digital_placements st = [0]
    /\ digitalOwner 0 1 2 = 1.
Proof.
  eexists. eexists. split; [vm_compute; reflexivity|].
  split; [vm_compute; reflexivity|].
  repeat split; vm_compute; reflexivity.
Qed.

(** C6, amended: in every sequence of the chunked builder, every stage but
    [embed], which is on no chiplet, is named as a stage of some chunk [c]
    of some layer [l], and each of its digital-chiplet ids is
    [digitalOwner l c digital_chiplets]; in every sequence of the unchunked
    builder, each digital-chiplet id of a stage of layer [l] is
    [l mod max(digital_chiplets, 1)], whatever the chunk, and the host
    transfers are on digital chiplet 0; in both, expert [e] is on RRAM
    chiplet [expertOwner e rram_chiplets].  Both counts are clamped to at
    least 1. *)
Theorem C6_placement_by_owner layers hidden_size intermediate_size
    num_experts experts_per_tok seq_length batch dtype_bytes digital_chiplets
    rram_chiplets scale chunk_bytes seq st :
  In st seq ->
  (GolangTools.build_moe_sequence layers hidden_size intermediate_size
     num_experts experts_per_tok seq_length batch dtype_bytes digital_chiplets
     rram_chiplets scale chunk_bytes = Ok seq ->
   experts_placed rram_chiplets st
   /\ ((get_str "name" st = Some "embed" /\ digital_placements st = [])
       \/ exists l c,
           0 <= l < layers
           /\ 0 <= c < len (GolangLayout.plan_of hidden_size seq_length batch
                              dtype_bytes chunk_bytes)
           /\ named_at l c st
           /\ forall p, In p (digital_placements st) ->
                        p = digitalOwner l c digital_chiplets))
  /\ (Tools.build_moe_sequence layers hidden_size intermediate_size
        num_experts experts_per_tok seq_length batch dtype_bytes
        digital_chiplets rram_chiplets scale chunk_bytes = Ok seq ->
      experts_placed rram_chiplets st
      /\ forall p, In p (digital_placements st) ->
                   match metadata_layer st with
                   | Some l => 0 <= l < layers
                               /\ p = l mod Z.max digital_chiplets 1
                   | None => p = 0
                   end).
Proof.
  intros Hst. split; intros H.
  - apply golang_build_inv in H. destruct H as [_ ->].
    apply GolangCases.layout_cases in Hst.
    destruct Hst as [->|[l [Hl (c & tok & deps & body & Hc & _ & Hbody & ->)]]].
    + split; [now apply experts_placed_none|]. left. split; reflexivity.
    + split.
      * apply experts_placed_with_deps.
        eapply GolangLocal.chunk_bodies_experts_placed; [|exact Hbody].
        reflexivity.
      * right. exists l, c. split; [exact Hl|]. split; [exact Hc|]. split.
        -- apply named_at_with_deps.
           exact (GolangLocal.chunk_bodies_named _ _ _ _ _ Hbody).
        -- rewrite digital_placements_with_deps.
           eapply GolangLocal.chunk_bodies_placement; [| |exact Hbody].
           ++ exact 0.
           ++ reflexivity.
  - rewrite ToolsProofs.tools_build_moe_sequence_layout in H.
    injection H as <-.
    set (lc := ToolsLayout.locals_of hidden_size intermediate_size
                 num_experts experts_per_tok seq_length batch dtype_bytes
                 digital_chiplets rram_chiplets scale chunk_bytes) in *.
    apply ToolsCases.tools_layout_cases in Hst.
    destruct Hst as [[deps ->]|[[deps ->]|[[deps ->]|[l [Hl Hbody]]]]].
    + split; [now apply experts_placed_none|].
      intros p Hp. cbn in Hp. cbn. lia.
    + split; [now apply experts_placed_none|].
      intros p Hp. destruct Hp.
    + split; [now apply experts_placed_none|].
      intros p Hp. cbn in Hp. cbn. lia.
    + assert (exists deps body c,
                 (In body (ToolsBodies.layer_bodies lc l)
                  \/ In body (ToolsBodies.chunk_bodies lc l c))
                 /\ st = with_deps deps body) as (deps & body & c & Hin & ->).
      { destruct Hbody as [(deps & body & Hin & ->)
                          |(c & deps & body & _ & Hin & ->)].
        - exists deps, body, 0. auto.
        - exists deps, body, c. auto. }
      split.
      * apply experts_placed_with_deps.
        eapply (ToolsLocal.tools_bodies_experts_placed lc); [|exact Hin].
        reflexivity.
      * rewrite digital_placements_with_deps, metadata_layer_with_deps.
        assert (metadata_layer body = Some l
                /\ forall p, In p (digital_placements body) ->
                             p = digitalOwner l 0 digital_chiplets)
          as [-> Hp].
        { destruct Hin as [Hin|Hin].
          - eapply (ToolsLocal.tools_layer_bodies_placement lc);
              [|exact Hin]. reflexivity.
          - eapply (ToolsLocal.tools_chunk_bodies_placement lc);
              [|exact Hin]. reflexivity. }
        intros p Hin'. split; [exact Hl|].
        rewrite (Hp p Hin'). unfold digitalOwner. now rewrite Z.add_0_r.
Qed.

Lemma C6_witness :
  (exists seq st,
      GolangTools.build_moe_sequence 1 8 16 2 1 4 1 2 2 3 (fun h => h) 32
      = Ok seq
      /\ nth_error seq 38 = Some st
      /\ named_at 0 1 st
      /\ digital_placements st = [1]
      /\ experts_placed 3 st
      /\ ((get_str "name" st = Some "embed" /\ digital_placements st = [])
          \/ exists l c,
              0 <= l < 1
              /\ 0 <= c < len (GolangLayout.plan_of 8 4 1 2 32)
              /\ named_at l c st
              /\ forall p, In p (digital_placements st) ->
                           p = digitalOwner l c 2))
  /\ (exists seq st,
         Tools.build_moe_sequence 1 8 16 2 1 4 1 2 2 3 (fun h => h) 32 = Ok seq
         /\ nth_error seq 8 = Some st
         /\ experts_placed 3 st
         /\ forall p, In p (digital_placements st) ->
                      match metadata_layer st with
                      | Some l => 0 <= l < 1 /\ p = l mod Z.max 2 1
                      | None => p = 0
                      end).
Proof.
  split.
  - eexists. eexists. split; [vm_compute; reflexivity|].
    split; [vm_compute; reflexivity|].
    split; [exists "moe_transfer_to_rram"; vm_compute; reflexivity|].
    split; [vm_compute; reflexivity|].
    match goal with
    | |- experts_placed _ ?s /\ _ =>
        refine (proj1 (C6_placement_by_owner 1 8 16 2 1 4 1 2 2 3
                         (fun h => h) 32 _ s _) _)
    end.
    2: (vm_compute; reflexivity).
    apply (nth_error_In _ 38). vm_compute. reflexivity.
  - eexists. eexists. split; [vm_compute; reflexivity|].
    split; [vm_compute; reflexivity|].
    match goal with
    | |- experts_placed _ ?s /\ _ =>
        refine (proj2 (C6_placement_by_owner 1 8 16 2 1 4 1 2 2 3
                         (fun h => h) 32 _ s _) _)
    end.
    2: (vm_compute; reflexivity).
    apply (nth_error_In _ 8). vm_compute. reflexivity.
Defined.

Ltac run_or_raise_any :=
  match goal with
  | |- exists e, forall build, rbind ?x _ = Raise e =>
      let E := fresh "E" in
      destruct x eqn:E; cbn [rbind]; [|eexists; intros; reflexivity]
  end.

(** The rejection does not depend on the builder: the exception is raised
    before the builder is called. *)
Lemma generate_rejects_before_build fs args config ne :
  load_model_config fs (args_config args) = Ok config ->
  resolved_experts config args = Ok (Some ne) ->
  ne <= 0 ->
  bool_from_config config ["use_moe"] false = false ->
  exists e, forall build, generate_chiplet_model build fs args = Raise e.
Proof.
  intros Hload Hres Hne Huse.
  unfold resolved_experts, local_experts_aliases, moe_experts_aliases in Hres.
  destruct (int_from_config config ["num_local_experts"] None) as [cl|] eqn:El;
    [|discriminate].
  destruct (int_from_config config ["moe_num_experts"; "num_experts"] None)
    as [cm|] eqn:Em; [|discriminate].
  cbn [rbind] in Hres.
  unfold generate_chiplet_model. rewrite Hload. cbn [rbind].
  do 3 run_or_raise_any.
  rewrite El, Em. cbn [rbind]. rewrite Hres. cbn [rbind].
  run_or_raise_any. cbn [as_int rbind].
  replace (0 <? ne) with false by (symmetry; apply Z.ltb_ge; lia).
  rewrite Huse.
  replace (ne <=? 0) with true by (symmetry; apply Z.leb_le; lia).
  cbn [negb andb]. eexists. intros. reflexivity.
Qed.

(** C5: a configuration with [num_experts = 0] and no override resolves to
    the default of 16 experts, and the document is written; a configuration
    with a negative count and [use_moe] resolves to one expert, and the
    document is written. *)
Lemma C5_counterexample :
  args_num_experts (Examples.small_args (Some "config.json") (Some 8) None)
  = None
  /\ int_from_config [("num_experts", VInt 0)] moe_experts_aliases None
     = Ok (Some 0)
  /\ (exists doc,
         GolangTools.main (Examples.one_file [("num_experts", VInt 0)])
           (Examples.small_args (Some "config.json") (Some 8) None)
         = Ok ("chiplet_model.json", doc)
         /\ get_int "num_experts" (metadata_of doc) = Some 16)
  /\ resolved_experts [("num_experts", VInt (-2)); ("use_moe", VBool true)]
       (Examples.small_args (Some "config.json") (Some 8) None)
     = Ok (Some (-2))
  /\ exists doc,
      GolangTools.main
        (Examples.one_file
           [("num_experts", VInt (-2)); ("use_moe", VBool true)])
        (Examples.small_args (Some "config.json") (Some 8) None)
      = Ok ("chiplet_model.json", doc)
      /\ get_int "num_experts" (metadata_of doc) = Some 1.
Proof.
  split; [reflexivity|]. split; [reflexivity|]. split.
  - eexists. split; vm_compute; reflexivity.
  - split; [reflexivity|]. eexists. split; vm_compute; reflexivity.
Qed.

(** C5, amended: when the expert count that the resolver arrives at (the
    first non-zero value among the override, [num_local_experts] and
    [moe_num_experts] or [num_experts] of the configuration, else 16) is not
    positive and the configuration does not set [use_moe], the count is
    negative, [generate_chiplet_model] raises whatever the builder is, so
    before any stage is built, and [main] writes no document; the exception
    is [ValueError] when no lookup in the configuration raises. *)
Theorem C5_negative_experts_rejected fs args config ne :
  load_model_config fs (args_config args) = Ok config ->
  resolved_experts config args = Ok (Some ne) ->
  ne <= 0 ->
  bool_from_config config ["use_moe"] false = false ->
  ne < 0
  /\ exists e,
      (forall build,
          generate_chiplet_model build fs args = Raise e
          /\ main build fs args = Raise e)
      /\ ((forall keys d e', int_from_config config keys d <> Raise e') ->
          e = ValueError).
Proof.
  intros Hload Hres Hne Huse. split.
  - pose proof (resolved_experts_nonzero _ _ _ Hres). lia.
  - destruct (generate_rejects_before_build fs args config ne Hload Hres Hne
                Huse) as [e He].
    exists e. split.
    + intros build. split; [apply He|]. apply main_raise, He.
    + intros Hnoraise.
      pose proof (generate_rejects_value_error (fun _ _ _ _ _ _ _ _ _ _ _ _ => Ok [])
                    fs args config ne Hload Hres Hne Huse Hnoraise) as Hv.
      rewrite He in Hv. now injection Hv.
Qed.

Lemma C5_witness :
  -2 < 0
  /\ exists e,
      (forall build,
          generate_chiplet_model build
            (Examples.one_file [("num_experts", VInt (-2))])
            (Examples.small_args (Some "config.json") (Some 8) None)
          = Raise e
          /\ main build (Examples.one_file [("num_experts", VInt (-2))])
               (Examples.small_args (Some "config.json") (Some 8) None)
             = Raise e)
      /\ ((forall keys d e',
              int_from_config [("num_experts", VInt (-2))] keys d <> Raise e')
          -> e = ValueError).
Proof.
  apply (C5_negative_experts_rejected
           (Examples.one_file [("num_experts", VInt (-2))])
           (Examples.small_args (Some "config.json") (Some 8) None)
           [("num_experts", VInt (-2))] (-2)).
  - reflexivity.
  - reflexivity.
  - lia.
  - reflexivity.
Defined.

(** C8: an override of 0 for the hidden size loses to the configuration's
    8; a configuration's [num_local_experts] of 0 loses to the default of
    16; an override of -3 experts, with [use_moe] set, resolves to 1. *)
Lemma C8_counterexample :
  (exists doc,
      GolangTools.generate_chiplet_model
        (Examples.one_file [("hidden_size", VInt 8)])
        (Examples.small_args (Some "config.json") (Some 0) (Some 2))
      = Ok doc
      /\ get_int "hidden_size" (metadata_of doc) = Some 8)
  /\ (exists doc,
         GolangTools.generate_chiplet_model
           (Examples.one_file [("num_local_experts", VInt 0)])
           (Examples.small_args (Some "config.json") (Some 8) None)
         = Ok doc
         /\ get_int "num_experts" (metadata_of doc) = Some 16)
  /\ exists doc,
      GolangTools.generate_chiplet_model
        (Examples.one_file [("use_moe", VBool true)])
        (Examples.small_args (Some "config.json") (Some 8) (Some (-3)))
      = Ok doc
      /\ get_int "num_experts" (metadata_of doc) = Some 1.
Proof.
  split; [|split]; eexists; split; vm_compute; reflexivity.
Qed.

(** C8, amended: in every document that either version returns, the hidden
    size, the intermediate size, the layer count and the experts per token
    are the override when it is given and not 0, else the value of the
    configuration document when it has one, else the default (4096, 4 times
    the resolved hidden size, 32, 2); the expert count is the first value
    that is not 0 among the override, [num_local_experts] and
    [moe_num_experts] or [num_experts] of the configuration, else 16, and 1
    when that value is negative; the builder is called with these values. *)
Theorem C8_override_config_default build fs args doc :
  generate_chiplet_model build fs args = Ok doc ->
  exists config cl cm h i L ne ept seq,
    load_model_config fs (args_config args) = Ok config
    /\ int_from_config config local_experts_aliases None = Ok cl
    /\ int_from_config config moe_experts_aliases None = Ok cm
    /\ get_int "hidden_size" (metadata_of doc) = Some h
    /\ get_int "intermediate_size" (metadata_of doc) = Some i
    /\ get_int "layers" (metadata_of doc) = Some L
    /\ get_int "num_experts" (metadata_of doc) = Some ne
    /\ get_int "experts_per_tok" (metadata_of doc) = Some ept
    /\ precedence (args_hidden_size args)
         (int_from_config config hidden_aliases None) 4096 h
    /\ precedence (args_intermediate_size args)
         (int_from_config config intermediate_aliases None) (h * 4) i
    /\ precedence (args_layers args)
         (int_from_config config layers_aliases None) 32 L
    /\ precedence (args_experts_per_tok args)
         (int_from_config config topk_aliases None) 2 ept
    /\ ne = (if first_experts (args_num_experts args) cl cm <=? 0 then 1
             else first_experts (args_num_experts args) cl cm)
    /\ build L h i ne ept (args_seq_length args) (args_batch args)
         (args_dtype_bytes args) (args_digital_chiplets args)
         (args_rram_chiplets args) (args_digital_latency_scale args)
         (args_chunk_bytes args) = Ok seq
    /\ get "sequence" doc = Some (VList (map VDict seq)).
Proof.
  intros H. apply generate_inv in H.
  destruct H as (config & cl & cm & h & i & L & ne & ept & seq & name & H).
  destruct H as (Hload & Hcl & Hcm & Ph & Pi & PL & Hne & _ & Pk & Hb & ->).
  exists config, cl, cm, h, i, L, ne, ept, seq.
  repeat match goal with |- _ /\ _ => split end;
    try assumption; reflexivity.
Qed.

Lemma C8_witness :
  exists doc,
    GolangTools.generate_chiplet_model
      (Examples.one_file [("hidden_size", VInt 8); ("num_experts", VInt 2)])
      (Examples.small_args (Some "config.json") None None)
    = Ok doc
    /\ get_int "hidden_size" (metadata_of doc) = Some 8
    /\ get_int "intermediate_size" (metadata_of doc) = Some 16
    /\ get_int "num_experts" (metadata_of doc) = Some 2
    /\ exists config cl cm h i L ne ept seq,
        load_model_config
          (Examples.one_file
             [("hidden_size", VInt 8); ("num_experts", VInt 2)])
          (Some "config.json")
        = Ok config
        /\ int_from_config config local_experts_aliases None = Ok cl
        /\ int_from_config config moe_experts_aliases None = Ok cm
        /\ get_int "hidden_size" (metadata_of doc) = Some h
        /\ get_int "intermediate_size" (metadata_of doc) = Some i
        /\ get_int "layers" (metadata_of doc) = Some L
        /\ get_int "num_experts" (metadata_of doc) = Some ne
        /\ get_int "experts_per_tok" (metadata_of doc) = Some ept
        /\ precedence None (int_from_config config hidden_aliases None) 4096 h
        /\ precedence (Some 16)
             (int_from_config config intermediate_aliases None) (h * 4) i
        /\ precedence (Some 1)
             (int_from_config config layers_aliases None) 32 L
        /\ precedence (Some 1) (int_from_config config topk_aliases None) 2 ept
        /\ ne = (if first_experts None cl cm <=? 0 then 1
                 else first_experts None cl cm)
        /\ GolangTools.build_moe_sequence L h i ne ept 4 1 2 2 3 (fun h => h)
             32 = Ok seq
        /\ get "sequence" doc = Some (VList (map VDict seq)).
Proof.
  eexists. split; [vm_compute; reflexivity|].
  split; [vm_compute; reflexivity|]. split; [vm_compute; reflexivity|].
  split; [vm_compute; reflexivity|].
  apply (C8_override_config_default GolangTools.build_moe_sequence
           (Examples.one_file
              [("hidden_size", VInt 8); ("num_experts", VInt 2)])
           (Examples.small_args (Some "config.json") None None)).
  vm_compute. reflexivity.
Defined.







(** * Further properties of the generator *)

(** ** The chunk planner outside its intended domain *)

(** The planner with any non-zero [dtype_bytes]: the divisor is not 0. *)
Lemma build_chunk_plan_nonzero tokens hidden_size dtype_bytes chunk_bytes :
  0 < tokens -> dtype_bytes <> 0 ->
  exists tokens_per_chunk,
    1 <= tokens_per_chunk
    /\ build_chunk_plan tokens hidden_size dtype_bytes chunk_bytes =
       Ok (chunk_closed_form tokens_per_chunk tokens).
Proof.
  intros Ht Hd. unfold build_chunk_plan.
  destruct (Z.leb_spec tokens 0); [lia|].
  set (ptb := if Z.max (hidden_size * dtype_bytes) dtype_bytes <=? 0
              then dtype_bytes
              else Z.max (hidden_size * dtype_bytes) dtype_bytes).
  assert (ptb <> 0) as Hptb.
  { unfold ptb.
    destruct (Z.leb_spec (Z.max (hidden_size * dtype_bytes) dtype_bytes) 0);
      lia. }
  unfold py_floordiv. destruct (Z.eqb_spec ptb 0); [contradiction|].
  cbn [rbind].
  exists (Z.max (chunk_bytes / ptb) 1). split; [lia|].
  rewrite (chunk_loop_closed _ _ (Z.to_nat tokens)) by lia.
  destruct (Z.eqb_spec tokens 0); [lia|]. cbn [app].
  set (tpc := Z.max _ 1).
  pose proof (chunk_closed_form_nonempty tpc tokens ltac:(lia) Ht) as Hne.
  destruct (chunk_closed_form tpc tokens); [contradiction | reflexivity].
Qed.

(** X1: for [tokens > 0], [build_chunk_plan] raises [ZeroDivisionError]
    when [dtype_bytes] is 0, whatever the other arguments; for every other
    [dtype_bytes], and any [hidden_size] and [chunk_bytes], also zero or
    negative ones, it returns a non-empty plan of chunks of at least one
    token that sum to [tokens]. *)
Theorem X1_chunk_plan_zero_dtype tokens hidden_size dtype_bytes chunk_bytes :
  0 < tokens ->
  (dtype_bytes = 0 ->
   build_chunk_plan tokens hidden_size dtype_bytes chunk_bytes =
   Raise ZeroDivisionError)
  /\ (dtype_bytes <> 0 ->
      exists plan,
        build_chunk_plan tokens hidden_size dtype_bytes chunk_bytes = Ok plan
        /\ plan <> []
        /\ Forall (fun take => 1 <= take) plan
        /\ sum_list plan = tokens).
Proof.
  intros Ht. split.
  - intros ->. unfold build_chunk_plan.
    destruct (Z.leb_spec tokens 0); [lia|].
    rewrite Z.mul_0_r. reflexivity.
  - intros Hd.
    destruct (build_chunk_plan_nonzero tokens hidden_size dtype_bytes
                chunk_bytes Ht Hd) as (tpc & Htpc & ->).
    eexists. split; [reflexivity|]. split; [|split].
    + apply chunk_closed_form_nonempty; lia.
    + eapply Forall_impl; [|apply (chunk_closed_form_pos tpc tokens); lia].
      cbv beta. intros; lia.
    + apply chunk_closed_form_sum; lia.
Qed.

Lemma X1_witness :
  exists plan,
    build_chunk_plan 5 (-3) (-2) 0 = Ok plan
    /\ plan <> []
    /\ Forall (fun take => 1 <= take) plan
    /\ sum_list plan = 5.
Proof.
  apply (proj2 (X1_chunk_plan_zero_dtype 5 (-3) (-2) 0 ltac:(lia))). lia.
Defined.

(** ** [append_chunked_stage] on any plan and any sequence *)

Lemma lookup_chunked_block sb base per enf b (plan : list Z) idx tok :
  0 <= idx ->
  nth_error plan (Z.to_nat idx) = Some tok ->
  lookup (GolangLayout.chunked_block sb base per enf b (enumerate plan)) idx =
  Some (appended (b + idx)
          (GolangLayout.chunk_dep_list base per enf b idx) (sb idx tok)).
Proof.
  intros Hidx Htok. unfold GolangLayout.chunked_block.
  rewrite lookup_map. destruct (Z.ltb_spec idx 0); [lia|].
  rewrite (nth_error_enumerate _ _ _ Htok). cbn [option_map fst snd].
  now rewrite Z2Nat.id by lia.
Qed.

(** X2: for a stage builder that returns a new dict at each call, as the
    lambdas of [build_moe_sequence] do, and dependency values without
    [bool]s, [append_chunked_stage] never raises.  On any sequence it
    appends exactly one stage per entry of the chunk plan (none for an empty
    plan) and returns their positions, which are consecutive from
    [len(sequence)]; the stage of chunk [idx] is the one the stage builder
    returns, stored by [append_stage] with the dependencies computed for
    that chunk. *)
Theorem X2_append_chunked_stage sb (plan : list Z) base per enf seq :
  bool_free base ->
  (forall pcd, per = Some pcd -> Forall bool_free pcd) ->
  exists blk,
    GolangTools.append_chunked_stage sb plan base per enf seq =
    Ok (range_from (len seq) (List.length plan), seq ++ blk)
    /\ len blk = len plan
    /\ forall idx tok,
        0 <= idx ->
        nth_error plan (Z.to_nat idx) = Some tok ->
        lookup (seq ++ blk) (len seq + idx) =
        Some (appended (len seq + idx)
                (GolangLayout.chunk_dep_list (GolangTools._normalize_deps base)
                   per enf (len seq) idx)
                (sb idx tok)).
Proof.
  intros _ _.
  exists (GolangLayout.chunked_block sb (GolangTools._normalize_deps base) per
            enf (len seq) (enumerate plan)).
  split; [|split].
  - unfold GolangTools.append_chunked_stage.
    destruct plan as [|t plan]; [cbn; now rewrite app_nil_r|].
    destruct (GolangProofs.append_chunked_stage_loop sb
                (GolangTools._normalize_deps base) per enf (len seq)
                (t :: plan) 0 seq [] None ltac:(lia) ltac:(lia) eq_refl)
      as [prev' Hloop].
    unfold enumerate. unfold bind. rewrite Hloop. cbn [fst ret app].
    now rewrite Z.add_0_r.
  - rewrite GolangProofs.len_chunked_block. apply len_enumerate.
  - intros idx tok Hidx Htok.
    rewrite (lookup_app_at _ _ _ (len seq)) by lia.
    replace (len seq + idx - len seq) with idx by lia.
    now apply lookup_chunked_block.
Qed.

Lemma X2_witness :
  exists blk,
    GolangTools.append_chunked_stage
      (fun idx tok => [("name", VStr "s"); ("rows", VInt tok)])
      [2; 1] (VInt 0) None false [[("name", VStr "embed")]] =
    Ok (range_from (len [[("name", VStr "embed")]]) (List.length [2; 1]),
        [[("name", VStr "embed")]] ++ blk)
    /\ len blk = len [2; 1]
    /\ forall idx tok,
        0 <= idx ->
        nth_error [2; 1] (Z.to_nat idx) = Some tok ->
        lookup ([[("name", VStr "embed")]] ++ blk)
          (len [[("name", VStr "embed")]] + idx) =
        Some (appended (len [[("name", VStr "embed")]] + idx)
                (GolangLayout.chunk_dep_list
                   (GolangTools._normalize_deps (VInt 0)) None false
                   (len [[("name", VStr "embed")]]) idx)
                [("name", VStr "s"); ("rows", VInt tok)]).
Proof.
  apply (X2_append_chunked_stage
           (fun idx tok => [("name", VStr "s"); ("rows", VInt tok)])
           [2; 1] (VInt 0) None false [[("name", VStr "embed")]]).
  - simpl. exact I.
  - intros pcd H. discriminate H.
Defined.

(** ** The wiring of the per-chunk groups *)

Lemma chunk_dep_list_per base pcd enf b idx v :
  0 <= idx ->
  nth_error pcd (Z.to_nat idx) = Some v ->
  GolangTools._normalize_deps v <> [] ->
  GolangLayout.chunk_dep_list base (Some pcd) enf b idx =
  GolangTools._normalize_deps v
  ++ (if enf && negb (idx =? 0) then [b + idx - 1] else []).
Proof.
  intros Hidx Hv Hne. unfold GolangLayout.chunk_dep_list.
  assert (Z.to_nat idx < List.length pcd)%nat as Hlt
    by (apply nth_error_Some; congruence).
  destruct (Z.ltb_spec idx (len pcd)) as [_|Hge]; [|unfold len in Hge; lia].
  rewrite (nth_error_nth _ _ _ Hv).
  destruct (GolangTools._normalize_deps v) as [|d ds] eqn:E; [contradiction|].
  rewrite andb_false_r. cbn [andb].
  destruct (enf && negb (idx =? 0)); [reflexivity | now rewrite app_nil_r].
Qed.

Lemma chunk_dep_list_base base b idx :
  GolangLayout.chunk_dep_list base None false b idx =
  if idx =? 0 then base else [].
Proof.
  unfold GolangLayout.chunk_dep_list. cbn [andb app].
  destruct (idx =? 0); [|reflexivity].
  destruct base; reflexivity.
Qed.

Lemma nth_error_map_range_from {A} (f : Z -> A) s k (c : Z) :
  0 <= c < Z.of_nat k ->
  nth_error (map f (range_from s k)) (Z.to_nat c) = Some (f (s + c)).
Proof.
  intros Hc. rewrite nth_error_map, nth_error_range_from by lia.
  cbn [option_map]. do 2 f_equal. lia.
Qed.

Module GolangWiring.

Import GolangTools GolangLayout GolangInv GolangProofs GolangIndex.
Import GolangPositions GolangGroups.

Section Wiring.

Variable cl : closure.
Local Abbreviation n := (len (cl_chunk_plan cl)).

Tactic Notation "skip" constr(k) :=
  rewrite (lookup_app_at _ _ _ k) by solve_len.

Ltac norm_deps :=
  unfold VInts; cbn [_normalize_deps ints_of flat_map map app andb negb].

Ltac list_eq :=
  repeat match goal with
         | |- _ :: _ = _ :: _ => apply (f_equal2 cons); [lia|]
         end;
  try reflexivity.

Ltac chunked_at k :=
  rewrite lookup_app_l by solve_len;
  match goal with
  | |- context [lookup (chunked_block ?sb ?base ?per ?enf ?b _) ?i] =>
      replace i with k by lia
  end.

(** The stage of chunk [c] of group [g] of layer [l]. *)
Lemma lookup_group l g c :
  0 <= l -> 0 <= c < n ->
  exists st,
    lookup (layer_block cl (layer_start n l) l) (group_start n g + c) = Some st
    /\ get_str "name" st =
       Some (group_label g ++ "_L" ++ str l ++ "_C" ++ str c)%string
    /\ stage_deps st = group_deps n l g c.
Proof.
  intros Hl Hc. destruct (nth_error_plan cl c Hc) as [tok [Htok _]].
  pose proof (len_nonneg (cl_chunk_plan cl)) as Hn.
  assert (0 < layer_start n l) as Hb by (unfold layer_start; nia).
  set (b := layer_start n l) in *.
  assert (Hcount : Z.of_nat (List.length (cl_chunk_plan cl)) = n)
    by reflexivity.
  unfold layer_block. cbv zeta. fold b.
  destruct g; cbn [group_start group_label];
    skip (3 * n); skip (3 * n); skip (3 * n).
  - chunked_at c.
    rewrite (lookup_chunked_block _ _ _ _ _ _ c tok) by (lia || exact Htok).
    eexists. split; [reflexivity|].
    rewrite appended_with_deps by lia.
    split; [rewrite get_str_with_deps by reflexivity; reflexivity|].
    rewrite stage_deps_with_deps, chunk_dep_list_base.
    unfold group_deps, projection_done, group_index. fold b.
    cbn [projection_start group_start].
    destruct (Z.eqb_spec c 0); list_eq.
  - skip n. chunked_at c.
    rewrite (lookup_chunked_block _ _ _ _ _ _ c tok) by (lia || exact Htok).
    eexists. split; [reflexivity|].
    rewrite appended_with_deps by lia.
    split; [rewrite get_str_with_deps by reflexivity; reflexivity|].
    rewrite stage_deps_with_deps.
    rewrite (chunk_dep_list_per _ _ _ _ _ (VInt (b + 9 * n + c)))
      by (lia || (apply nth_error_map_range_from; lia) || discriminate).
    unfold group_deps, group_index. fold b. cbn [group_start].
    norm_deps; list_eq.
  - skip n. skip n. chunked_at c.
    rewrite (lookup_chunked_block _ _ _ _ _ _ c tok) by (lia || exact Htok).
    eexists. split; [reflexivity|].
    rewrite appended_with_deps by lia.
    split; [rewrite get_str_with_deps by reflexivity; reflexivity|].
    rewrite stage_deps_with_deps.
    rewrite (chunk_dep_list_per _ _ _ _ _
               (VInts [b + 10 * n + c; b + 9 * n - 1]))
      by (lia
          || (unfold range;
              rewrite (nth_error_map_range_from
                         (fun c => VInts [b + 10 * n + c; b + 9 * n - 1]))
                by lia; reflexivity)
          || discriminate).
    unfold group_deps, group_index, projection_done. fold b.
    cbn [group_start projection_start].
    norm_deps; list_eq.
  - skip n. skip n. skip n. skip (3 * n).
    chunked_at c.
    rewrite (lookup_chunked_block _ _ _ _ _ _ c tok) by (lia || exact Htok).
    eexists. split; [reflexivity|].
    rewrite appended_with_deps by lia.
    split; [rewrite get_str_with_deps by reflexivity; reflexivity|].
    rewrite stage_deps_with_deps, chunk_dep_list_base.
    unfold group_deps, projection_done, group_index. fold b.
    cbn [projection_start group_start].
    destruct (Z.eqb_spec c 0); list_eq.
  - skip n. skip n. skip n. skip (3 * n).
    skip n. chunked_at c.
    rewrite (lookup_chunked_block _ _ _ _ _ _ c tok) by (lia || exact Htok).
    eexists. split; [reflexivity|].
    rewrite appended_with_deps by lia.
    split; [rewrite get_str_with_deps by reflexivity; reflexivity|].
    rewrite stage_deps_with_deps.
    rewrite (chunk_dep_list_per _ _ _ _ _ (VInt (b + 15 * n + c)))
      by (lia || (apply nth_error_map_range_from; lia) || discriminate).
    unfold group_deps, group_index. fold b. cbn [group_start].
    norm_deps.
    destruct (Z.eqb_spec c 0); cbn [negb app]; list_eq.
  - skip n. skip n. skip n. skip (3 * n).
    skip n. skip n. skip (3 * n). chunked_at c.
    rewrite (lookup_chunked_block _ _ _ _ _ _ c tok) by (lia || exact Htok).
    eexists. split; [reflexivity|].
    rewrite appended_with_deps by lia.
    split; [rewrite get_str_with_deps by reflexivity; reflexivity|].
    rewrite stage_deps_with_deps.
    rewrite (chunk_dep_list_per _ _ _ _ _ (VInt (b + 17 * n + 3 * c + 2)))
      by (lia
          || (rewrite map_map; unfold range;
              rewrite (nth_error_map_range_from
                         (fun c => VInt (b + 17 * n + 3 * c + 2))) by lia;
              reflexivity)
          || discriminate).
    unfold group_deps, group_index, moe_up_index. fold b. cbn [group_start].
    norm_deps.
    destruct (Z.eqb_spec c 0); cbn [negb app]; list_eq.
  - skip n. skip n. skip n. skip (3 * n).
    skip n. skip n. skip (3 * n). skip n.
    match goal with
    | |- context [lookup (chunked_block ?sb ?base ?per ?enf ?b0 _) ?i] =>
        replace i with c by lia
    end.
    rewrite (lookup_chunked_block _ _ _ _ _ _ c tok) by (lia || exact Htok).
    eexists. split; [reflexivity|].
    rewrite appended_with_deps by lia.
    split; [rewrite get_str_with_deps by reflexivity; reflexivity|].
    rewrite stage_deps_with_deps.
    rewrite (chunk_dep_list_per _ _ _ _ _ (VInt (b + 20 * n + c)))
      by (lia || (apply nth_error_map_range_from; lia) || discriminate).
    unfold group_deps, group_index. fold b. cbn [group_start].
    norm_deps.
    destruct (Z.eqb_spec c 0); cbn [negb app]; list_eq.
Qed.

End Wiring.

End GolangWiring.

Import GolangIndex GolangGroups.

(** X3: in the chunked builder, the stage of chunk [c] of each group of
    layer [l] sits at [group_index] and has exactly the dependencies
    [group_deps]: [softmax] on the same chunk of [attn_score], [attn_mix] on
    the same chunk of [softmax] and on the end of the V projection, the
    gating on the same chunk of [post_attention], the merge on the transfer
    to digital of the same chunk, [postprocess] on the same chunk of the
    merge, the last three also on the chunk before; only chunk 0 of
    [attn_score] depends on the Q and K projections and only chunk 0 of
    [post_attention] on the O projection, their later chunks depend on the
    chunk before. *)
Theorem X3_group_wiring layers hidden_size intermediate_size
    num_experts experts_per_tok seq_length batch dtype_bytes digital_chiplets
    rram_chiplets scale chunk_bytes seq l c g :
  GolangTools.build_moe_sequence layers hidden_size intermediate_size
    num_experts experts_per_tok seq_length batch dtype_bytes digital_chiplets
    rram_chiplets scale chunk_bytes = Ok seq ->
  0 <= l < layers ->
  0 <= c < len (GolangLayout.plan_of hidden_size seq_length batch dtype_bytes
                  chunk_bytes) ->
  exists st,
    lookup seq
      (group_index
         (len (GolangLayout.plan_of hidden_size seq_length batch dtype_bytes
                 chunk_bytes)) l g c) = Some st
    /\ get_str "name" st =
       Some (group_label g ++ "_L" ++ str l ++ "_C" ++ str c)%string
    /\ stage_deps st =
       group_deps
         (len (GolangLayout.plan_of hidden_size seq_length batch dtype_bytes
                 chunk_bytes)) l g c.
Proof.
  intros H Hl Hc. apply golang_build_inv in H. destruct H as [_ ->].
  set (plan := GolangLayout.plan_of hidden_size seq_length batch dtype_bytes
                 chunk_bytes) in *.
  set (cl := GolangLayout.closure_of hidden_size intermediate_size num_experts
               experts_per_tok seq_length batch dtype_bytes digital_chiplets
               rram_chiplets scale plan).
  change (len plan) with (len (GolangTools.cl_chunk_plan cl)) in *.
  set (n := len (GolangTools.cl_chunk_plan cl)) in *.
  destruct (GolangWiring.lookup_group cl l g c ltac:(lia) Hc)
    as (st & Hst & Hname & Hdeps).
  exists st. split; [|split; assumption].
  unfold group_index.
  replace (layer_start n l + group_start n g + c)
    with (layer_start n l + (group_start n g + c)) by lia.
  rewrite GolangPositions.lookup_layer;
    [exact Hst | lia | fold n; destruct g; cbn [group_start]; lia].
Qed.

Lemma X3_witness :
  exists seq,
    GolangTools.build_moe_sequence 1 8 16 2 1 4 1 2 2 3 (fun h => h) 32 = Ok seq
    /\ exists st,
      lookup seq (group_index (len (GolangLayout.plan_of 8 4 1 2 32)) 0
                    AttnScore 1) = Some st
      /\ get_str "name" st =
         Some (group_label AttnScore ++ "_L" ++ str 0 ++ "_C" ++ str 1)%string
      /\ stage_deps st =
         group_deps (len (GolangLayout.plan_of 8 4 1 2 32)) 0 AttnScore 1.
Proof.
  eexists. split; [vm_compute; reflexivity|].
  apply (X3_group_wiring 1 8 16 2 1 4 1 2 2 3 (fun h => h) 32).
  - vm_compute. reflexivity.
  - lia.
  - vm_compute. split; [discriminate | reflexivity].
Defined.

(** ** Transfers go to an RRAM chiplet and come back from it *)

Lemma size_at_plan hidden_size intermediate_size num_experts experts_per_tok
    seq_length batch dtype_bytes digital_chiplets rram_chiplets scale plan
    c tok :
  nth_error plan (Z.to_nat c) = Some tok ->
  GolangLayout.size_at
    (GolangLayout.closure_of hidden_size intermediate_size num_experts
       experts_per_tok seq_length batch dtype_bytes digital_chiplets
       rram_chiplets scale plan) c =
  chunk_bytes_of tok hidden_size dtype_bytes.
Proof.
  intros Htok. unfold GolangLayout.size_at, GolangLayout.closure_of.
  cbn [GolangTools.cl_chunk_byte_plan].
  erewrite nth_error_nth; [reflexivity|].
  rewrite nth_error_map, Htok. reflexivity.
Qed.

Lemma target_at_moe_rram cl rram_chiplets c :
  GolangInv.closure_ok cl ->
  GolangTools.cl_rram_chiplets cl = Z.max rram_chiplets 1 ->
  1 <= GolangTools.cl_num_experts cl ->
  GolangLayout.target_at cl c =
  moe_rram c (GolangTools.cl_experts_per_tok cl) (GolangTools.cl_num_experts cl)
    rram_chiplets.
Proof.
  intros Hok Hrram Hne. unfold GolangLayout.target_at, moe_rram.
  rewrite (GolangProofs.len_expert_chips cl Hok Hne).
  set (i := (c * GolangTools.cl_experts_per_tok cl)
            mod GolangTools.cl_num_experts cl).
  assert (Hi : 0 <= i < GolangTools.cl_num_experts cl)
    by (apply Z.mod_pos_bound; lia).
  rewrite (GolangInv.ok_chips cl Hok).
  erewrite nth_error_nth.
  2: { rewrite nth_error_map, (GolangPositions.nth_error_range _ _ Hi).
       reflexivity. }
  now rewrite Hrram.
Qed.

(** X4: in the chunked builder, chunk [c] of projection [p] of layer [l] is
    three consecutive stages: a transfer to RRAM chiplet
    [projection_rram l p], the [rram_linear] stage on that chiplet, which
    depends on the transfer, and a transfer back from that chiplet, which
    depends on the [rram_linear] stage.  Both transfers are on the side of
    digital chiplet [digitalOwner l c] and move the bytes of the chunk,
    [max(chunk_tokens * hidden_size * dtype_bytes, dtype_bytes)], which is
    the [activation_bytes] of the [rram_linear] stage.  The transfer to RRAM
    depends on the stage just before it: the transfer back of the chunk
    before or, for chunk 0, the last stage before the projection (for Q,
    the end of the previous layer or [embed]). *)
Theorem X4_projection_round_trip layers hidden_size intermediate_size
    num_experts experts_per_tok seq_length batch dtype_bytes digital_chiplets
    rram_chiplets scale chunk_bytes seq l c p :
  GolangTools.build_moe_sequence layers hidden_size intermediate_size
    num_experts experts_per_tok seq_length batch dtype_bytes digital_chiplets
    rram_chiplets scale chunk_bytes = Ok seq ->
  0 <= l < layers ->
  0 <= c < len (GolangLayout.plan_of hidden_size seq_length batch dtype_bytes
                  chunk_bytes) ->
  exists i tok down lin up,
    i = projection_linear_index
          (len (GolangLayout.plan_of hidden_size seq_length batch dtype_bytes
                  chunk_bytes)) l p c
    /\ nth_error
         (GolangLayout.plan_of hidden_size seq_length batch dtype_bytes
            chunk_bytes) (Z.to_nat c) = Some tok
    /\ lookup seq (i - 1) = Some down
    /\ lookup seq i = Some lin
    /\ lookup seq (i + 1) = Some up
    /\ stage_deps down = [i - 2]
    /\ stage_deps lin = [i - 1]
    /\ stage_deps up = [i]
    /\ get_int "chiplet" down = Some (projection_rram l p rram_chiplets)
    /\ get_int "chiplet" lin = Some (projection_rram l p rram_chiplets)
    /\ get_int "queue" up = Some (projection_rram l p rram_chiplets)
    /\ get_int "queue" down = Some (digitalOwner l c digital_chiplets)
    /\ get_int "chiplet" up = Some (digitalOwner l c digital_chiplets)
    /\ get_int "bytes" down = Some (chunk_bytes_of tok hidden_size dtype_bytes)
    /\ get_int "activation_bytes" lin =
       Some (chunk_bytes_of tok hidden_size dtype_bytes)
    /\ get_int "bytes" up = Some (chunk_bytes_of tok hidden_size dtype_bytes).
Proof.
  intros H Hl Hc. apply golang_build_inv in H. destruct H as [_ ->].
  set (plan := GolangLayout.plan_of hidden_size seq_length batch dtype_bytes
                 chunk_bytes) in *.
  set (cl := GolangLayout.closure_of hidden_size intermediate_size num_experts
               experts_per_tok seq_length batch dtype_bytes digital_chiplets
               rram_chiplets scale plan).
  change (len plan) with (len (GolangTools.cl_chunk_plan cl)) in *.
  set (n := len (GolangTools.cl_chunk_plan cl)) in *.
  destruct (GolangPositions.lookup_projection cl (layer_start n l) l p c 0
              ltac:(fold n; lia) ltac:(lia)) as [tok [Htok H0]].
  destruct (GolangPositions.lookup_projection cl (layer_start n l) l p c 1
              ltac:(fold n; lia) ltac:(lia)) as [tok1 [Htok1 H1]].
  destruct (GolangPositions.lookup_projection cl (layer_start n l) l p c 2
              ltac:(fold n; lia) ltac:(lia)) as [tok2 [Htok2 H2]].
  assert (tok1 = tok) as -> by congruence.
  assert (tok2 = tok) as -> by congruence.
  fold n in H0, H1, H2.
  unfold GolangLayout.projection_triple in H0, H1, H2.
  cbn [fst snd] in H0, H1, H2.
  rewrite lookup_triple_0 in H0. rewrite lookup_triple_1 in H1.
  rewrite lookup_triple_2 in H2.
  assert (Hoff : 0 <= projection_start n p /\ projection_start n p + 3 * n <= 22 * n).
  { destruct p; cbn [projection_start]; lia. }
  pose proof (size_at_plan hidden_size intermediate_size num_experts
                experts_per_tok seq_length batch dtype_bytes digital_chiplets
                rram_chiplets scale plan c tok Htok) as Hsize.
  fold cl in Hsize.
  pose proof (GolangLocal.chunk_digital_owner_eq cl digital_chiplets 0 eq_refl
                l c) as Hown.
  unfold projection_linear_index.
  eexists. exists tok. eexists. eexists. eexists.
  split; [reflexivity|]. split; [exact Htok|].
  split.
  { replace (layer_start n l + projection_start n p + 3 * c + 1 - 1)
      with (layer_start n l + (projection_start n p + 3 * c + 0)) by lia.
    rewrite GolangPositions.lookup_layer by (fold n; lia). exact H0. }
  split.
  { replace (layer_start n l + projection_start n p + 3 * c + 1)
      with (layer_start n l + (projection_start n p + 3 * c + 1)) by lia.
    rewrite GolangPositions.lookup_layer by (fold n; lia). exact H1. }
  split.
  { replace (layer_start n l + projection_start n p + 3 * c + 1 + 1)
      with (layer_start n l + (projection_start n p + 3 * c + 2)) by lia.
    rewrite GolangPositions.lookup_layer by (fold n; lia). exact H2. }
  rewrite !stage_deps_with_deps.
  rewrite !get_int_with_deps by reflexivity.
  split; [destruct (Z.eqb_spec c 0); f_equal; lia|].
  split; [f_equal; lia|]. split; [f_equal; lia|].
  unfold get_int, GolangTools.projection_down, GolangTools.projection_linear,
    GolangTools.projection_up.
  cbn [get String.eqb Ascii.eqb Bool.eqb].
  rewrite Hsize, Hown.
  repeat split; destruct p; reflexivity.
Qed.

Lemma X4_witness :
  exists seq,
    GolangTools.build_moe_sequence 2 8 16 2 1 4 1 2 2 3 (fun h => h) 32 = Ok seq
    /\ exists i tok down lin up,
      i = projection_linear_index (len (GolangLayout.plan_of 8 4 1 2 32)) 1
            ProjK 1
      /\ nth_error (GolangLayout.plan_of 8 4 1 2 32) (Z.to_nat 1) = Some tok
      /\ lookup seq (i - 1) = Some down
      /\ lookup seq i = Some lin
      /\ lookup seq (i + 1) = Some up
      /\ stage_deps down = [i - 2]
      /\ stage_deps lin = [i - 1]
      /\ stage_deps up = [i]
      /\ get_int "chiplet" down = Some (projection_rram 1 ProjK 3)
      /\ get_int "chiplet" lin = Some (projection_rram 1 ProjK 3)
      /\ get_int "queue" up = Some (projection_rram 1 ProjK 3)
      /\ get_int "queue" down = Some (digitalOwner 1 1 2)
      /\ get_int "chiplet" up = Some (digitalOwner 1 1 2)
      /\ get_int "bytes" down = Some (chunk_bytes_of tok 8 2)
      /\ get_int "activation_bytes" lin = Some (chunk_bytes_of tok 8 2)
      /\ get_int "bytes" up = Some (chunk_bytes_of tok 8 2).
Proof.
  eexists. split; [vm_compute; reflexivity|].
  apply (X4_projection_round_trip 2 8 16 2 1 4 1 2 2 3 (fun h => h) 32).
  - vm_compute. reflexivity.
  - lia.
  - vm_compute. split; [discriminate | reflexivity].
Defined.

(** X5: in the chunked builder, chunk [c] of the MoE dispatch of layer [l]
    is three consecutive stages: a transfer to RRAM chiplet
    [moe_rram c experts_per_tok num_experts], which depends on the gating
    stage of the same chunk and, after chunk 0, on the transfer back of the
    chunk before; the [moe_linear] stage, which depends on that transfer;
    and a transfer back from the same RRAM chiplet, which depends on the
    [moe_linear] stage.  Both transfers are on the side of digital chiplet
    [digitalOwner l c] and move the bytes of the chunk, which is the
    [activation_bytes] of the [moe_linear] stage. *)
Theorem X5_moe_round_trip layers hidden_size intermediate_size
    num_experts experts_per_tok seq_length batch dtype_bytes digital_chiplets
    rram_chiplets scale chunk_bytes seq l c :
  GolangTools.build_moe_sequence layers hidden_size intermediate_size
    num_experts experts_per_tok seq_length batch dtype_bytes digital_chiplets
    rram_chiplets scale chunk_bytes = Ok seq ->
  0 <= l < layers ->
  0 <= c < len (GolangLayout.plan_of hidden_size seq_length batch dtype_bytes
                  chunk_bytes) ->
  exists n tok down lin up,
    n = len (GolangLayout.plan_of hidden_size seq_length batch dtype_bytes
               chunk_bytes)
    /\ nth_error
         (GolangLayout.plan_of hidden_size seq_length batch dtype_bytes
            chunk_bytes) (Z.to_nat c) = Some tok
    /\ lookup seq (moe_down_index n l c) = Some down
    /\ lookup seq (moe_linear_index n l c) = Some lin
    /\ lookup seq (moe_up_index n l c) = Some up
    /\ stage_deps down =
       group_index n l Gating c
       :: (if c =? 0 then [] else [moe_up_index n l (c - 1)])
    /\ stage_deps lin = [moe_down_index n l c]
    /\ stage_deps up = [moe_linear_index n l c]
    /\ get_int "chiplet" down =
       Some (moe_rram c experts_per_tok num_experts rram_chiplets)
    /\ get_int "queue" up =
       Some (moe_rram c experts_per_tok num_experts rram_chiplets)
    /\ get_int "queue" down = Some (digitalOwner l c digital_chiplets)
    /\ get_int "chiplet" up = Some (digitalOwner l c digital_chiplets)
    /\ get_int "bytes" down = Some (chunk_bytes_of tok hidden_size dtype_bytes)
    /\ get_int "activation_bytes" lin =
       Some (chunk_bytes_of tok hidden_size dtype_bytes)
    /\ get_int "bytes" up = Some (chunk_bytes_of tok hidden_size dtype_bytes).
Proof.
  intros H Hl Hc. apply golang_build_inv in H. destruct H as [Hne ->].
  assert (1 <= num_experts) as Hne' by lia. clear Hne.
  set (plan := GolangLayout.plan_of hidden_size seq_length batch dtype_bytes
                 chunk_bytes) in *.
  set (cl := GolangLayout.closure_of hidden_size intermediate_size num_experts
               experts_per_tok seq_length batch dtype_bytes digital_chiplets
               rram_chiplets scale plan).
  change (len plan) with (len (GolangTools.cl_chunk_plan cl)) in *.
  set (n := len (GolangTools.cl_chunk_plan cl)) in *.
  destruct (GolangPositions.lookup_moe cl (layer_start n l) l c 0
              ltac:(fold n; lia) ltac:(lia)) as [tok [Htok H0]].
  destruct (GolangPositions.lookup_moe cl (layer_start n l) l c 1
              ltac:(fold n; lia) ltac:(lia)) as [tok1 [Htok1 H1]].
  destruct (GolangPositions.lookup_moe cl (layer_start n l) l c 2
              ltac:(fold n; lia) ltac:(lia)) as [tok2 [Htok2 H2]].
  assert (tok1 = tok) as -> by congruence.
  assert (tok2 = tok) as -> by congruence.
  fold n in H0, H1, H2.
  unfold GolangLayout.moe_triple in H0, H1, H2.
  cbn [fst snd] in H0, H1, H2.
  rewrite lookup_triple_0 in H0. rewrite lookup_triple_1 in H1.
  rewrite lookup_triple_2 in H2.
  pose proof (size_at_plan hidden_size intermediate_size num_experts
                experts_per_tok seq_length batch dtype_bytes digital_chiplets
                rram_chiplets scale plan c tok Htok) as Hsize.
  fold cl in Hsize.
  pose proof (GolangLocal.chunk_digital_owner_eq cl digital_chiplets 0 eq_refl
                l c) as Hown.
  pose proof (target_at_moe_rram cl rram_chiplets c
                (GolangProofs.closure_of_ok _ _ _ _ _ _ _ _ _ _ _)
                eq_refl Hne') as Htarget.
  change (GolangTools.cl_experts_per_tok cl) with experts_per_tok in Htarget.
  change (GolangTools.cl_num_experts cl) with num_experts in Htarget.
  exists n, tok. eexists. eexists. eexists.
  split; [reflexivity|]. split; [exact Htok|].
  unfold moe_down_index, moe_linear_index, moe_up_index, group_index.
  cbn [group_start].
  split.
  { replace (layer_start n l + 17 * n + 3 * c)
      with (layer_start n l + (17 * n + 3 * c + 0)) by lia.
    rewrite GolangPositions.lookup_layer by (fold n; lia). exact H0. }
  split.
  { replace (layer_start n l + 17 * n + 3 * c + 1)
      with (layer_start n l + (17 * n + 3 * c + 1)) by lia.
    rewrite GolangPositions.lookup_layer by (fold n; lia). exact H1. }
  split.
  { replace (layer_start n l + 17 * n + 3 * c + 2)
      with (layer_start n l + (17 * n + 3 * c + 2)) by lia.
    rewrite GolangPositions.lookup_layer by (fold n; lia). exact H2. }
  rewrite !stage_deps_with_deps.
  rewrite !get_int_with_deps by reflexivity.
  split.
  { cbn [app]. apply (f_equal2 cons); [lia|].
    destruct (Z.eqb_spec c 0); [reflexivity|]. f_equal. lia. }
  split; [f_equal; lia|]. split; [f_equal; lia|].
  unfold get_int, GolangTools.moe_down, GolangTools.moe_linear,
    GolangTools.moe_up.
  cbn [get String.eqb Ascii.eqb Bool.eqb].
  rewrite Hsize, Hown, Htarget.
  repeat split; reflexivity.
Qed.

Lemma X5_witness :
  exists seq,
    GolangTools.build_moe_sequence 1 8 16 2 1 4 1 2 2 3 (fun h => h) 32 = Ok seq
    /\ exists n tok down lin up,
      n = len (GolangLayout.plan_of 8 4 1 2 32)
      /\ nth_error (GolangLayout.plan_of 8 4 1 2 32) (Z.to_nat 1) = Some tok
      /\ lookup seq (moe_down_index n 0 1) = Some down
      /\ lookup seq (moe_linear_index n 0 1) = Some lin
      /\ lookup seq (moe_up_index n 0 1) = Some up
      /\ stage_deps down =
         group_index n 0 Gating 1
         :: (if 1 =? 0 then [] else [moe_up_index n 0 (1 - 1)])
      /\ stage_deps lin = [moe_down_index n 0 1]
      /\ stage_deps up = [moe_linear_index n 0 1]
      /\ get_int "chiplet" down = Some (moe_rram 1 1 2 3)
      /\ get_int "queue" up = Some (moe_rram 1 1 2 3)
      /\ get_int "queue" down = Some (digitalOwner 0 1 2)
      /\ get_int "chiplet" up = Some (digitalOwner 0 1 2)
      /\ get_int "bytes" down = Some (chunk_bytes_of tok 8 2)
      /\ get_int "activation_bytes" lin = Some (chunk_bytes_of tok 8 2)
      /\ get_int "bytes" up = Some (chunk_bytes_of tok 8 2).
Proof.
  eexists. split; [vm_compute; reflexivity|].
  apply (X5_moe_round_trip 1 8 16 2 1 4 1 2 2 3 (fun h => h) 32).
  - vm_compute. reflexivity.
  - lia.
  - vm_compute. split; [discriminate | reflexivity].
Defined.

(** ** When the builders return, and how many stages *)

Lemma len_flat_map_const {A B} (f : A -> list B) (L : Z) (l : list A) :
  (forall a, len (f a) = L) -> len (flat_map f l) = L * len l.
Proof.
  intros Hf. induction l as [|a l IH]; [cbn; lia|].
  cbn [flat_map]. rewrite len_app, len_cons, Hf, IH. lia.
Qed.

Lemma len_golang_layout cl tokens layers :
  len (GolangLayout.layout cl tokens layers) =
  1 + 22 * len (GolangTools.cl_chunk_plan cl) * Z.max layers 0.
Proof.
  unfold GolangLayout.layout. rewrite len_cons.
  rewrite (len_flat_map_const _ (22 * len (GolangTools.cl_chunk_plan cl)))
    by (intros; apply GolangProofs.len_layer_block).
  rewrite len_range. lia.
Qed.

Lemma len_tools_layout lc seq_length batch dtype_bytes layers :
  len (ToolsLayout.layout lc seq_length batch dtype_bytes layers) =
  3 + ToolsLayout.layer_size lc * Z.max layers 0.
Proof.
  unfold ToolsLayout.layout. rewrite !len_app.
  rewrite (len_flat_map_const _ (ToolsLayout.layer_size lc))
    by (intros; apply ToolsProofs.tools_len_layer_block).
  rewrite len_range, !len_cons.
  change (len (@nil dict)) with 0. lia.
Qed.

(** X6: the chunked builder does not return when [num_experts <= 0] and
    there is at least one layer (the MoE target is taken modulo the number
    of experts, which raises [ZeroDivisionError]); a sequence that it
    returns is [embed], without dependencies, followed by 22 stages per
    chunk and layer. *)
Theorem X6_chunked_builder_returns layers hidden_size intermediate_size
    num_experts experts_per_tok seq_length batch dtype_bytes digital_chiplets
    rram_chiplets scale chunk_bytes seq :
  GolangTools.build_moe_sequence layers hidden_size intermediate_size
    num_experts experts_per_tok seq_length batch dtype_bytes digital_chiplets
    rram_chiplets scale chunk_bytes = Ok seq ->
  (1 <= num_experts \/ layers <= 0)
  /\ len seq =
     1 + 22 * len (GolangLayout.plan_of hidden_size seq_length batch
                     dtype_bytes chunk_bytes) * Z.max layers 0
  /\ exists st, lookup seq 0 = Some st
                /\ get_str "name" st = Some "embed"
                /\ stage_deps st = [].
Proof.
  intros H. apply golang_build_inv in H. destruct H as [Hcase ->].
  split; [exact Hcase|].
  split; [apply len_golang_layout|].
  eexists. split; [reflexivity|]. split; reflexivity.
Qed.

Lemma X6_witness :
  exists seq,
    GolangTools.build_moe_sequence 1 8 16 2 1 4 1 2 2 3 (fun h => h) 32
    = Ok seq
    /\ (1 <= 2 \/ 1 <= 0)
    /\ len seq = 1 + 22 * len (GolangLayout.plan_of 8 4 1 2 32) * Z.max 1 0
    /\ exists st, lookup seq 0 = Some st
                  /\ get_str "name" st = Some "embed"
                  /\ stage_deps st = [].
Proof.
  eexists. split; [vm_compute; reflexivity|].
  apply (X6_chunked_builder_returns 1 8 16 2 1 4 1 2 2 3 (fun h => h) 32).
  vm_compute. reflexivity.
Defined.

(** ** The unchunked builder emits one chain *)

Lemma block_chain_nil b : block_chain b [].
Proof. intros k st H. now rewrite lookup_nil in H. Qed.

Lemma block_chain_cons b d st blk :
  d = b - 1 ->
  block_chain (b + 1) blk ->
  block_chain b (with_deps [d] st :: blk).
Proof.
  intros -> Hblk k st' Hk. rewrite lookup_cons in Hk.
  destruct (Z.eqb_spec k 0) as [->|Hne].
  - injection Hk as <-. rewrite stage_deps_with_deps. f_equal. lia.
  - rewrite (Hblk (k - 1) st' Hk). f_equal. lia.
Qed.

Lemma block_chain_app b b' A B :
  block_chain b A -> b' = b + len A -> block_chain b' B ->
  block_chain b (A ++ B).
Proof.
  intros HA -> HB k st Hk.
  destruct (Z_lt_ge_dec k (len A)) as [Hlt|Hge].
  - rewrite lookup_app_l in Hk by lia. auto.
  - rewrite lookup_app_r in Hk by lia.
    rewrite (HB _ _ Hk). f_equal. lia.
Qed.

Lemma tools_chunk_block_chain lc b l :
  forall k c0,
    block_chain (b + 3 * c0)
      (flat_map (ToolsLayout.chunk_triple lc b (b - 1) l) (range_from c0 k)).
Proof.
  induction k as [|k IH]; intros c0.
  - apply block_chain_nil.
  - cbn [range_from flat_map]. unfold ToolsLayout.chunk_triple at 1.
    cbn [app].
    apply block_chain_cons; [destruct (Z.eqb_spec c0 0); lia|].
    apply block_chain_cons; [lia|].
    apply block_chain_cons; [lia|].
    replace (b + 3 * c0 + 1 + 1 + 1) with (b + 3 * (c0 + 1)) by lia.
    apply IH.
Qed.

Lemma tools_layer_block_chain lc b l :
  block_chain b (ToolsLayout.layer_block lc b l).
Proof.
  unfold ToolsLayout.layer_block. cbv zeta. cbn [app].
  apply block_chain_cons; [lia|].
  apply block_chain_cons; [lia|].
  apply block_chain_cons; [lia|].
  apply (block_chain_app _ (b + 3 + 3 * ToolsLayout.num_chunks lc)).
  - replace (b + 1 + 1 + 1) with (b + 3 + 3 * 0) by lia.
    replace (b + 2) with (b + 3 - 1) by lia.
    unfold range. apply tools_chunk_block_chain.
  - rewrite ToolsProofs.len_chunk_block, len_range.
    pose proof (ToolsProofs.num_chunks_pos lc). lia.
  - apply block_chain_cons; [lia|].
    apply block_chain_cons; [lia|].
    apply block_chain_nil.
Qed.

Lemma tools_layers_chain lc :
  forall k l0,
    block_chain (2 + ToolsLayout.layer_size lc * l0)
      (flat_map
         (fun l => ToolsLayout.layer_block lc
                     (2 + ToolsLayout.layer_size lc * l) l)
         (range_from l0 k)).
Proof.
  induction k as [|k IH]; intros l0.
  - apply block_chain_nil.
  - cbn [range_from flat_map].
    apply (block_chain_app _ (2 + ToolsLayout.layer_size lc * (l0 + 1))).
    + apply tools_layer_block_chain.
    + rewrite ToolsProofs.tools_len_layer_block. lia.
    + apply IH.
Qed.

(** The stages after the host load. *)
Lemma tools_layout_chain lc seq_length batch dtype_bytes layers tail :
  tail =
  with_deps [0]
    (Tools.embed (Tools.lc_tokens lc) (Tools.lc_hidden_size lc)
       (Tools.lc_digital_latency_base lc))
  :: flat_map
       (fun l => ToolsLayout.layer_block lc
                   (2 + ToolsLayout.layer_size lc * l) l)
       (range layers)
     ++ [with_deps [2 + ToolsLayout.layer_size lc * Z.max layers 0 - 1]
           (Tools.store_logits (Tools.lc_activation_bytes_total lc)
              (ToolsLayout.host_load_latency lc) (Tools.lc_hidden_size lc)
              batch seq_length (Z.max dtype_bytes 1))] ->
  block_chain 1 tail.
Proof.
  intros ->.
  apply block_chain_cons; [lia|].
  apply (block_chain_app _ (2 + ToolsLayout.layer_size lc * Z.max layers 0)).
  - unfold range.
    replace (1 + 1) with (2 + ToolsLayout.layer_size lc * 0) by lia.
    apply tools_layers_chain.
  - unfold range. rewrite ToolsProofs.tools_len_layers.
    replace (Z.of_nat (Z.to_nat layers)) with (Z.max layers 0) by lia. lia.
  - apply block_chain_cons; [lia | apply block_chain_nil].
Qed.

(** X7: the graph of a sequence that the unchunked builder returns is one
    chain: the first stage has no dependencies, and every other stage
    depends on the stage just before it and on nothing else.  The sequence
    is the host load, [embed], [5 + 3 * num_chunks] stages per layer and
    the host store, where
    [num_chunks = max(ceil(activation_bytes_total / chunk_bytes), 1)] is
    the ceiling of the exact quotient as long as both operands are below
    [2^53]: the code divides in double precision. *)
Theorem X7_unchunked_builder_is_a_chain layers hidden_size intermediate_size
    num_experts experts_per_tok seq_length batch dtype_bytes digital_chiplets
    rram_chiplets scale chunk_bytes seq :
  Tools.build_moe_sequence layers hidden_size intermediate_size
    num_experts experts_per_tok seq_length batch dtype_bytes
    digital_chiplets rram_chiplets scale chunk_bytes = Ok seq ->
  (forall i st,
      lookup seq i = Some st ->
      stage_deps st = if i =? 0 then [] else [i - 1])
  /\ (Z.abs (seq_length * batch * hidden_size * Z.max dtype_bytes 1)
      < double_bound ->
      Z.max chunk_bytes (Z.max dtype_bytes 1) < double_bound ->
      len seq =
      3 + (5 + 3 * ToolsLayout.num_chunks
                     (ToolsLayout.locals_of hidden_size intermediate_size
                        num_experts experts_per_tok seq_length batch
                        dtype_bytes digital_chiplets rram_chiplets scale
                        chunk_bytes))
          * Z.max layers 0).
Proof.
  intros H. rewrite ToolsProofs.tools_build_moe_sequence_layout in H.
  injection H as <-. split.
  - intros i st Hi. unfold ToolsLayout.layout in Hi. cbv zeta in Hi.
    cbn [app] in Hi. rewrite lookup_cons in Hi.
    destruct (Z.eqb_spec i 0) as [->|Hne].
    + injection Hi as <-. apply stage_deps_with_deps.
    + pose proof (lookup_bounds _ _ _ Hi) as Hb.
      rewrite (tools_layout_chain _ seq_length batch dtype_bytes layers _
                 eq_refl (i - 1) st Hi).
      f_equal. lia.
  - intros _ _. apply len_tools_layout.
Qed.

Lemma X7_witness :
  exists seq,
    Tools.build_moe_sequence 1 8 16 2 1 5 1 2 2 3 (fun h => h) 32 = Ok seq
    /\ (forall i st,
           lookup seq i = Some st ->
           stage_deps st = if i =? 0 then [] else [i - 1])
    /\ (Z.abs (5 * 1 * 8 * Z.max 2 1) < double_bound ->
        Z.max 32 (Z.max 2 1) < double_bound ->
        len seq =
        3 + (5 + 3 * ToolsLayout.num_chunks
                       (ToolsLayout.locals_of 8 16 2 1 5 1 2 2 3 (fun h => h)
                          32))
            * Z.max 1 0).
Proof.
  eexists. split; [vm_compute; reflexivity|].
  apply (X7_unchunked_builder_is_a_chain 1 8 16 2 1 5 1 2 2 3 (fun h => h) 32).
  vm_compute. reflexivity.
Defined.

(** ** The chunks of the unchunked builder cover the activations *)

Lemma ceil_div_bounds a b :
  0 < b -> b * (ceil_div a b - 1) < a <= b * ceil_div a b.
Proof.
  intros Hb. unfold ceil_div.
  pose proof (Z.div_mod (- a) b ltac:(lia)).
  pose proof (Z.mod_pos_bound (- a) b Hb). nia.
Qed.

Module ToolsPositions.

Import Tools ToolsLayout ToolsProofs ToolsIndex.

Section Positions.

Variable lc : locals.
Local Abbreviation m := (num_chunks lc).

Lemma lookup_tools_layer seq_length batch dtype_bytes layers l off :
  0 <= l < layers -> 0 <= off < layer_size lc ->
  lookup (layout lc seq_length batch dtype_bytes layers)
    (layer_start m l + off) =
  lookup (layer_block lc (layer_start m l) l) off.
Proof.
  intros Hl Hoff. unfold layout, layer_start. cbv zeta.
  pose proof (num_chunks_pos lc) as Hm.
  unfold layer_size in *.
  change ([?a; ?b] ++ ?X) with (a :: b :: X).
  rewrite !lookup_cons.
  destruct (Z.eqb_spec (2 + (5 + 3 * m) * l + off) 0) as [E|E]; [nia|].
  destruct (Z.eqb_spec (2 + (5 + 3 * m) * l + off - 1) 0) as [E'|E']; [nia|].
  clear E E'.
  rewrite lookup_app_l.
  2: { rewrite (len_flat_map_const _ (5 + 3 * m))
         by (intros; apply tools_len_layer_block).
       rewrite len_range. nia. }
  replace (2 + (5 + 3 * m) * l + off - 1 - 1)
    with ((5 + 3 * m) * Z.of_nat (Z.to_nat l) + off) by lia.
  apply (lookup_flat_map
           (fun l0 => layer_block lc (2 + (5 + 3 * m) * l0) l0) (5 + 3 * m)).
  - intros a. apply tools_len_layer_block.
  - apply GolangPositions.nth_error_range. exact Hl.
  - exact Hoff.
Qed.

Lemma lookup_tools_chunk b l c j :
  0 <= c < m -> 0 <= j < 3 ->
  lookup (layer_block lc b l) (3 + 3 * c + j) =
  lookup (chunk_triple lc (b + 3) (b + 2) l c) j.
Proof.
  intros Hc Hj. unfold layer_block. cbv zeta.
  change ([?x; ?y; ?z] ++ ?X) with (x :: y :: z :: X).
  rewrite !lookup_cons.
  destruct (Z.eqb_spec (3 + 3 * c + j) 0); [lia|].
  destruct (Z.eqb_spec (3 + 3 * c + j - 1) 0); [lia|].
  destruct (Z.eqb_spec (3 + 3 * c + j - 1 - 1) 0); [lia|].
  rewrite lookup_app_l by (rewrite len_chunk_block, len_range; lia).
  replace (3 + 3 * c + j - 1 - 1 - 1)
    with (3 * Z.of_nat (Z.to_nat c) + j) by lia.
  apply (lookup_flat_map _ 3).
  - intros a. reflexivity.
  - apply GolangPositions.nth_error_range. exact Hc.
  - exact Hj.
Qed.

Lemma sum_chunk_sizes_prefix (k : nat) :
  Z.of_nat k <= m - 1 ->
  sum_list (map (chunk_size_at lc) (range_from 0 k)) =
  lc_chunk_bytes lc * Z.of_nat k.
Proof.
  induction k as [|k IH]; intros Hk; [cbn; lia|].
  rewrite range_from_snoc, map_app, sum_list_app, IH by lia.
  cbn [map sum_list fold_right]. unfold chunk_size_at.
  destruct (Z.ltb_spec (0 + Z.of_nat k) (m - 1)); lia.
Qed.

Lemma sum_chunk_sizes :
  sum_list (map (chunk_size_at lc) (range m)) = lc_activation_bytes_total lc.
Proof.
  pose proof (num_chunks_pos lc) as Hm. unfold range.
  replace (Z.to_nat m) with (S (Z.to_nat (m - 1))) by lia.
  rewrite range_from_snoc, map_app, sum_list_app.
  rewrite sum_chunk_sizes_prefix by lia.
  cbn [map sum_list fold_right]. unfold chunk_size_at.
  rewrite !Z2Nat.id by lia.
  destruct (Z.ltb_spec (0 + (m - 1)) (m - 1)); lia.
Qed.

Lemma chunk_size_bounds c :
  1 <= lc_chunk_bytes lc ->
  1 <= lc_activation_bytes_total lc ->
  0 <= c < m ->
  1 <= chunk_size_at lc c <= lc_chunk_bytes lc.
Proof.
  intros Hcb Hact Hc. unfold chunk_size_at.
  pose proof (ceil_div_bounds (lc_activation_bytes_total lc)
                (lc_chunk_bytes lc) ltac:(lia)) as Hceil.
  assert (m = ceil_div (lc_activation_bytes_total lc) (lc_chunk_bytes lc))
    as Hm.
  { unfold num_chunks. apply Z.max_l. nia. }
  destruct (Z.ltb_spec c (m - 1)); [lia|].
  rewrite <- Hm in Hceil. nia.
Qed.

End Positions.

End ToolsPositions.


(** X8: in a sequence that the unchunked builder returns, the chunks of a
    layer cover the activations: the [bytes] of the transfers to RRAM of a
    layer, which are also the [activation_bytes] of the [moe_linear] stages
    and the [bytes] of the transfers back, sum to
    [seq_length * batch * hidden_size * max(dtype_bytes, 1)]; when that
    total is positive, every chunk has between 1 and
    [max(chunk_bytes, dtype_bytes, 1)] bytes.  The number of chunks is the
    ceiling of the exact quotient as long as the activation bytes and the
    chunk size are below [2^53]: the code divides in double precision. *)
Theorem X8_unchunked_chunks_cover layers hidden_size intermediate_size
    num_experts experts_per_tok seq_length batch dtype_bytes digital_chiplets
    rram_chiplets scale chunk_bytes seq l :
  Tools.build_moe_sequence layers hidden_size intermediate_size
    num_experts experts_per_tok seq_length batch dtype_bytes
    digital_chiplets rram_chiplets scale chunk_bytes = Ok seq ->
  0 <= l < layers ->
  Z.abs (seq_length * batch * hidden_size * Z.max dtype_bytes 1)
  < double_bound ->
  Z.max chunk_bytes (Z.max dtype_bytes 1) < double_bound ->
  exists m sizes,
    m = ToolsLayout.num_chunks
          (ToolsLayout.locals_of hidden_size intermediate_size num_experts
             experts_per_tok seq_length batch dtype_bytes digital_chiplets
             rram_chiplets scale chunk_bytes)
    /\ len sizes = m
    /\ sum_list sizes =
       seq_length * batch * hidden_size * Z.max dtype_bytes 1
    /\ (1 <= seq_length * batch * hidden_size * Z.max dtype_bytes 1 ->
        Forall (fun size =>
                  1 <= size <= Z.max chunk_bytes (Z.max dtype_bytes 1))
          sizes)
    /\ forall c size,
        0 <= c ->
        nth_error sizes (Z.to_nat c) = Some size ->
        exists down lin up,
          lookup seq (ToolsIndex.transfer_down_index m l c) = Some down
          /\ lookup seq (ToolsIndex.moe_linear_index m l c) = Some lin
          /\ lookup seq (ToolsIndex.transfer_up_index m l c) = Some up
          /\ get_str "name" down =
             Some ("transfer_to_rram_L" ++ str l ++ "_C" ++ str c)%string
          /\ get_str "name" lin =
             Some ("moe_L" ++ str l ++ "_C" ++ str c)%string
          /\ get_str "name" up =
             Some ("transfer_to_digital_L" ++ str l ++ "_C" ++ str c)%string
          /\ get_int "bytes" down = Some size
          /\ get_int "activation_bytes" lin = Some size
          /\ get_int "bytes" up = Some size.
Proof.
  intros H Hl _ _.
  rewrite ToolsProofs.tools_build_moe_sequence_layout in H.
  injection H as <-.
  set (lc := ToolsLayout.locals_of hidden_size intermediate_size num_experts
               experts_per_tok seq_length batch dtype_bytes digital_chiplets
               rram_chiplets scale chunk_bytes).
  pose proof (ToolsProofs.num_chunks_pos lc) as Hm.
  exists (ToolsLayout.num_chunks lc).
  exists (map (ToolsLayout.chunk_size_at lc)
            (range (ToolsLayout.num_chunks lc))).
  split; [reflexivity|].
  split; [rewrite len_map, len_range; lia|].
  split; [apply (ToolsPositions.sum_chunk_sizes lc)|].
  split.
  { intros Hact. apply Forall_forall. intros size Hin.
    apply in_map_iff in Hin. destruct Hin as [c [<- Hc]].
    apply in_range in Hc.
    apply (ToolsPositions.chunk_size_bounds lc c); [| exact Hact | exact Hc].
    change (1 <= Z.max chunk_bytes (Z.max dtype_bytes 1)). lia. }
  intros c size Hc Hsize.
  rewrite nth_error_map in Hsize.
  destruct (nth_error (range (ToolsLayout.num_chunks lc)) (Z.to_nat c))
    as [c'|] eqn:E; [|discriminate].
  pose proof (nth_error_In _ _ E) as Hin. apply in_range in Hin.
  apply nth_error_range_inv in E. rewrite Z2Nat.id in E by lia. subst c'.
  injection Hsize as <-.
  unfold ToolsIndex.transfer_down_index, ToolsIndex.moe_linear_index, ToolsIndex.transfer_up_index.
  assert (Hsz : ToolsLayout.layer_size lc = 5 + 3 * ToolsLayout.num_chunks lc)
    by reflexivity.
  eexists. eexists. eexists.
  split.
  { replace (ToolsIndex.layer_start (ToolsLayout.num_chunks lc) l + 3 + 3 * c)
      with (ToolsIndex.layer_start (ToolsLayout.num_chunks lc) l + (3 + 3 * c + 0))
      by lia.
    rewrite ToolsPositions.lookup_tools_layer by lia.
    rewrite ToolsPositions.lookup_tools_chunk by lia.
    reflexivity. }
  split.
  { replace (ToolsIndex.layer_start (ToolsLayout.num_chunks lc) l + 3 + 3 * c + 1)
      with (ToolsIndex.layer_start (ToolsLayout.num_chunks lc) l + (3 + 3 * c + 1))
      by lia.
    rewrite ToolsPositions.lookup_tools_layer by lia.
    rewrite ToolsPositions.lookup_tools_chunk by lia.
    reflexivity. }
  split.
  { replace (ToolsIndex.layer_start (ToolsLayout.num_chunks lc) l + 3 + 3 * c + 2)
      with (ToolsIndex.layer_start (ToolsLayout.num_chunks lc) l + (3 + 3 * c + 2))
      by lia.
    rewrite ToolsPositions.lookup_tools_layer by lia.
    rewrite ToolsPositions.lookup_tools_chunk by lia.
    reflexivity. }
  repeat split; reflexivity.
Qed.

Lemma X8_witness :
  exists seq,
    Tools.build_moe_sequence 1 8 16 2 1 5 1 2 2 3 (fun h => h) 32 = Ok seq
    /\ exists m sizes,
      m = ToolsLayout.num_chunks
            (ToolsLayout.locals_of 8 16 2 1 5 1 2 2 3 (fun h => h) 32)
      /\ len sizes = m
      /\ sum_list sizes = 5 * 1 * 8 * Z.max 2 1
      /\ (1 <= 5 * 1 * 8 * Z.max 2 1 ->
          Forall (fun size => 1 <= size <= Z.max 32 (Z.max 2 1)) sizes)
      /\ forall c size,
          0 <= c ->
          nth_error sizes (Z.to_nat c) = Some size ->
          exists down lin up,
            lookup seq (ToolsIndex.transfer_down_index m 0 c) = Some down
            /\ lookup seq (ToolsIndex.moe_linear_index m 0 c) = Some lin
            /\ lookup seq (ToolsIndex.transfer_up_index m 0 c) = Some up
            /\ get_str "name" down =
               Some ("transfer_to_rram_L" ++ str 0 ++ "_C" ++ str c)%string
            /\ get_str "name" lin =
               Some ("moe_L" ++ str 0 ++ "_C" ++ str c)%string
            /\ get_str "name" up =
               Some ("transfer_to_digital_L" ++ str 0 ++ "_C" ++ str c)%string
            /\ get_int "bytes" down = Some size
            /\ get_int "activation_bytes" lin = Some size
            /\ get_int "bytes" up = Some size.
Proof.
  eexists. split; [vm_compute; reflexivity|].
  apply (X8_unchunked_chunks_cover 1 8 16 2 1 5 1 2 2 3 (fun h => h) 32).
  - vm_compute. reflexivity.
  - lia.
  - vm_compute. reflexivity.
  - vm_compute. reflexivity.
Defined.

(** ** The chunks of the chunked builder and the byte budget *)

Lemma sum_chunk_bytes hidden_size dtype_bytes (plan : list Z) :
  0 < hidden_size ->
  Forall (fun tok => 1 <= tok) plan ->
  sum_list (map (fun tok => chunk_bytes_of tok hidden_size dtype_bytes) plan) =
  sum_list plan * hidden_size * Z.max dtype_bytes 1.
Proof.
  intros Hh Hall. induction Hall as [|tok plan Htok _ IH]; [reflexivity|].
  cbn [map sum_list fold_right]. fold (sum_list plan).
  fold (sum_list (map (fun tok => chunk_bytes_of tok hidden_size dtype_bytes)
                    plan)).
  rewrite IH. unfold chunk_bytes_of. cbv zeta.
  set (dt := Z.max dtype_bytes 1).
  assert (1 <= dt) as Hdt by (unfold dt; lia).
  assert (1 <= tok * hidden_size) by nia.
  assert (dt <= tok * hidden_size * dt) by nia.
  rewrite Z.max_l by lia. ring.
Qed.

(** X9: for a positive number of tokens and a positive hidden size, the
    chunk plan that the chunked builder uses is the planner's plan for the
    clamped [dtype_bytes] and [chunk_bytes]; the entries of
    [chunk_byte_plan] sum to the bytes of all activations,
    [tokens * hidden_size * dtype_bytes], and a chunk is larger than
    [chunk_bytes] only when the activations of a single token are: every
    entry is at most [max(chunk_bytes, hidden_size * dtype_bytes)]. *)
Theorem X9_chunk_bytes_within_budget hidden_size seq_length batch dtype_bytes
    chunk_bytes :
  0 < seq_length * batch ->
  0 < hidden_size ->
  build_chunk_plan (seq_length * batch) hidden_size (Z.max dtype_bytes 1)
    (Z.max chunk_bytes (Z.max dtype_bytes 1)) =
  Ok (GolangLayout.plan_of hidden_size seq_length batch dtype_bytes chunk_bytes)
  /\ sum_list
       (map (fun tok => chunk_bytes_of tok hidden_size dtype_bytes)
          (GolangLayout.plan_of hidden_size seq_length batch dtype_bytes
             chunk_bytes)) =
     seq_length * batch * hidden_size * Z.max dtype_bytes 1
  /\ Forall
       (fun tok =>
          1 <= tok
          /\ chunk_bytes_of tok hidden_size dtype_bytes <=
             Z.max (Z.max chunk_bytes (Z.max dtype_bytes 1))
               (hidden_size * Z.max dtype_bytes 1))
       (GolangLayout.plan_of hidden_size seq_length batch dtype_bytes
          chunk_bytes).
Proof.
  intros Ht Hh.
  set (dt := Z.max dtype_bytes 1). set (cb := Z.max chunk_bytes dt).
  assert (1 <= dt) as Hdt by (unfold dt; lia).
  assert (1 <= cb) as Hcb by (unfold cb; lia).
  assert (Hplan :
    GolangLayout.plan_of hidden_size seq_length batch dtype_bytes chunk_bytes =
    chunk_closed_form (Z.max (cb / (hidden_size * dt)) 1) (seq_length * batch)).
  { unfold GolangLayout.plan_of. cbv zeta. fold dt. fold cb.
    destruct (Z.leb_spec (seq_length * batch) 0); [lia|].
    replace (Z.max (hidden_size * dt) dt) with (hidden_size * dt) by nia.
    reflexivity. }
  rewrite Hplan.
  set (tpc := Z.max (cb / (hidden_size * dt)) 1).
  pose proof (chunk_closed_form_pos tpc (seq_length * batch) ltac:(lia)
                ltac:(lia)) as Hpos.
  split; [|split].
  - rewrite build_chunk_plan_closed by lia.
    replace (Z.max (hidden_size * dt) dt) with (hidden_size * dt) by nia.
    reflexivity.
  - rewrite sum_chunk_bytes.
    + rewrite chunk_closed_form_sum by lia. reflexivity.
    + exact Hh.
    + eapply Forall_impl; [|exact Hpos]. cbv beta. intros; lia.
  - eapply Forall_impl; [|exact Hpos]. cbv beta. intros tok Htok.
    split; [lia|]. unfold chunk_bytes_of. cbv zeta. fold dt. fold cb.
    assert (0 < hidden_size * dt) as Hptb by nia.
    assert (1 <= tok * hidden_size) by nia.
  assert (dt <= tok * hidden_size * dt) by nia.
    rewrite (Z.max_l (tok * hidden_size * dt)) by lia.
    assert (tok * hidden_size * dt <= tpc * (hidden_size * dt)) by nia.
    assert (tpc * (hidden_size * dt) <= Z.max cb (hidden_size * dt)).
    { unfold tpc.
      pose proof (Z.mul_div_le cb (hidden_size * dt) Hptb).
      pose proof (Z.div_pos cb (hidden_size * dt) ltac:(lia) Hptb).
      destruct (Z.max_spec (cb / (hidden_size * dt)) 1) as [[_ ->]|[_ ->]];
        lia. }
    nia.
Qed.

Lemma X9_witness :
  build_chunk_plan (5 * 1) 8 (Z.max 2 1) (Z.max 40 (Z.max 2 1)) =
  Ok (GolangLayout.plan_of 8 5 1 2 40)
  /\ sum_list (map (fun tok => chunk_bytes_of tok 8 2)
                 (GolangLayout.plan_of 8 5 1 2 40)) =
     5 * 1 * 8 * Z.max 2 1
  /\ Forall
       (fun tok =>
          1 <= tok
          /\ chunk_bytes_of tok 8 2 <=
             Z.max (Z.max 40 (Z.max 2 1)) (8 * Z.max 2 1))
       (GolangLayout.plan_of 8 5 1 2 40).
Proof.
  apply (X9_chunk_bytes_within_budget 8 5 1 2 40); lia.
Defined.

(** ** Every stage has a timing *)

Lemma timing_ok_with_deps deps st : timing_ok st -> timing_ok (with_deps deps st).
Proof.
  unfold timing_ok, field_at_least.
  now rewrite !has_type_with_deps, !get_int_with_deps.
Qed.

Ltac timing_tac :=
  unfold timing_ok, field_at_least; eval_fields;
  first
    [ left; eexists; split; [reflexivity | lia]
    | right; split; [reflexivity | eexists; split; [reflexivity | lia]] ].

Lemma golang_chunk_bodies_timing cl l c tok body :
  1 <= GolangTools.cl_digital_latency_base cl ->
  In body (GolangBodies.chunk_bodies cl l c tok) ->
  timing_ok body.
Proof.
  intros Hbase Hin. unfold GolangBodies.chunk_bodies in Hin.
  cbv zeta in Hin. cbn [In] in Hin.
  repeat (destruct Hin as [<-|Hin]); try contradiction; timing_tac.
Qed.

Lemma tools_layer_bodies_timing lc l body :
  1 <= Tools.lc_digital_latency_base lc ->
  In body (ToolsBodies.layer_bodies lc l) ->
  timing_ok body.
Proof.
  intros Hbase Hin. unfold ToolsBodies.layer_bodies in Hin.
  cbv zeta in Hin. cbn [In] in Hin.
  repeat (destruct Hin as [<-|Hin]); try contradiction; timing_tac.
Qed.

Lemma tools_chunk_bodies_timing lc l c body :
  In body (ToolsBodies.chunk_bodies lc l c) ->
  timing_ok body.
Proof.
  intros Hin. unfold ToolsBodies.chunk_bodies in Hin.
  cbv zeta in Hin. cbn [In] in Hin.
  repeat (destruct Hin as [<-|Hin]); try contradiction; timing_tac.
Qed.

(** X10: every stage that either builder emits has a timing the simulator
    can use, whatever the latency scale and the sizes: a [latency] of at
    least one cycle or, for the [rram_linear] and [moe_linear] stages, a
    [pulse_count] of at least 16. *)
Theorem X10_every_stage_has_a_timing layers hidden_size intermediate_size
    num_experts experts_per_tok seq_length batch dtype_bytes digital_chiplets
    rram_chiplets scale chunk_bytes seq st :
  GolangTools.build_moe_sequence layers hidden_size intermediate_size
    num_experts experts_per_tok seq_length batch dtype_bytes digital_chiplets
    rram_chiplets scale chunk_bytes = Ok seq
  \/ Tools.build_moe_sequence layers hidden_size intermediate_size
       num_experts experts_per_tok seq_length batch dtype_bytes
       digital_chiplets rram_chiplets scale chunk_bytes = Ok seq ->
  In st seq ->
  timing_ok st.
Proof.
  intros [H|H] Hst.
  - apply golang_build_inv in H. destruct H as [_ ->].
    apply GolangCases.layout_cases in Hst.
    destruct Hst as [->|[l [_ (c & tok & deps & body & _ & _ & Hbody & ->)]]];
      apply timing_ok_with_deps.
    + timing_tac.
    + eapply golang_chunk_bodies_timing; [|exact Hbody].
      cbn [GolangLayout.closure_of GolangTools.cl_digital_latency_base]. lia.
  - rewrite ToolsProofs.tools_build_moe_sequence_layout in H.
    injection H as <-.
    apply ToolsCases.tools_layout_cases in Hst.
    destruct Hst as [[deps ->]|[[deps ->]|[[deps ->]|[l [_ [Hl|Hc]]]]]];
      try apply timing_ok_with_deps.
    + unfold ToolsLayout.host_load_latency. timing_tac.
    + timing_tac.
    + unfold ToolsLayout.host_load_latency. timing_tac.
    + destruct Hl as (deps & body & Hbody & ->). apply timing_ok_with_deps.
      eapply tools_layer_bodies_timing; [|exact Hbody].
      cbn [ToolsLayout.locals_of Tools.lc_digital_latency_base]. lia.
    + destruct Hc as (c & deps & body & _ & Hbody & ->).
      apply timing_ok_with_deps.
      eapply tools_chunk_bodies_timing. exact Hbody.
Qed.

Lemma X10_witness :
  exists seq st,
    GolangTools.build_moe_sequence 1 8 16 2 1 4 1 2 2 3 (fun h => h) 32 = Ok seq
    /\ nth_error seq 2 = Some st
    /\ has_type "rram_linear" st = true
    /\ timing_ok st.
Proof.
  eexists. eexists. split; [vm_compute; reflexivity|].
  split; [vm_compute; reflexivity|]. split; [vm_compute; reflexivity|].
  match goal with
  | |- timing_ok ?s =>
      refine (X10_every_stage_has_a_timing 1 8 16 2 1 4 1 2 2 3 (fun h => h)
                32 _ s _ _)
  end.
  - left. vm_compute. reflexivity.
  - apply (nth_error_In _ 2). vm_compute. reflexivity.
Defined.

(** ** The resolver, run forward *)

Lemma or_int_ok a d :
  or_int a (Ok (Some d)) = Ok (Some (or_default a d)).
Proof.
  unfold or_int, or_default, given.
  destruct a as [v|]; [destruct (v =? 0)|]; reflexivity.
Qed.

Lemma int_from_config_with_default data keys c d :
  int_from_config data keys None = Ok c ->
  int_from_config data keys (Some d) = Ok (Some (config_or c d)).
Proof.
  intros H. rewrite int_from_config_default, H. now destruct c.
Qed.

Lemma or_int_experts a cl cm :
  or_int a (or_int cl (or_int cm (Ok (Some 16)))) =
  Ok (Some (first_experts a cl cm)).
Proof.
  unfold or_int, first_experts, given.
  destruct a as [x|]; [destruct (x =? 0)|];
    (destruct cl as [y|]; [destruct (y =? 0)|]);
    (destruct cm as [z|]; [destruct (z =? 0)|]); reflexivity.
Qed.

(** [generate_chiplet_model] when the configuration is read and its
    lookups return. *)
Lemma generate_runs build fs args config ch ci cL cl cm ck :
  load_model_config fs (args_config args) = Ok config ->
  int_from_config config hidden_aliases None = Ok ch ->
  int_from_config config intermediate_aliases None = Ok ci ->
  int_from_config config layers_aliases None = Ok cL ->
  int_from_config config local_experts_aliases None = Ok cl ->
  int_from_config config moe_experts_aliases None = Ok cm ->
  int_from_config config topk_aliases None = Ok ck ->
  generate_chiplet_model build fs args =
  (let h := or_default (args_hidden_size args) (config_or ch 4096) in
   let i := or_default (args_intermediate_size args) (config_or ci (h * 4)) in
   let L := or_default (args_layers args) (config_or cL 32) in
   let ne0 := first_experts (args_num_experts args) cl cm in
   let ept := or_default (args_experts_per_tok args) (config_or ck 2) in
   if negb (bool_from_config config ["use_moe"] (0 <? ne0)) && (ne0 <=? 0)
   then Raise ValueError
   else
     let ne := if ne0 <=? 0 then 1 else ne0 in
     rbind (build L h i ne ept (args_seq_length args) (args_batch args)
              (args_dtype_bytes args) (args_digital_chiplets args)
              (args_rram_chiplets args) (args_digital_latency_scale args)
              (args_chunk_bytes args)) (fun sequence =>
     rbind (document_name args config) (fun name =>
     Ok [("name", name);
         ("sequence", VList (map VDict sequence));
         ("metadata", document_metadata args h i L ne ept)]))).
Proof.
  intros Hload Hh Hi HL Hcl Hcm Hk.
  unfold hidden_aliases, intermediate_aliases, layers_aliases,
    local_experts_aliases, moe_experts_aliases, topk_aliases in *.
  unfold generate_chiplet_model. rewrite Hload. cbn [rbind].
  rewrite (int_from_config_with_default _ _ _ 4096 Hh), or_int_ok.
  cbn [rbind as_int].
  rewrite (int_from_config_with_default _ _ _ _ Hi), or_int_ok.
  cbn [rbind as_int].
  rewrite (int_from_config_with_default _ _ _ 32 HL), or_int_ok.
  cbn [rbind as_int].
  rewrite Hcl, Hcm. cbn [rbind]. rewrite or_int_experts. cbn [rbind].
  rewrite (int_from_config_with_default _ _ _ 2 Hk), or_int_ok.
  cbn [rbind as_int]. cbv zeta.
  destruct (negb _ && _); reflexivity.
Qed.

(** A configuration without floats: [int(...)] of an int or a bool does
    not raise. *)
Lemma int_from_config_returns data keys d :
  (forall k f, get k data <> Some (VFloat f)) ->
  exists c, int_from_config data keys d = Ok c.
Proof.
  intros Hnf. induction keys as [|k keys IH]; cbn [int_from_config]; eauto.
  destruct (get k data) as [[| | |f| | |]|] eqn:E; eauto.
  exfalso. exact (Hnf _ _ E).
Qed.

(** ** Lookups in the configuration document *)

Lemma int_from_config_skip data pre rest d :
  (forall k, In k pre -> numeric (get k data) = false) ->
  int_from_config data (pre ++ rest) d = int_from_config data rest d.
Proof.
  intros Hpre. induction pre as [|k pre IH]; [reflexivity|].
  cbn [app int_from_config].
  pose proof (Hpre k (or_introl eq_refl)) as Hk.
  rewrite IH by (intros k' Hk'; apply Hpre; now right).
  destruct (get k data) as [[| | | | | |]|]; try reflexivity;
    discriminate Hk.
Qed.

(** X11: [int_from_config] returns the value of the first key, in the order
    given, whose value is a number, whatever the later keys hold: an int as
    it is, a bool as 0 or 1, a float truncated toward zero; a NaN raises
    [ValueError] and an infinity [OverflowError].  Keys that are absent or
    hold anything else, a numeric string included, are skipped, and the
    default is returned when every key is skipped. *)
Theorem X11_first_numeric_key_wins data pre k post d :
  (forall k', In k' pre -> numeric (get k' data) = false) ->
  (forall z, get k data = Some (VInt z) ->
             int_from_config data (pre ++ k :: post) d = Ok (Some z))
  /\ (forall b, get k data = Some (VBool b) ->
                int_from_config data (pre ++ k :: post) d =
                Ok (Some (if b then 1 else 0)))
  /\ (forall q, get k data = Some (VFloat (FFin q)) ->
                int_from_config data (pre ++ k :: post) d =
                Ok (Some (Z.quot (Qnum q) (Zpos (Qden q)))))
  /\ (get k data = Some (VFloat FNan) ->
      int_from_config data (pre ++ k :: post) d = Raise ValueError)
  /\ (forall s, get k data = Some (VFloat (FInf s)) ->
                int_from_config data (pre ++ k :: post) d = Raise OverflowError)
  /\ (numeric (get k data) = false ->
      int_from_config data (pre ++ k :: post) d = int_from_config data post d)
  /\ int_from_config data pre d = Ok d.
Proof.
  intros Hpre.
  repeat split; try intros x Hx; try intros Hx;
    try (rewrite int_from_config_skip by exact Hpre;
         cbn [int_from_config]; rewrite Hx; try reflexivity;
         now destruct x).
  - rewrite int_from_config_skip by exact Hpre. cbn [int_from_config].
    destruct (get k data) as [[| | | | | |]|]; try reflexivity;
      discriminate Hx.
  - rewrite <- (app_nil_r pre).
    rewrite int_from_config_skip by exact Hpre. reflexivity.
Qed.

Lemma X11_witness :
  int_from_config
    [("hidden_size", VStr "4096"); ("n_embd", VInt 8); ("dim", VInt 16)]
    (["hidden_size"] ++ "n_embd" :: ["dim"]) (Some 4096) =
  Ok (Some 8).
Proof.
  refine (proj1 (X11_first_numeric_key_wins
                   [("hidden_size", VStr "4096"); ("n_embd", VInt 8);
                    ("dim", VInt 16)]
                   ["hidden_size"] "n_embd" ["dim"] (Some 4096) _) 8 _).
  - intros k' [<-|[]]. reflexivity.
  - reflexivity.
Defined.

Lemma bool_from_config_skip data pre rest d :
  (forall k, In k pre -> boolish (get k data) = false) ->
  bool_from_config data (pre ++ rest) d = bool_from_config data rest d.
Proof.
  intros Hpre. induction pre as [|k pre IH]; [reflexivity|].
  cbn [app bool_from_config].
  pose proof (Hpre k (or_introl eq_refl)) as Hk.
  rewrite IH by (intros k' Hk'; apply Hpre; now right).
  destruct (get k data) as [[| | | | | |]|]; try reflexivity;
    discriminate Hk.
Qed.

(** X12: [bool_from_config] is decided by the first key whose value is a
    bool or a string: a bool as it is, a string by whether its lower-case
    form is one of [1], [true], [yes], [y], [on].  Keys that are absent or
    hold anything else are skipped, so an integer 1 does not count as true,
    and the default is returned when every key is skipped. *)
Theorem X12_first_bool_or_string_decides data pre k post d :
  (forall k', In k' pre -> boolish (get k' data) = false) ->
  (forall b, get k data = Some (VBool b) ->
             bool_from_config data (pre ++ k :: post) d = b)
  /\ (forall s, get k data = Some (VStr s) ->
                bool_from_config data (pre ++ k :: post) d =
                existsb (String.eqb (lower s)) ["1"; "true"; "yes"; "y"; "on"])
  /\ (forall z, get k data = Some (VInt z) ->
                bool_from_config data (pre ++ k :: post) d =
                bool_from_config data post d)
  /\ (boolish (get k data) = false ->
      bool_from_config data (pre ++ k :: post) d =
      bool_from_config data post d)
  /\ bool_from_config data pre d = d.
Proof.
  intros Hpre.
  repeat split; try intros x Hx; try intros Hx;
    try (rewrite bool_from_config_skip by exact Hpre;
         cbn [bool_from_config]; rewrite Hx; reflexivity).
  - rewrite bool_from_config_skip by exact Hpre. cbn [bool_from_config].
    destruct (get k data) as [[| | | | | |]|]; try reflexivity;
      discriminate Hx.
  - rewrite <- (app_nil_r pre).
    rewrite bool_from_config_skip by exact Hpre. reflexivity.
Qed.

Lemma X12_witness :
  bool_from_config [("use_moe", VInt 1); ("moe", VStr "Yes")]
    (["use_moe"] ++ "moe" :: []) false =
  existsb (String.eqb (lower "Yes")) ["1"; "true"; "yes"; "y"; "on"].
Proof.
  refine (proj1 (proj2 (X12_first_bool_or_string_decides
                          [("use_moe", VInt 1); ("moe", VStr "Yes")]
                          ["use_moe"] "moe" [] false _)) "Yes" _).
  - intros k' [<-|[]]. reflexivity.
  - reflexivity.
Defined.

(** ** What the generators return and raise *)

(** X13: when a configuration path is given and no file is there,
    [generate_chiplet_model] raises [FileNotFoundError], whatever the
    builder and the other arguments, and [main] writes nothing. *)
Theorem X13_missing_config_file build fs args path :
  args_config args = Some path ->
  fs path = None ->
  generate_chiplet_model build fs args = Raise FileNotFoundError
  /\ main build fs args = Raise FileNotFoundError.
Proof.
  intros Hpath Hfs.
  assert (generate_chiplet_model build fs args = Raise FileNotFoundError) as H.
  { unfold generate_chiplet_model, load_model_config.
    rewrite Hpath, Hfs. reflexivity. }
  split; [exact H|]. unfold main. now rewrite H.
Qed.

Lemma X13_witness :
  generate_chiplet_model GolangTools.build_moe_sequence Examples.no_file
    (Examples.small_args (Some "config.json") (Some 8) (Some 2))
  = Raise FileNotFoundError
  /\ main GolangTools.build_moe_sequence Examples.no_file
       (Examples.small_args (Some "config.json") (Some 8) (Some 2))
     = Raise FileNotFoundError.
Proof.
  apply (X13_missing_config_file GolangTools.build_moe_sequence
           Examples.no_file
           (Examples.small_args (Some "config.json") (Some 8) (Some 2))
           "config.json"); reflexivity.
Defined.

Lemma resolved_experts_inv config args ne :
  resolved_experts config args = Ok (Some ne) ->
  exists cl cm,
    int_from_config config local_experts_aliases None = Ok cl
    /\ int_from_config config moe_experts_aliases None = Ok cm
    /\ ne = first_experts (args_num_experts args) cl cm.
Proof.
  unfold resolved_experts. intros H.
  destruct (int_from_config config local_experts_aliases None) as [cl|];
    [|discriminate].
  destruct (int_from_config config moe_experts_aliases None) as [cm|];
    [|discriminate].
  cbn [rbind] in H. rewrite or_int_experts in H.
  injection H as <-. eauto.
Qed.

(** X14: when the configuration is read (or none is given), holds no
    float, and the expert count resolves to a positive number, both
    versions of [generate_chiplet_model] call their builder with the
    resolved shape: the override when given and not 0, else the
    configuration's value, else 4096, 4 times the hidden size, 32 and 2.
    When the builder raises, the generator raises that exception; when it
    returns a sequence, the generator returns the document with that
    sequence and the metadata when the name resolves, and raises the
    exception of the name otherwise (an empty [architectures] list gives
    [IndexError]), after the sequence is built. *)
Theorem X14_generators_return build fs args config ne :
  build = GolangTools.build_moe_sequence
  \/ build = Tools.build_moe_sequence ->
  load_model_config fs (args_config args) = Ok config ->
  (forall k f, get k config <> Some (VFloat f)) ->
  resolved_experts config args = Ok (Some ne) ->
  0 < ne ->
  exists ch ci cL ck h i L ept,
    int_from_config config hidden_aliases None = Ok ch
    /\ int_from_config config intermediate_aliases None = Ok ci
    /\ int_from_config config layers_aliases None = Ok cL
    /\ int_from_config config topk_aliases None = Ok ck
    /\ h = or_default (args_hidden_size args) (config_or ch 4096)
    /\ i = or_default (args_intermediate_size args) (config_or ci (h * 4))
    /\ L = or_default (args_layers args) (config_or cL 32)
    /\ ept = or_default (args_experts_per_tok args) (config_or ck 2)
    /\ (forall e,
           build L h i ne ept (args_seq_length args) (args_batch args)
             (args_dtype_bytes args) (args_digital_chiplets args)
             (args_rram_chiplets args) (args_digital_latency_scale args)
             (args_chunk_bytes args) = Raise e ->
           generate_chiplet_model build fs args = Raise e)
    /\ (forall seq,
           build L h i ne ept (args_seq_length args) (args_batch args)
             (args_dtype_bytes args) (args_digital_chiplets args)
             (args_rram_chiplets args) (args_digital_latency_scale args)
             (args_chunk_bytes args) = Ok seq ->
           generate_chiplet_model build fs args =
           rbind (document_name args config) (fun name =>
           Ok [("name", name);
               ("sequence", VList (map VDict seq));
               ("metadata", document_metadata args h i L ne ept)])).
Proof.
  intros _ Hload Hnf Hres Hne.
  destruct (resolved_experts_inv _ _ _ Hres) as (cl & cm & Hcl & Hcm & Hfirst).
  destruct (int_from_config_returns config hidden_aliases None Hnf) as [ch Hh].
  destruct (int_from_config_returns config intermediate_aliases None Hnf)
    as [ci Hi].
  destruct (int_from_config_returns config layers_aliases None Hnf) as [cL HL].
  destruct (int_from_config_returns config topk_aliases None Hnf) as [ck Hk].
  exists ch, ci, cL, ck.
  do 4 eexists.
  split; [exact Hh|]. split; [exact Hi|]. split; [exact HL|].
  split; [exact Hk|].
  split; [reflexivity|]. split; [reflexivity|]. split; [reflexivity|].
  split; [reflexivity|].
  rewrite (generate_runs build fs args config ch ci cL cl cm ck Hload Hh Hi HL
             Hcl Hcm Hk).
  cbv zeta. rewrite <- Hfirst.
  replace (ne <=? 0) with false by (symmetry; apply Z.leb_gt; lia).
  rewrite andb_false_r.
  split.
  - intros e He. rewrite He. reflexivity.
  - intros seq Hseq. rewrite Hseq. reflexivity.
Qed.

Lemma X14_witness :
  exists seq,
    GolangTools.build_moe_sequence 1 8 16 2 1 4 1 2 2 3 (fun h => h) 32
    = Ok seq
    /\ GolangTools.generate_chiplet_model
         (Examples.one_file [("architectures", VList [])]) unnamed_args
       = Raise IndexError
    /\ exists ch ci cL ck h i L ept,
        int_from_config [("architectures", VList [])] hidden_aliases None
        = Ok ch
        /\ int_from_config [("architectures", VList [])] intermediate_aliases
             None = Ok ci
        /\ int_from_config [("architectures", VList [])] layers_aliases None
           = Ok cL
        /\ int_from_config [("architectures", VList [])] topk_aliases None
           = Ok ck
        /\ h = or_default (Some 8) (config_or ch 4096)
        /\ i = or_default (Some 16) (config_or ci (h * 4))
        /\ L = or_default (Some 1) (config_or cL 32)
        /\ ept = or_default (Some 1) (config_or ck 2)
        /\ (forall e,
               GolangTools.build_moe_sequence L h i 2 ept 4 1 2 2 3
                 (fun h => h) 32 = Raise e ->
               generate_chiplet_model GolangTools.build_moe_sequence
                 (Examples.one_file [("architectures", VList [])])
                 unnamed_args = Raise e)
        /\ (forall seq',
               GolangTools.build_moe_sequence L h i 2 ept 4 1 2 2 3
                 (fun h => h) 32 = Ok seq' ->
               generate_chiplet_model GolangTools.build_moe_sequence
                 (Examples.one_file [("architectures", VList [])])
                 unnamed_args =
               rbind (Raise IndexError) (fun name =>
               Ok [("name", name);
                   ("sequence", VList (map VDict seq'));
                   ("metadata", document_metadata unnamed_args h i L 2 ept)])).
Proof.
  eexists. split; [vm_compute; reflexivity|].
  split; [vm_compute; reflexivity|].
  apply (X14_generators_return GolangTools.build_moe_sequence
           (Examples.one_file [("architectures", VList [])])
           unnamed_args
           [("architectures", VList [])] 2).
  - left. reflexivity.
  - reflexivity.
  - intros k f. cbn [get].
    destruct (String.eqb k "architectures"); discriminate.
  - reflexivity.
  - lia.
Defined.

Lemma int_from_config_raise data keys d e :
  int_from_config data keys d = Raise e -> e = ValueError \/ e = OverflowError.
Proof.
  induction keys as [|k keys IH]; cbn [int_from_config]; [discriminate|].
  destruct (get k data) as [[| | |f| | |]|]; try exact IH; try discriminate.
  destruct f; cbn; intros H; try discriminate H; injection H as <-; auto.
Qed.

Lemma or_int_raise a b e : or_int a b = Raise e -> b = Raise e.
Proof.
  unfold or_int. destruct a as [v|]; [destruct (v =? 0)|];
    auto; discriminate.
Qed.

Lemma or_int_lookup_no_zdiv a data keys d :
  or_int a (int_from_config data keys d) <> Raise ZeroDivisionError.
Proof.
  intros H. apply or_int_raise, int_from_config_raise in H.
  destruct H; discriminate.
Qed.

Lemma subscript0_no_zdiv v : subscript0 v <> Raise ZeroDivisionError.
Proof.
  destruct v as [| | | |s|l|]; cbn; try discriminate.
  - destruct s; discriminate.
  - destruct l; discriminate.
Qed.

Ltac no_zdiv :=
  match goal with
  | E : load_model_config _ ?p = Raise _ |- _ =>
      unfold load_model_config in E;
      destruct p as [path|]; [|discriminate E];
      match type of E with
      | context [match ?x with _ => _ end] => destruct x; discriminate E
      end
  | E : or_int _ (int_from_config _ _ _) = Raise _ |- _ =>
      exact (or_int_lookup_no_zdiv _ _ _ _ E)
  | E : or_int _ (rbind (as_int ?r) _) = Raise _ |- _ =>
      apply or_int_raise in E; destruct r; cbn [as_int rbind] in E;
      [ apply int_from_config_raise in E; destruct E; discriminate
      | discriminate E ]
  | E : int_from_config _ _ _ = Raise _ |- _ =>
      apply int_from_config_raise in E; destruct E; discriminate
  | E : or_int _ (or_int _ _) = Raise _ |- _ =>
      rewrite or_int_experts in E; discriminate E
  | E : as_int ?r = Raise _ |- _ => destruct r; discriminate E
  end.

Ltac peel H :=
  match type of H with
  | rbind ?x _ = Raise _ =>
      let E := fresh "E" in
      destruct x eqn:E; cbn [rbind] in H;
      [| injection H as ->; try no_zdiv ]
  end.

(** A builder that does not divide by zero when there is an expert makes a
    generator that does not. *)
Lemma generate_no_zero_division build fs args :
  (forall L h i ne ept s b d dc rc sc cb,
      1 <= ne ->
      build L h i ne ept s b d dc rc sc cb <> Raise ZeroDivisionError) ->
  generate_chiplet_model build fs args <> Raise ZeroDivisionError.
Proof.
  intros Hbuild H. unfold generate_chiplet_model in H.
  do 9 peel H.
  destruct (negb _ && _); [discriminate|]. cbv zeta in H.
  do 4 peel H.
  peel H.
  2: { match goal with
       | E : build _ _ _ ?ne _ _ _ _ _ _ _ _ = Raise _ |- _ =>
           revert E; apply Hbuild
       end.
       match goal with |- 1 <= (if ?x <=? 0 then _ else _) =>
         destruct (Z.leb_spec x 0); lia end. }
  peel H; [discriminate H|].
  match goal with
  | E : _ = Raise ZeroDivisionError |- _ => cbv zeta in E; rename E into Hname
  end.
  destruct (truthy _) in Hname; [discriminate Hname|].
  destruct (truthy _) in Hname; [discriminate Hname|].
  exact (subscript0_no_zdiv _ Hname).
Qed.

(** X15: neither version of [generate_chiplet_model] raises
    [ZeroDivisionError], for any file system and any arguments, although
    the chunked builder does when it is called without experts: the
    resolver replaces a non-positive expert count by 1 before it calls the
    builder. *)
Theorem X15_generators_never_divide_by_zero fs args :
  GolangTools.generate_chiplet_model fs args <> Raise ZeroDivisionError
  /\ Tools.generate_chiplet_model fs args <> Raise ZeroDivisionError
  /\ GolangTools.main fs args <> Raise ZeroDivisionError
  /\ Tools.main fs args <> Raise ZeroDivisionError.
Proof.
  assert (Hg : GolangTools.generate_chiplet_model fs args
               <> Raise ZeroDivisionError).
  { apply generate_no_zero_division. intros. 
    rewrite GolangProofs.build_moe_sequence_layout by (left; assumption).
    discriminate. }
  assert (Ht : Tools.generate_chiplet_model fs args
               <> Raise ZeroDivisionError).
  { apply generate_no_zero_division. intros.
    rewrite ToolsProofs.tools_build_moe_sequence_layout. discriminate. }
  split; [exact Hg|]. split; [exact Ht|].
  unfold GolangTools.main, Tools.main, main.
  fold GolangTools.generate_chiplet_model. fold Tools.generate_chiplet_model.
  split.
  - destruct (GolangTools.generate_chiplet_model fs args) as [doc|e] eqn:E;
      cbn [rbind]; [discriminate | congruence].
  - destruct (Tools.generate_chiplet_model fs args) as [doc|e] eqn:E;
      cbn [rbind]; [discriminate | congruence].
Qed.

(** ** [export_pytorch_chiplet.py] *)



(** ** [append_stage] *)

(** X17: [append_stage] stores the stage at the end of the sequence and
    returns its position: looking that position up gives the stored stage,
    and the stages before it are unchanged.  The stored stage is the given
    one with only [deps] set: to [depends] when it is given, also when it
    is empty; to the position before when it is not given and the sequence
    is not empty; and left as it was, absent for a new stage, for the first
    stage of a sequence.  (For a stage dict that is not yet in the
    sequence.) *)
Theorem X17_append_stage_round_trip stage depends seq :
  exists stored,
    append_stage stage depends seq = Ok (len seq, seq ++ [stored])
    /\ lookup (seq ++ [stored]) (len seq) = Some stored
    /\ (forall i, i < len seq -> lookup (seq ++ [stored]) i = lookup seq i)
    /\ (forall k, String.eqb k "deps" = false -> get k stored = get k stage)
    /\ stage_deps stored =
       match depends with
       | Some deps => deps
       | None =>
           match seq with
           | [] => stage_deps stage
           | _ :: _ => [len seq - 1]
           end
       end.
Proof.
  unfold append_stage.
  set (stored := match depends with
                 | Some deps => dict_set "deps" (VInts deps) stage
                 | None =>
                     match seq with
                     | [] => stage
                     | _ :: _ =>
                         dict_set "deps"
                           (VInts [Z.of_nat (List.length seq) - 1]) stage
                     end
                 end).
  exists stored. split; [|split; [|split; [|split]]].
  - f_equal. f_equal. rewrite length_app. cbn [List.length]. unfold len. lia.
  - rewrite lookup_app_r by lia. now rewrite Z.sub_diag.
  - intros i Hi. now apply lookup_app_l.
  - intros k Hk. unfold stored.
    destruct depends as [deps|]; [now apply get_with_deps|].
    destruct seq; [reflexivity|]. now apply get_with_deps.
  - unfold stored. destruct depends as [deps|].
    + apply stage_deps_with_deps.
    + destruct seq as [|s seq']; [reflexivity|].
      apply (stage_deps_with_deps [Z.of_nat (List.length (s :: seq')) - 1]).
Qed.

Import GolangIndex.

(** ** Transfers of the chunked builder are never empty *)

Lemma golang_chunk_bodies_bytes cl l c tok body lo :
  lo <= GolangLayout.size_at cl c ->
  In body (GolangBodies.chunk_bodies cl l c tok) ->
  has_type "transfer" body = true ->
  field_at_least "bytes" lo body.
Proof.
  intros Hlo Hin. unfold GolangBodies.chunk_bodies in Hin.
  cbv zeta in Hin. cbn [In] in Hin.
  repeat (destruct Hin as [<-|Hin]); try contradiction;
    unfold field_at_least; eval_fields; intros Ht;
    first [ discriminate Ht | eexists; split; [reflexivity | exact Hlo] ].
Qed.

(** X18: every [transfer] stage of the chunked builder moves at least
    [max(dtype_bytes, 1)] bytes, for all arguments, a non-positive number
    of tokens or hidden size included: the entries of [chunk_byte_plan] are
    clamped from below. *)
Theorem X18_transfers_are_never_empty layers hidden_size intermediate_size
    num_experts experts_per_tok seq_length batch dtype_bytes digital_chiplets
    rram_chiplets scale chunk_bytes seq st :
  GolangTools.build_moe_sequence layers hidden_size intermediate_size
    num_experts experts_per_tok seq_length batch dtype_bytes digital_chiplets
    rram_chiplets scale chunk_bytes = Ok seq ->
  In st seq ->
  has_type "transfer" st = true ->
  field_at_least "bytes" (Z.max dtype_bytes 1) st.
Proof.
  intros H Hst Ht. apply golang_build_inv in H. destruct H as [_ ->].
  apply GolangCases.layout_cases in Hst.
  destruct Hst as [->|[l [_ (c & tok & deps & body & _ & Htok & Hbody & ->)]]].
  - discriminate Ht.
  - rewrite has_type_with_deps in Ht.
    unfold field_at_least. rewrite get_int_with_deps by reflexivity.
    eapply golang_chunk_bodies_bytes; [|exact Hbody|exact Ht].
    cbn [GolangLayout.closure_of GolangTools.cl_chunk_plan] in Htok.
    rewrite (size_at_plan _ _ _ _ _ _ _ _ _ _ _ c tok Htok).
    unfold chunk_bytes_of. lia.
Qed.

Lemma X18_witness :
  exists seq st,
    GolangTools.build_moe_sequence 1 0 16 2 1 0 1 2 2 3 (fun h => h) 32 = Ok seq
    /\ nth_error seq 1 = Some st
    /\ has_type "transfer" st = true
    /\ field_at_least "bytes" (Z.max 2 1) st.
Proof.
  eexists. eexists. split; [vm_compute; reflexivity|].
  split; [vm_compute; reflexivity|]. split; [vm_compute; reflexivity|].
  match goal with
  | |- field_at_least _ _ ?s =>
      refine (X18_transfers_are_never_empty 1 0 16 2 1 0 1 2 2 3 (fun h => h)
                32 _ s _ _ _)
  end.
  - vm_compute. reflexivity.
  - apply (nth_error_In _ 1). vm_compute. reflexivity.
  - vm_compute. reflexivity.
Defined.

(** ** Every digital chiplet gets work *)

(** X19: in the chunked builder, when the plan has at least
    [max(digital_chiplets, 1)] chunks, every digital chiplet owns a chunk of
    every layer: for each layer [l] and each digital chiplet [d] there is a
    chunk [c] whose Q projection is transferred back to chiplet [d]. *)
Theorem X19_every_digital_chiplet_owns_a_chunk layers hidden_size
    intermediate_size num_experts experts_per_tok seq_length batch dtype_bytes
    digital_chiplets rram_chiplets scale chunk_bytes seq l d :
  GolangTools.build_moe_sequence layers hidden_size intermediate_size
    num_experts experts_per_tok seq_length batch dtype_bytes digital_chiplets
    rram_chiplets scale chunk_bytes = Ok seq ->
  0 <= l < layers ->
  0 <= d < Z.max digital_chiplets 1 ->
  Z.max digital_chiplets 1 <=
  len (GolangLayout.plan_of hidden_size seq_length batch dtype_bytes
         chunk_bytes) ->
  exists c up,
    0 <= c < Z.max digital_chiplets 1
    /\ lookup seq
         (projection_linear_index
            (len (GolangLayout.plan_of hidden_size seq_length batch
                    dtype_bytes chunk_bytes)) l ProjQ c + 1) = Some up
    /\ get_str "name" up =
       Some ("q_transfer_to_digital_L" ++ str l ++ "_C" ++ str c)%string
    /\ get_int "chiplet" up = Some d.
Proof.
  intros H Hl Hd Hn. apply golang_build_inv in H. destruct H as [_ ->].
  set (plan := GolangLayout.plan_of hidden_size seq_length batch dtype_bytes
                 chunk_bytes) in *.
  set (cl := GolangLayout.closure_of hidden_size intermediate_size num_experts
               experts_per_tok seq_length batch dtype_bytes digital_chiplets
               rram_chiplets scale plan).
  change (len plan) with (len (GolangTools.cl_chunk_plan cl)) in *.
  set (n := len (GolangTools.cl_chunk_plan cl)) in *.
  set (D := Z.max digital_chiplets 1) in *.
  set (c := (d - l) mod D).
  assert (0 <= c < D) as Hc by (apply Z.mod_pos_bound; lia).
  destruct (GolangPositions.lookup_projection cl (layer_start n l) l ProjQ c 2
              ltac:(fold n; lia) ltac:(lia)) as [tok [Htok H2]].
  fold n in H2. unfold GolangLayout.projection_triple in H2.
  cbn [fst snd] in H2. rewrite lookup_triple_2 in H2.
  exists c. eexists. split; [exact Hc|]. split.
  { unfold projection_linear_index. cbn [projection_start] in *.
    replace (layer_start n l + 0 + 3 * c + 1 + 1)
      with (layer_start n l + (0 + 3 * c + 2)) by lia.
    rewrite GolangPositions.lookup_layer by (fold n; lia). exact H2. }
  split; [reflexivity|].
  rewrite get_int_with_deps by reflexivity.
  unfold get_int, GolangTools.projection_up.
  cbn [get String.eqb Ascii.eqb Bool.eqb].
  rewrite (GolangLocal.chunk_digital_owner_eq cl digital_chiplets 0 eq_refl).
  unfold digitalOwner. fold D. f_equal. unfold c.
  rewrite Zplus_mod_idemp_r.
  replace (l + (d - l)) with d by lia.
  apply Z.mod_small. lia.
Qed.

Lemma X19_witness :
  exists seq,
    GolangTools.build_moe_sequence 1 8 16 2 1 4 1 2 2 3 (fun h => h) 32 = Ok seq
    /\ exists c up,
      0 <= c < Z.max 2 1
      /\ lookup seq
           (projection_linear_index (len (GolangLayout.plan_of 8 4 1 2 32)) 0
              ProjQ c + 1) = Some up
      /\ get_str "name" up =
         Some ("q_transfer_to_digital_L" ++ str 0 ++ "_C" ++ str c)%string
      /\ get_int "chiplet" up = Some 1.
Proof.
  eexists. split; [vm_compute; reflexivity|].
  apply (X19_every_digital_chiplet_owns_a_chunk 1 8 16 2 1 4 1 2 2 3
           (fun h => h) 32).
  - vm_compute. reflexivity.
  - lia.
  - lia.
  - vm_compute. discriminate.
Defined.

(** * The weights that the stages of the chunked builder carry *)

Module GolangWeights.

Import GolangTools GolangLayout GolangInv GolangProofs GolangIndex.
Import GolangPositions GolangGroups.

Section Weights.

Variable cl : closure.
Local Abbreviation n := (len (cl_chunk_plan cl)).

Tactic Notation "skip" constr(k) :=
  rewrite (lookup_app_at _ _ _ k) by solve_len.

Ltac chunked_at k :=
  rewrite lookup_app_l by solve_len;
  match goal with
  | |- context [lookup (chunked_block ?sb ?base ?per ?enf ?b _) ?i] =>
      replace i with k by lia
  end.

(** The [attn_score] stage of chunk [c] of layer [l]. *)
Lemma lookup_attn_score l c :
  0 <= l -> 0 <= c < n ->
  exists tok deps,
    nth_error (cl_chunk_plan cl) (Z.to_nat c) = Some tok
    /\ lookup (layer_block cl (layer_start n l) l)
         (group_start n AttnScore + c) =
       Some (with_deps deps (attn_score_stage cl l c tok)).
Proof.
  intros Hl Hc. destruct (nth_error_plan cl c Hc) as [tok [Htok _]].
  pose proof (len_nonneg (cl_chunk_plan cl)) as Hn.
  assert (0 < layer_start n l) as Hb by (unfold layer_start; nia).
  set (b := layer_start n l) in *.
  exists tok. eexists. split; [exact Htok|].
  unfold layer_block. cbv zeta. fold b. cbn [group_start].
  skip (3 * n); skip (3 * n); skip (3 * n).
  chunked_at c.
  rewrite (lookup_chunked_block _ _ _ _ _ _ c tok) by (lia || exact Htok).
  rewrite appended_with_deps by lia. reflexivity.
Qed.

(** The [attn_mix] stage of chunk [c] of layer [l]. *)
Lemma lookup_attn_mix l c :
  0 <= l -> 0 <= c < n ->
  exists tok deps,
    nth_error (cl_chunk_plan cl) (Z.to_nat c) = Some tok
    /\ lookup (layer_block cl (layer_start n l) l)
         (group_start n AttnMix + c) =
       Some (with_deps deps (attn_mix_stage cl l c tok)).
Proof.
  intros Hl Hc. destruct (nth_error_plan cl c Hc) as [tok [Htok _]].
  pose proof (len_nonneg (cl_chunk_plan cl)) as Hn.
  assert (0 < layer_start n l) as Hb by (unfold layer_start; nia).
  set (b := layer_start n l) in *.
  exists tok. eexists. split; [exact Htok|].
  unfold layer_block. cbv zeta. fold b. cbn [group_start].
  skip (3 * n); skip (3 * n); skip (3 * n).
  skip n. skip n. chunked_at c.
  rewrite (lookup_chunked_block _ _ _ _ _ _ c tok) by (lia || exact Htok).
  rewrite appended_with_deps by lia. reflexivity.
Qed.

End Weights.

End GolangWeights.

Import GolangIndex GolangGroups.

Lemma resident_weight_first total c :
  total <> 0 -> (resident_weight total c <> 0 <-> c = 0).
Proof.
  intros Ht. unfold resident_weight.
  destruct (Z.eqb_spec c 0); split; intros; try lia; congruence.
Qed.

(** C4, on the attention stages and on a model of hidden size 0: the
    [attn_score] stage of chunk 1 carries 32 bytes of weights; and with
    [hidden_size: 0] in the configuration, which the generator accepts, the
    [rram_linear] stage of chunk 0 of the Q projection carries none. *)
Lemma C4_counterexample :
  (exists seq st,
      GolangTools.build_moe_sequence 1 8 16 2 1 4 1 2 2 3 (fun h => h) 32
      = Ok seq
      /\ lookup seq
           (group_index (len (GolangLayout.plan_of 8 4 1 2 32)) 0 AttnScore 1)
         = Some st
      /\ get_str "name" st = Some "attn_score_L0_C1"
      /\ get_int "weight_bytes" st = Some 32
      /\ ~ weight_on_first_chunk 1 st)
  /\ (exists seq doc st,
         GolangTools.build_moe_sequence 1 0 16 2 1 4 1 2 2 3 (fun h => h) 32
         = Ok seq
         /\ GolangTools.generate_chiplet_model
              (Examples.one_file [("hidden_size", VInt 0)])
              (Examples.small_args (Some "config.json") None (Some 2))
            = Ok doc
         /\ get "sequence" doc = Some (VList (map VDict seq))
         /\ lookup seq
              (projection_linear_index
                 (len (GolangLayout.plan_of 0 4 1 2 32)) 0 ProjQ 0)
            = Some st
         /\ get_str "name" st = Some "q_proj_rram_L0_C0"
         /\ get_int "weight_bytes" st = Some 0
         /\ ~ weight_on_first_chunk 0 st).
Proof.
  split.
  - eexists. eexists. split; [vm_compute; reflexivity|].
    split; [vm_compute; reflexivity|].
    split; [vm_compute; reflexivity|].
    split; [vm_compute; reflexivity|].
    intros [w [Hw Hiff]]. vm_compute in Hw. injection Hw as <-.
    assert (1 = 0) by (apply Hiff; discriminate). discriminate.
  - eexists. eexists. eexists. split; [vm_compute; reflexivity|].
    split; [vm_compute; reflexivity|].
    split; [vm_compute; reflexivity|].
    split; [vm_compute; reflexivity|].
    split; [vm_compute; reflexivity|].
    split; [vm_compute; reflexivity|].
    intros [w [Hw Hiff]]. vm_compute in Hw. injection Hw as <-.
    apply (proj2 Hiff); reflexivity.
Qed.

(** C4, amended: in every sequence of the chunked builder, for every layer
    [l] and chunk [c], the [rram_linear] stage of each of the Q/K/V/O
    projections carries the [weight_bytes]
    [hidden_size * hidden_size * dtype_bytes] on chunk 0 and 0 on the later
    chunks; the [moe_linear] stage and each of its expert sub-records carry
    [hidden_size * intermediate_size * dtype_bytes] on chunk 0 and 0 on the
    later chunks.  So the weight is non-zero exactly on chunk 0 when the
    hidden size (and for the MoE stages the intermediate size) is not 0,
    and is 0 on every chunk otherwise.  The [attn_score] and [attn_mix]
    stages carry [chunk_tokens * hidden_size * dtype_bytes] on every
    chunk. *)
Theorem C4_weight_bytes_by_chunk layers hidden_size intermediate_size
    num_experts experts_per_tok seq_length batch dtype_bytes digital_chiplets
    rram_chiplets scale chunk_bytes seq l c :
  GolangTools.build_moe_sequence layers hidden_size intermediate_size
    num_experts experts_per_tok seq_length batch dtype_bytes digital_chiplets
    rram_chiplets scale chunk_bytes = Ok seq ->
  0 <= l < layers ->
  0 <= c < len (GolangLayout.plan_of hidden_size seq_length batch dtype_bytes
                  chunk_bytes) ->
  (forall p,
      exists st,
        lookup seq
          (projection_linear_index
             (len (GolangLayout.plan_of hidden_size seq_length batch
                     dtype_bytes chunk_bytes)) l p c) = Some st
        /\ has_type "rram_linear" st = true
        /\ get_str "name" st =
           Some (projection_label p ++ "_proj_rram_L" ++ str l
                   ++ "_C" ++ str c)%string
        /\ get_int "weight_bytes" st =
           Some (resident_weight
                   (hidden_size * hidden_size * Z.max dtype_bytes 1) c)
        /\ (hidden_size <> 0 -> weight_on_first_chunk c st))
  /\ (exists st,
         lookup seq
           (moe_linear_index
              (len (GolangLayout.plan_of hidden_size seq_length batch
                      dtype_bytes chunk_bytes)) l c) = Some st
         /\ has_type "moe_linear" st = true
         /\ get_str "name" st = Some ("moe_L" ++ str l ++ "_C" ++ str c)%string
         /\ get_int "weight_bytes" st =
            Some (resident_weight
                    (hidden_size * intermediate_size * Z.max dtype_bytes 1) c)
         /\ (hidden_size <> 0 -> intermediate_size <> 0 ->
             weight_on_first_chunk c st)
         /\ len (stage_experts st) = num_experts
         /\ forall e ex,
             nth_error (stage_experts st) e = Some ex ->
             get_int "chunk_index" ex = Some c
             /\ get_int "weight_bytes" ex =
                Some (resident_weight
                        (hidden_size * intermediate_size
                         * Z.max dtype_bytes 1) c)
             /\ (hidden_size <> 0 -> intermediate_size <> 0 ->
                 weight_on_first_chunk c ex))
  /\ exists chunk_tokens,
      nth_error
        (GolangLayout.plan_of hidden_size seq_length batch dtype_bytes
           chunk_bytes) (Z.to_nat c) = Some chunk_tokens
      /\ forall g,
          g = AttnScore \/ g = AttnMix ->
          exists st,
            lookup seq
              (group_index
                 (len (GolangLayout.plan_of hidden_size seq_length batch
                         dtype_bytes chunk_bytes)) l g c) = Some st
            /\ has_type "attention" st = true
            /\ get_str "name" st =
               Some (group_label g ++ "_L" ++ str l ++ "_C" ++ str c)%string
            /\ get_int "weight_bytes" st =
               Some (attention_weight chunk_tokens hidden_size dtype_bytes).
Proof.
  intros H Hl Hc. apply golang_build_inv in H.
  destruct H as [Hne ->].
  assert (1 <= num_experts) as Hne' by lia. clear Hne.
  set (plan := GolangLayout.plan_of hidden_size seq_length batch dtype_bytes
                 chunk_bytes) in *.
  set (cl := GolangLayout.closure_of hidden_size intermediate_size num_experts
               experts_per_tok seq_length batch dtype_bytes digital_chiplets
               rram_chiplets scale plan).
  change (len plan) with (len (GolangTools.cl_chunk_plan cl)) in *.
  set (n := len (GolangTools.cl_chunk_plan cl)) in *.
  assert (Hpwb : hidden_size <> 0 ->
                 hidden_size * hidden_size * Z.max dtype_bytes 1 <> 0)
    by (intros; nia).
  assert (Hewb : hidden_size <> 0 -> intermediate_size <> 0 ->
                 hidden_size * intermediate_size * Z.max dtype_bytes 1 <> 0)
    by (intros; nia).
  split; [|split].
  - intros p.
    destruct (GolangPositions.lookup_projection cl (layer_start n l) l p c 1
                ltac:(fold n; lia) ltac:(lia)) as [tok [_ Hlin]].
    fold n in Hlin.
    unfold GolangLayout.projection_triple in Hlin. cbn [fst snd] in Hlin.
    rewrite lookup_triple_1 in Hlin.
    eexists. split.
    { unfold projection_linear_index.
      replace (layer_start n l + projection_start n p + 3 * c + 1)
        with (layer_start n l + (projection_start n p + 3 * c + 1)) by lia.
      rewrite GolangPositions.lookup_layer;
        [exact Hlin | lia | fold n; destruct p; cbn [projection_start]; lia]. }
    split; [reflexivity|]. split; [reflexivity|].
    assert (Hw : get_int "weight_bytes"
                   (with_deps [layer_start n l + projection_start n p + 3 * c]
                      (GolangTools.projection_linear cl (projection_label p) l
                         c tok (GolangLayout.size_at cl c)
                         (GolangTools.cl_projection_weight_bytes cl)
                         (((l * 4) mod GolangTools.cl_rram_chiplets cl
                           + match p with
                             | ProjQ => 0 | ProjK => 1 | ProjV => 2
                             | ProjO => 3
                             end) mod GolangTools.cl_rram_chiplets cl))) =
                 Some (resident_weight
                         (hidden_size * hidden_size * Z.max dtype_bytes 1) c)).
    { rewrite get_int_with_deps by reflexivity. unfold resident_weight.
      first [ reflexivity
            | unfold get_int, GolangTools.projection_linear,
                GolangTools.moe_linear;
              cbn [get String.eqb Ascii.eqb Bool.eqb];
              destruct (c =? 0); reflexivity ]. }
    split; [exact Hw|].
    intros Hh. eexists. split; [exact Hw|].
    apply resident_weight_first. auto.
  - destruct (GolangPositions.lookup_moe cl (layer_start n l) l c 1
                ltac:(fold n; lia) ltac:(lia)) as [tok [_ Hlin]].
    fold n in Hlin.
    unfold GolangLayout.moe_triple in Hlin. cbn [fst snd] in Hlin.
    rewrite lookup_triple_1 in Hlin.
    eexists. split.
    { unfold moe_linear_index.
      replace (layer_start n l + 17 * n + 3 * c + 1)
        with (layer_start n l + (17 * n + 3 * c + 1)) by lia.
      rewrite GolangPositions.lookup_layer by (fold n; lia).
      exact Hlin. }
    split; [reflexivity|]. split; [reflexivity|].
    assert (Hw : get_int "weight_bytes"
                   (with_deps [layer_start n l + 17 * n + 3 * c]
                      (GolangTools.moe_linear cl l c (GolangLayout.size_at cl c)
                         (GolangLayout.experts_at cl l c))) =
                 Some (resident_weight
                         (hidden_size * intermediate_size
                          * Z.max dtype_bytes 1) c)).
    { rewrite get_int_with_deps by reflexivity. unfold resident_weight.
      first [ reflexivity
            | unfold get_int, GolangTools.projection_linear,
                GolangTools.moe_linear;
              cbn [get String.eqb Ascii.eqb Bool.eqb];
              destruct (c =? 0); reflexivity ]. }
    split; [exact Hw|].
    split.
    { intros Hh Hi. eexists. split; [exact Hw|].
      apply resident_weight_first. auto. }
    rewrite stage_experts_with_deps.
    assert (Hexperts :
      stage_experts
        (GolangTools.moe_linear cl l c (GolangLayout.size_at cl c)
           (GolangLayout.experts_at cl l c)) =
      GolangLayout.experts_at cl l c).
    { eval_fields. apply dicts_of_map_VDict. }
    rewrite Hexperts. split.
    { unfold GolangLayout.experts_at. rewrite len_map, len_range.
      change (GolangTools.cl_num_experts cl) with num_experts. lia. }
    intros e ex Hex. unfold GolangLayout.experts_at in Hex.
    rewrite nth_error_map in Hex.
    destruct (nth_error (range (GolangTools.cl_num_experts cl)) e) as [x|];
      [|discriminate].
    injection Hex as <-. split; [reflexivity|].
    assert (Hw' : get_int "weight_bytes"
                    (GolangLayout.chunk_expert_entry cl l c
                       (GolangLayout.size_at cl c) x) =
                  Some (resident_weight
                          (hidden_size * intermediate_size
                           * Z.max dtype_bytes 1) c)).
    { unfold get_int, GolangLayout.chunk_expert_entry, resident_weight.
      cbn [get String.eqb Ascii.eqb Bool.eqb].
      destruct (c =? 0); reflexivity. }
    split; [exact Hw'|].
    intros Hh Hi. eexists. split; [exact Hw'|].
    apply resident_weight_first. auto.
  - destruct (GolangWeights.lookup_attn_score cl l c ltac:(lia) Hc)
      as (tok & deps1 & Htok & Hscore).
    destruct (GolangWeights.lookup_attn_mix cl l c ltac:(lia) Hc)
      as (tok' & deps2 & Htok' & Hmix).
    assert (tok' = tok) as -> by congruence.
    fold n in Hscore, Hmix.
    exists tok. split; [exact Htok|].
    intros g Hg. unfold group_index.
    replace (layer_start n l + group_start n g + c)
      with (layer_start n l + (group_start n g + c)) by lia.
    rewrite GolangPositions.lookup_layer;
      [| lia | fold n; destruct Hg as [-> | ->]; cbn [group_start]; lia].
    destruct Hg as [-> | ->].
    + fold n. rewrite Hscore. eexists. split; [reflexivity|].
      split; [reflexivity|]. split; [reflexivity|].
      rewrite get_int_with_deps by reflexivity. reflexivity.
    + fold n. rewrite Hmix. eexists. split; [reflexivity|].
      split; [reflexivity|]. split; [reflexivity|].
      rewrite get_int_with_deps by reflexivity. reflexivity.
Qed.

Lemma C4_witness :
  exists seq,
    GolangTools.build_moe_sequence 1 8 16 2 1 4 1 2 2 3 (fun h => h) 32 = Ok seq
    /\ (forall p,
           exists st,
             lookup seq
               (projection_linear_index
                  (len (GolangLayout.plan_of 8 4 1 2 32)) 0 p 1) = Some st
             /\ has_type "rram_linear" st = true
             /\ get_str "name" st =
                Some (projection_label p ++ "_proj_rram_L" ++ str 0
                        ++ "_C" ++ str 1)%string
             /\ get_int "weight_bytes" st =
                Some (resident_weight (8 * 8 * Z.max 2 1) 1)
             /\ (8 <> 0 -> weight_on_first_chunk 1 st))
    /\ (exists st,
           lookup seq
             (moe_linear_index (len (GolangLayout.plan_of 8 4 1 2 32)) 0 1)
           = Some st
           /\ has_type "moe_linear" st = true
           /\ get_str "name" st
              = Some ("moe_L" ++ str 0 ++ "_C" ++ str 1)%string
           /\ get_int "weight_bytes" st =
              Some (resident_weight (8 * 16 * Z.max 2 1) 1)
           /\ (8 <> 0 -> 16 <> 0 -> weight_on_first_chunk 1 st)
           /\ len (stage_experts st) = 2
           /\ forall e ex,
               nth_error (stage_experts st) e = Some ex ->
               get_int "chunk_index" ex = Some 1
               /\ get_int "weight_bytes" ex =
                  Some (resident_weight (8 * 16 * Z.max 2 1) 1)
               /\ (8 <> 0 -> 16 <> 0 -> weight_on_first_chunk 1 ex))
    /\ exists chunk_tokens,
        nth_error (GolangLayout.plan_of 8 4 1 2 32) (Z.to_nat 1)
        = Some chunk_tokens
        /\ forall g,
            g = AttnScore \/ g = AttnMix ->
            exists st,
              lookup seq
                (group_index (len (GolangLayout.plan_of 8 4 1 2 32)) 0 g 1)
              = Some st
              /\ has_type "attention" st = true
              /\ get_str "name" st =
                 Some (group_label g ++ "_L" ++ str 0 ++ "_C" ++ str 1)%string
              /\ get_int "weight_bytes" st =
                 Some (attention_weight chunk_tokens 8 2).
Proof.
  eexists. split; [vm_compute; reflexivity|].
  apply (C4_weight_bytes_by_chunk 1 8 16 2 1 4 1 2 2 3 (fun h => h) 32).
  - vm_compute. reflexivity.
  - lia.
  - vm_compute. split; [discriminate | reflexivity].
Defined.
